(** * Physical-fitness record keeper: scoring, grading, roster import/export

    A shallow embedding of the scoring engine ([calculateScore],
    [determineGrade]), the live edit view, the two spreadsheet exports of
    [PhFitnessRecord.tsx], and the roster import ([processCSV],
    [uploadToFirebase]) and export ([downloadCSV]); then the handlers of
    the record page (listener, keys, inputs, saving, search) and of the
    upload page, as functions of the state of the page and of the store.

    Conventions of the embedding:
    - a JavaScript string is the list of its UTF-16 code units;
    - a JavaScript [number] is an instance of the class [JsNumber]; the
      development is carried out over exact decimal arithmetic ([number]),
      and the same definitions are evaluated over IEEE-754 binary64
      ([Binary64]) where the source's examples depend on rounding;
    - a property read that may yield [undefined] is an [option];
    - code that may throw returns a [result]. *)

From Stdlib Require Import ZArith QArith Qround Lia Lqa List Bool.
From Stdlib Require Import String Ascii.
From Stdlib Require SpecFloat.
From stdpp Require Import base option list gmap sorting.

Local Open Scope Z_scope.

(** ** Exceptions *)

Inductive error := TypeError.

Inductive result (A : Type) :=
| Ok (a : A)
| Throw (e : error).
Arguments Ok {A} a.
Arguments Throw {A} e.

Definition bind {A B} (r : result A) (k : A -> result B) : result B :=
  match r with
  | Ok a => k a
  | Throw e => Throw e
  end.

Notation "x <-- r ;; k" := (bind r (fun x => k))
  (at level 100, r at next level, right associativity).

(** [forEach]: run a callback over an array, threading the variables the
    callback assigns to; a throw inside the callback aborts the loop. *)
Fixpoint forEach {A S} (body : S -> A -> result S) (l : list A) (s : S)
  : result S :=
  match l with
  | [] => Ok s
  | a :: l' => s' <-- body s a ;; forEach body l' s'
  end.

(** ** Strings *)

Definition jsstring := list N.

Definition u (s : string) : jsstring :=
  List.map N_of_ascii (list_ascii_of_string s).
Arguments u s%_string.

Fixpoint str_eqb (a b : jsstring) : bool :=
  match a, b with
  | [], [] => true
  | x :: a', y :: b' => N.eqb x y && str_eqb a' b'
  | _, _ => false
  end.

(** [s.slice(start, end)] with JavaScript's treatment of negative and
    out-of-range indices. *)
Definition slice_index (len i : Z) : Z :=
  if i <? 0 then Z.max (len + i) 0 else Z.min i len.

Definition slice (start stop : Z) (s : jsstring) : jsstring :=
  let len := Z.of_nat (length s) in
  let from := slice_index len start in
  let to := slice_index len stop in
  take (Z.to_nat (to - from)) (drop (Z.to_nat from) s).

(** [s.slice(start)] *)
Definition slice_from (start : Z) (s : jsstring) : jsstring :=
  slice start (Z.of_nat (length s)) s.

(** [s.split(sep)] for a separator of one code unit. *)
Fixpoint split (sep : N) (s : jsstring) : list jsstring :=
  match s with
  | [] => [[]]
  | c :: s' =>
      if N.eqb c sep then [] :: split sep s'
      else match split sep s' with
           | [] => [[c]]
           | w :: ws => (c :: w) :: ws
           end
  end.

(** [l.join(sep)] *)
Fixpoint join (sep : jsstring) (l : list jsstring) : jsstring :=
  match l with
  | [] => []
  | [w] => w
  | w :: ws => w ++ sep ++ join sep ws
  end.

(** The code units [String.prototype.trim] strips: WhiteSpace and
    LineTerminator of ECMAScript. *)
Definition is_ws (c : N) : bool :=
  let c := Z.of_N c in
  (c =? 9) || (c =? 10) || (c =? 11) || (c =? 12) || (c =? 13) || (c =? 32)
  || (c =? 160) || (c =? 5760) || ((8192 <=? c) && (c <=? 8202))
  || (c =? 8232) || (c =? 8233) || (c =? 8239) || (c =? 8287)
  || (c =? 12288) || (c =? 65279).

Fixpoint trimStart (s : jsstring) : jsstring :=
  match s with
  | [] => []
  | c :: s' => if is_ws c then trimStart s' else s
  end.

Fixpoint trimEnd (s : jsstring) : jsstring :=
  match s with
  | [] => []
  | c :: s' =>
      match trimEnd s' with
      | [] => if is_ws c then [] else [c]
      | t => c :: t
      end
  end.

Definition trim (s : jsstring) : jsstring := trimEnd (trimStart s).

(** Decimal rendering of a loop counter, as in [`${i}`]. *)
Definition digit (n : nat) : N := N.of_nat (48 + n).

Fixpoint nat_digits (fuel n : nat) (acc : jsstring) : jsstring :=
  match fuel with
  | O => acc
  | S fuel' =>
      let acc' := digit (n mod 10) :: acc in
      if (n / 10 =? 0)%nat then acc' else nat_digits fuel' (n / 10)%nat acc'
  end.

Definition nat_to_string (n : nat) : jsstring := nat_digits (S n) n [].

(** ** Numbers *)

Class JsNumber (num : Type) := {
  lit : Q -> num;                 (* a numeric literal of the source *)
  infinity : num;                 (* [Infinity] *)
  nan : num;                      (* [NaN] *)
  times10 : num -> num;           (* [x * 10] *)
  over10 : num -> num;            (* [x / 10] *)
  Math_floor : num -> num;
  Math_max : num -> num -> num;
  le : num -> num -> bool;        (* [x <= y] *)
}.

(** [x >= y] *)
Definition ge {num} `{!JsNumber num} (x y : num) : bool := le y x.

(** ToNumber of a value that may be [undefined]. *)
Definition toNumber {num} `{!JsNumber num} (v : option num) : num :=
  match v with
  | Some x => x
  | None => nan
  end.

(** [a ?? b] *)
Definition nullish {A} (a : option A) (b : option A) : option A :=
  match a with
  | Some x => Some x
  | None => b
  end.
Infix "??" := nullish (at level 45, left associativity).

(** *** Exact decimal arithmetic

    The values a measurement can take: a finite number, [NaN] (what an
    absent value becomes under arithmetic) and [Infinity] (the open top of
    a score range). *)
Inductive number :=
| Real (q : Q)
| PosInf
| NotANumber.

Definition number_le (x y : number) : bool :=
  match x, y with
  | Real a, Real b => Qle_bool a b
  | Real _, PosInf => true
  | PosInf, PosInf => true
  | _, _ => false
  end.

Definition number_max (x y : number) : number :=
  match x, y with
  | NotANumber, _ | _, NotANumber => NotANumber
  | PosInf, _ | _, PosInf => PosInf
  | Real a, Real b => if Qle_bool a b then Real b else Real a
  end.

Definition number_floor (x : number) : number :=
  match x with
  | Real q => Real (inject_Z (Qfloor q))
  | other => other
  end.

Definition number_scale (k : Q) (x : number) : number :=
  match x with
  | Real q => Real (q * k)
  | other => other
  end.

#[global] Instance exact : JsNumber number := {
  lit := Real;
  infinity := PosInf;
  nan := NotANumber;
  times10 := number_scale 10;
  over10 := number_scale (1 # 10);
  Math_floor := number_floor;
  Math_max := number_max;
  le := number_le;
}.

(** An integer as a [number]. *)
Definition int (n : Z) : number := Real (inject_Z n).

(** *** IEEE-754 binary64 *)
Module Binary64.
Import SpecFloat.

Definition prec : Z := 53.
Definition emax : Z := 1024.

Definition of_Z (z : Z) : spec_float := binary_normalize prec emax z 0 false.

(** A decimal literal is read as the double nearest to it; numerator and
    denominator of the literals used here are exact doubles, so the
    correctly rounded quotient is that double. *)
Definition of_Q (q : Q) : spec_float :=
  SFdiv prec emax (of_Z (Qnum q)) (of_Z (Zpos (Qden q))).

Definition floor (x : spec_float) : spec_float :=
  match x with
  | S754_finite s m e =>
      let z := match e with
               | Zneg p => Z.shiftr (cond_Zopp s (Zpos m)) (Zpos p)
               | _ => Z.shiftl (cond_Zopp s (Zpos m)) e
               end in
      binary_normalize prec emax z 0 s
  | other => other
  end.

Definition max (x y : spec_float) : spec_float :=
  match SFcompare x y with
  | None => S754_nan
  | Some Lt => y
  | Some Gt => x
  | Some Eq => match x with S754_zero true => y | _ => x end
  end.

#[global] Instance binary64 : JsNumber spec_float | 10 := {
  lit := of_Q;
  infinity := S754_infinity false;
  nan := S754_nan;
  times10 x := SFmul prec emax x (of_Z 10);
  over10 x := SFdiv prec emax x (of_Z 10);
  Math_floor := floor;
  Math_max := max;
  le := SFleb;
}.
End Binary64.

(** * The scoring engine *)

Inductive Gender := Boy | Girl.

Section Scoring.
Context {num : Type} `{!JsNumber num}.

Record ScoreRange := { min : num; max : num; score : Z }.

Record GenderScores := { forBoy : list ScoreRange; forGirl : list ScoreRange }.

(** [scores[gender]] *)
Definition byGender (scores : GenderScores) (gender : Gender) : list ScoreRange :=
  match gender with
  | Boy => forBoy scores
  | Girl => forGirl scores
  end.

(** [{ min: a, max: b, score: s }] and [{ min: a, max: Infinity, score: s }] *)
Definition range (a b : Q) (s : Z) : ScoreRange :=
  {| min := lit a; max := lit b; score := s |}.
Definition rangeUp (a : Q) (s : Z) : ScoreRange :=
  {| min := lit a; max := infinity; score := s |}.

Definition scoringTables : list (jsstring * GenderScores) :=
  [ (u "gripStrength",
     {| forBoy :=
          [ range 26 100 10; range 23 25 9; range 20 22 8; range 17 19 7;
            range 14 16 6; range 11 13 5; range 9 10 4; range 7 8 3;
            range 5 6 2; range 4 4 1 ];
        forGirl :=
          [ range 25 100 10; range 22 24 9; range 19 21 8; range 16 18 7;
            range 13 15 6; range 11 12 5; range 9 10 4; range 7 8 3;
            range 4 6 2; range 3 3 1 ] |});
    (u "situps",
     {| forBoy :=
          [ rangeUp 26 10; range 23 25 9; range 20 22 8; range 18 19 7;
            range 15 17 6; range 12 14 5; range 10 11 4; range 6 9 3;
            range 3 5 2; range 2 2 1 ];
        forGirl :=
          [ rangeUp 23 10; range 20 22 9; range 18 19 8; range 16 17 7;
            range 14 15 6; range 12 13 5; range 10 11 4; range 6 9 3;
            range 3 5 2; range 2 2 1 ] |});
    (u "seatedtoetouch",
     {| forBoy :=
          [ rangeUp 49 10; range 43 48 9; range 38 42 8; range 34 37 7;
            range 30 33 6; range 27 29 5; range 23 26 4; range 19 22 3;
            range 15 18 2; range 14 14 1 ];
        forGirl :=
          [ rangeUp 52 10; range 46 51 9; range 41 45 8; range 37 40 7;
            range 33 36 6; range 29 32 5; range 24 28 4; range 21 23 3;
            range 18 20 2; range 17 17 1 ] |});
    (u "sidesteps",
     {| forBoy :=
          [ rangeUp 50 10; range 46 49 9; range 42 45 8; range 38 41 7;
            range 34 37 6; range 30 33 5; range 26 29 4; range 22 25 3;
            range 18 21 2; range 1 17 1 ];
        forGirl :=
          [ rangeUp 47 10; range 43 46 9; range 40 42 8; range 36 39 7;
            range 32 35 6; range 28 31 5; range 25 27 4; range 21 24 3;
            range 17 20 2; range 1 16 1 ] |});
    (u "20mshuttleruns",
     {| forBoy :=
          [ rangeUp 80 10; range 69 79 9; range 57 68 8; range 45 56 7;
            range 33 44 6; range 23 32 5; range 15 22 4; range 10 14 3;
            range 8 9 2; range 1 7 1 ];
        forGirl :=
          [ rangeUp 64 10; range 54 63 9; range 44 53 8; range 35 43 7;
            range 26 34 6; range 19 25 5; range 14 18 4; range 10 13 3;
            range 8 9 2; range 1 7 1 ] |});
    (u "50msprint",
     {| forBoy :=
          [ range 1 8.0 10; range 8.1 8.4 9; range 8.5 8.8 8; range 8.9 9.3 7;
            range 9.4 9.9 6; range 10.0 10.6 5; range 10.7 11.4 4;
            range 11.5 12.2 3; range 12.3 13.0 2; rangeUp 13.1 1 ];
        forGirl :=
          [ range 1 8.3 10; range 8.4 8.7 9; range 8.8 9.1 8; range 9.2 9.6 7;
            range 9.7 10.2 6; range 10.3 10.9 5; range 11.0 11.6 4;
            range 11.7 12.4 3; range 12.5 13.2 2; rangeUp 13.3 1 ] |});
    (u "longjump",
     {| forBoy :=
          [ rangeUp 192 10; range 180 191 9; range 168 179 8; range 156 167 7;
            range 143 155 6; range 130 142 5; range 117 129 4;
            range 105 116 3; range 93 104 2; range 1 92 1 ];
        forGirl :=
          [ rangeUp 181 10; range 170 180 9; range 160 169 8; range 147 159 7;
            range 134 146 6; range 121 133 5; range 109 120 4;
            range 98 108 3; range 85 97 2; range 1 84 1 ] |});
    (u "softballthrowing",
     {| forBoy :=
          [ rangeUp 40 10; range 35 39 9; range 30 34 8; range 24 29 7;
            range 18 23 6; range 13 17 5; range 10 12 4; range 7 9 3;
            range 4 6 2; range 1 3 1 ];
        forGirl :=
          [ rangeUp 25 10; range 21 24 9; range 17 20 8; range 14 16 7;
            range 11 13 6; range 8 10 5; range 6 7 4; range 4 5 3;
            range 2 3 2; range 1 1 1 ] |}) ]%Q.

(** [obj[key]] on an object literal, [None] for [undefined]. *)
Fixpoint property {V} (obj : list (jsstring * V)) (key : jsstring) : option V :=
  match obj with
  | [] => None
  | (k, v) :: rest => if str_eqb k key then Some v else property rest key
  end.

(** [Object.keys(obj)] *)
Definition Object_keys {V} (obj : list (jsstring * V)) : list jsstring :=
  List.map fst obj.

Definition truncateToOneDecimal (n : num) : num :=
  over10 (Math_floor (times10 n)).

(** [foundRange ? foundRange.score : 0] *)
Definition scoreOrZero (foundRange : option ScoreRange) : Z :=
  match foundRange with
  | Some r => score r
  | None => 0
  end.

(** Reading [scoringTables[component][gender]] of an unknown component
    throws; [firstTry] and [secondTry] occur in arithmetic only, so the
    callers pass them through [toNumber]. *)
Definition calculateScore (component : jsstring) (gender : Gender)
    (firstTry secondTry : num) : result Z :=
  match property scoringTables component with
  | None => Throw TypeError
  | Some scores =>
      let ranges := byGender scores gender in
      if str_eqb component (u "50msprint") then
        let truncatedFirstTry := truncateToOneDecimal firstTry in
        let foundRange :=
          find (fun range => le truncatedFirstTry (max range)
                             && ge truncatedFirstTry (min range)) ranges in
        Ok (scoreOrZero foundRange)
      else
        let result := Math_max firstTry secondTry in
        let foundRange :=
          find (fun range => ge result (min range) && le result (max range))
               ranges in
        Ok (scoreOrZero foundRange)
  end.

Definition gradeThresholds : list (jsstring * list Z) :=
  [ (u "G1", [39; 33; 27; 22; 2]);
    (u "G2", [47; 41; 34; 27; 26]);
    (u "G3", [53; 46; 39; 32; 31]);
    (u "G4", [59; 52; 45; 38; 37]);
    (u "G5", [65; 58; 50; 42; 41]);
    (u "G6", [71; 63; 55; 46; 45]) ].

(** The loop of [determineGrade] from index [i] on, over the thresholds
    that remain. *)
Fixpoint gradeLoop (totalScore : Z) (thresholds : list Z) (i : N) : jsstring :=
  match thresholds with
  | [] => u "E"
  | t :: rest =>
      if totalScore >=? t then [(65 + i)%N]
      else gradeLoop totalScore rest (i + 1)%N
  end.

(** The total is a sum of table scores, hence an integer. Reading
    [thresholds.length] of an unknown grade prefix throws. *)
Definition determineGrade (totalScore : Z) (gradeLevel : jsstring)
  : result jsstring :=
  match property gradeThresholds (slice 0 2 gradeLevel) with
  | None => Throw TypeError
  | Some thresholds => Ok (gradeLoop totalScore thresholds 0%N)
  end.

Definition componentOrder : list (jsstring * jsstring) :=
  [ (u "gripStrength", u "Grip Strength");
    (u "situps", u "Sit-ups");
    (u "seatedtoetouch", u "Seated Toe Touch");
    (u "sidesteps", u "Side Steps");
    (u "20mshuttleruns", u "20 m Shuttle Runs");
    (u "50msprint", u "50 m Sprint");
    (u "longjump", u "Long Jump");
    (u "softballthrowing", u "Softball Throwing") ].

Definition getUnitForComponent (component : jsstring) : jsstring :=
  if str_eqb component (u "50msprint") then u "seconds"
  else if str_eqb component (u "longjump")
          || str_eqb component (u "seatedtoetouch") then u "cm"
  else if str_eqb component (u "softballthrowing") then u "m"
  else u "times".

End Scoring.

(** ** Reading a score table

    The vocabulary in which the properties of [calculateScore] are stated:
    the ranges of a (component, gender) pair, membership of a value in a
    range, and the score the table gives a value. *)

Section Lookup.
Context {num : Type} `{!JsNumber num}.

Definition inRange (v : num) (r : ScoreRange) : bool :=
  le (min r) v && le v (max r).

Definition covered (ranges : list ScoreRange) (v : num) : bool :=
  existsb (inRange v) ranges.

Definition tableOf (component : jsstring) (gender : Gender) : list ScoreRange :=
  match property scoringTables component with
  | Some scores => byGender scores gender
  | None => []
  end.

Definition tableScore (component : jsstring) (gender : Gender) (v : num) : Z :=
  scoreOrZero (find (inRange v) (tableOf component gender)).

(** The value [calculateScore] looks up. *)
Definition lookedUp (component : jsstring) (firstTry secondTry : num) : num :=
  if str_eqb component (u "50msprint") then truncateToOneDecimal firstTry
  else Math_max firstTry secondTry.

End Lookup.

#[global] Instance Q_eq_dec : EqDecision Q.
Proof. solve_decision. Defined.
#[global] Instance number_eq_dec : EqDecision number.
Proof. solve_decision. Defined.
#[global] Instance ScoreRange_eq_dec : EqDecision (@ScoreRange number).
Proof. solve_decision. Defined.

(** Decidable well-formedness of a table over exact numbers. *)

(** [a < b], for bounds that are not [NaN] *)
Definition below (a b : number) : bool := negb (number_le b a).

Definition separated (r1 r2 : @ScoreRange number) : bool :=
  bool_decide (r1 = r2) || below (max r1) (min r2) || below (max r2) (min r1).

Definition disjoint (ranges : list (@ScoreRange number)) : bool :=
  forallb (fun r1 => forallb (separated r1) ranges) ranges.

(** The least integer a range can hold, and whether it holds it. *)
Definition zlo (r : @ScoreRange number) : Z :=
  match min r with
  | Real a => Qceiling a
  | _ => 0
  end.

Definition inhabited (r : @ScoreRange number) : bool := inRange (int (zlo r)) r.

(** Every range that holds an integer starts at [L] or right above an
    integer some range holds, and none starts below [L]. *)
Definition contiguousFrom (L : Z) (ranges : list (@ScoreRange number)) : bool :=
  forallb (fun r => negb (inhabited r)
                    || ((L <=? zlo r)
                        && ((zlo r =? L) || covered ranges (int (zlo r - 1)))))
          ranges.

Definition lowest (ranges : list (@ScoreRange number)) : Z :=
  let starts := List.map zlo (List.filter inhabited ranges) in
  fold_right Z.min (hd 0 starts) starts.

Definition scoreInBounds (r : @ScoreRange number) : bool :=
  (1 <=? score r) && (score r <=? 10).

Definition wellFormed (ranges : list (@ScoreRange number)) : bool :=
  disjoint ranges && contiguousFrom (lowest ranges) ranges
  && forallb scoreInBounds ranges && negb (covered ranges (int 0)).

(** Truncation toward zero to one decimal place. *)
Definition Qtruncate (q : Q) : Z := Z.quot (Qnum q) (Zpos (Qden q)).

Definition truncTowardZero1 (q : Q) : Q := inject_Z (Qtruncate (q * 10)) * (1 # 10).

(** Rounding to the nearest tenth, halves up. *)
Definition roundToOneDecimal (q : Q) : Q := inject_Z (Qfloor (q * 10 + (1 # 2))) * (1 # 10).

(** * Student records and the live edit view *)

Section Records.
Context {num : Type} `{!JsNumber num}.

(** [try1st] and [try2nd] are the objects ['1sttry'] and ['2ndtry']; reading
    a component they do not hold yields [undefined]. *)
Record Student := {
  enname : jsstring;
  jpname : jsstring;
  class : jsstring;
  grade : jsstring;
  gender : Gender;
  try1st : gmap jsstring num;
  try2nd : gmap jsstring num;
}.

(** [Math.max(a, b, c, d)]: [NaN] as soon as one argument is. *)
Definition Math_max4 (a b c d : num) : num :=
  Math_max (Math_max (Math_max a b) c) d.

(** A row of the edit view: its key, the values its inputs show, and the
    content of its last cell. *)
Inductive EditRow :=
| ComponentRow (key : jsstring) (label : option jsstring)
               (inputs : list (option num)) (score : Z)
| GripRow (inputs : list (option num)) (shown : num) (score : Z)
| TotalRow (totalScore : Z)
| GradeRow (letter : jsstring).

Definition renderGripStrength (student : Student) : result EditRow :=
  let maxGripStrength :=
    Math_max4 (toNumber (try1st student !! u "gripstrR"))
              (toNumber (try2nd student !! u "gripstrR"))
              (toNumber (try1st student !! u "gripstrL"))
              (toNumber (try2nd student !! u "gripstrL")) in
  score <-- calculateScore (u "gripStrength") (gender student) maxGripStrength (lit 0) ;;
  Ok (GripRow [ try1st student !! u "gripstrR"; try2nd student !! u "gripstrR";
                try1st student !! u "gripstrL"; try2nd student !! u "gripstrL" ]
              maxGripStrength score).

(** [row.props.children[2].props.children]: the content of the score cell *)
Definition scoreCell (row : EditRow) : Z :=
  match row with
  | ComponentRow _ _ _ score => score
  | GripRow _ _ score => score
  | TotalRow totalScore => totalScore
  | GradeRow _ => 0
  end.

(** The callback of the loop of [renderEditView] over the components; the
    state is [totalScore] and [componentRows]. *)
Definition editViewRow (student : Student) (st : Z * list EditRow)
    (component : jsstring) : result (Z * list EditRow) :=
  let '(totalScore, componentRows) := st in
  if negb (str_eqb component (u "gripStrength")) then
    let firstTry := try1st student !! component in
    let secondTry := try2nd student !! component ?? firstTry in
    score <-- calculateScore component (gender student)
                (toNumber firstTry) (toNumber secondTry) ;;
    let inputs :=
      if str_eqb component (u "situps") || str_eqb component (u "20mshuttleruns")
      then [firstTry]
      else if str_eqb component (u "50msprint") then [firstTry]
      else [firstTry; secondTry] in
    let label := property componentOrder component in
    Ok (totalScore + score,
        componentRows ++ [ComponentRow component label inputs score])
  else Ok st.

Definition renderEditView (student : Student) : result (list EditRow) :=
  let totalScore := 0 in
  gripRow <-- renderGripStrength student ;;
  let componentRows := [gripRow] in
  gripRow' <-- renderGripStrength student ;;
  let totalScore := totalScore + scoreCell gripRow' in
  st <-- forEach (editViewRow student) (Object_keys componentOrder)
                 (totalScore, componentRows) ;;
  let '(totalScore, componentRows) := st in
  letter <-- determineGrade totalScore (class student) ;;
  Ok (componentRows ++ [TotalRow totalScore; GradeRow letter]).

(** * The spreadsheet exports

    The spreadsheet library is a collaborator of the program: a worksheet
    is represented by its name and the calls the program makes on it, in
    order. *)

Record Style := {
  fontSize : Z;
  horizontal : jsstring;
  vertical : jsstring;
  wrapText : option bool;
  borderTop : option jsstring;
  borderLeft : option jsstring;
  borderBottom : option jsstring;
  borderRight : option jsstring;
}.

(** [Template v] is the string [`${v}`] of a measurement. *)
Inductive CellValue :=
| Undefined
| Str (s : jsstring)
| Num (n : num)
| Int (z : Z)
| Template (v : option num).

Definition cellOf (v : option num) : CellValue :=
  match v with
  | Some n => Num n
  | None => Undefined
  end.

Definition cellOfString (v : option jsstring) : CellValue :=
  match v with
  | Some s => Str s
  | None => Undefined
  end.

Inductive SheetOp :=
| SetValue (address : jsstring) (value : CellValue)  (* getCell(a).value = v *)
| SetStyle (address : jsstring) (style : Style)      (* getCell(a).style = s *)
| MergeCells (cells : jsstring)
| AddRow (values : list CellValue)
| EachCell (callback : Z -> Style)   (* on the cells of the row just added *)
| SetWidth (column : jsstring) (width : Q).

Record Worksheet := { sheetName : jsstring; calls : list SheetOp }.

Definition setManualColumnWidths : list SheetOp :=
  [ SetWidth (u "A") 13.5; SetWidth (u "B") 7.67; SetWidth (u "C") 6;
    SetWidth (u "D") 4.22; SetWidth (u "E") 6.78; SetWidth (u "F") 7.5;
    SetWidth (u "G") 4.00; SetWidth (u "H") 8; SetWidth (u "I") 15;
    SetWidth (u "J") 16 ]%Q.

End Records.

Arguments Student num : clear implicits.
Arguments EditRow num : clear implicits.
Arguments CellValue num : clear implicits.
Arguments SheetOp num : clear implicits.
Arguments Worksheet num : clear implicits.

(** [array.forEach((element, index) => ...)] visits these pairs. *)
Definition indexed {A} (l : list A) : list (nat * A) :=
  combine (seq 0 (length l)) l.

(** ** One workbook per student, zipped: [exportGradeToIndividualWorkbooks] *)
Module Individual.
Section Rendering.
Context {num : Type} `{!JsNumber num}.

Definition headerStyle : Style :=
  {| fontSize := 22; horizontal := u "center"; vertical := u "middle";
     wrapText := None;
     borderTop := None; borderLeft := None;
     borderBottom := Some (u "thick"); borderRight := None |}.

Definition dataStyle : Style :=
  {| fontSize := 14; horizontal := u "center"; vertical := u "middle";
     wrapText := Some true;
     borderTop := Some (u "thin"); borderLeft := Some (u "thin");
     borderBottom := Some (u "thin"); borderRight := Some (u "thin") |}.

Definition leftAlignedDataStyle : Style :=
  {| fontSize := 14; horizontal := u "left"; vertical := u "middle";
     wrapText := Some true;
     borderTop := Some (u "thin"); borderLeft := Some (u "thin");
     borderBottom := Some (u "thin"); borderRight := Some (u "thin") |}.

Definition applyStyleToCell (colNumber : Z) : Style :=
  if (colNumber =? 6) || (colNumber =? 9) then leftAlignedDataStyle
  else dataStyle.

(** Title, header block and column headers: rows 1 to 4. *)
Definition headerCalls (i : nat) (student : Student num) : list (SheetOp num) :=
  [ SetValue (u "A1") (Str (u "Physical Fitness Test Results"));
    SetStyle (u "A1") headerStyle;
    MergeCells (u "A1:J1");
    SetValue (u "A2") (Str (u "Grade"));
    SetStyle (u "A2") headerStyle;
    SetValue (u "B2") (Str (slice 1 (-1) (class student)));
    SetStyle (u "B2") headerStyle;
    SetValue (u "C2") (Str (u "Class"));
    SetStyle (u "C2") headerStyle;
    SetStyle (u "D2") headerStyle;
    MergeCells (u "C2:D2");
    SetValue (u "E2") (Str (slice_from (-1) (class student)));
    SetStyle (u "E2") headerStyle;
    SetStyle (u "G2") headerStyle;
    SetValue (u "F2") (Str (u "Name"));
    SetStyle (u "F2") headerStyle;
    MergeCells (u "G2:F2");
    SetValue (u "H2") (Str (nat_to_string i ++ u " " ++ enname student));
    SetStyle (u "H2") headerStyle;
    MergeCells (u "H2:J2");
    AddRow [Str (u ""); Str (u ""); Str (u "")];
    AddRow [ Str (u "Component"); Str (u ""); Str (u "Record"); Str (u "");
             Str (u ""); Str (u ""); Str (u ""); Str (u ""); Str (u "");
             Str (u "Score") ];
    EachCell applyStyleToCell;
    MergeCells (u "A4:B4");
    MergeCells (u "C4:I4") ].

(** The callback of the loop over [Object.keys(componentOrder)]; the state
    is [totalScore] and the calls made on the worksheet so far. *)
Definition componentCalls (student : Student num) (st : Z * list (SheetOp num))
    (key : jsstring) : result (Z * list (SheetOp num)) :=
  let '(totalScore, sheet) := st in
  if str_eqb key (u "gripStrength") then
    let firstTryR := try1st student !! u "gripstrR" in
    let secondTryR := try2nd student !! u "gripstrR" ?? firstTryR in
    let firstTryL := try1st student !! u "gripstrL" in
    let secondTryL := try2nd student !! u "gripstrL" ?? firstTryL in
    let maxGripStrength :=
      Math_max4 (toNumber firstTryR) (toNumber secondTryR)
                (toNumber firstTryL) (toNumber secondTryL) in
    score <-- calculateScore (u "gripStrength") (gender student)
                maxGripStrength (lit 0) ;;
    Ok (totalScore + score,
        sheet ++
        [ AddRow [ Str (u "Grip Strength"); Str (u ""); Str (u "R"); Str (u "1:");
                   Template firstTryR; Str (u "kg"); Str (u "2:");
                   Template secondTryR; Str (u "kg"); Int score ];
          EachCell applyStyleToCell;
          AddRow [ Str (u "Grip Strength"); Str (u ""); Str (u "L"); Str (u "1:");
                   Template firstTryL; Str (u "kg"); Str (u "2:");
                   Template secondTryL; Str (u "kg"); Int score ];
          EachCell applyStyleToCell;
          AddRow [ Str (u ""); Str (u ""); Str (u "Avg: ");
                   Template (Some maxGripStrength); Str (u ""); Str (u "");
                   Str (u ""); Str (u ""); Str (u "kg"); Str (u "") ];
          EachCell applyStyleToCell;
          MergeCells (u "A5:B7");
          MergeCells (u "D7:H7");
          MergeCells (u "J5:J7") ])
  else if str_eqb key (u "situps") || str_eqb key (u "50msprint")
          || str_eqb key (u "20mshuttleruns") then
    let firstTry := try1st student !! key in
    score <-- calculateScore key (gender student) (toNumber firstTry) (lit 0) ;;
    let label := cellOfString (property componentOrder key) in
    let unit := Str (getUnitForComponent key) in
    Ok (totalScore + score,
        sheet ++
        (if str_eqb key (u "situps") then
           [ AddRow [ label; Str (u ""); Template firstTry; Str (u ""); Str (u "");
                      Str (u ""); Str (u ""); Str (u ""); unit; Int score ];
             EachCell applyStyleToCell;
             MergeCells (u "A8:B8");
             MergeCells (u "C8:H8") ]
         else []) ++
        (if str_eqb key (u "50msprint") then
           [ AddRow [ label; Str (u ""); Template firstTry; Str (u ""); Str (u "");
                      Str (u ""); Str (u ""); unit; Str (u ""); Int score ];
             EachCell applyStyleToCell;
             MergeCells (u "A12:B12");
             MergeCells (u "C12:G12");
             MergeCells (u "H12:I12");
             SetStyle (u "H12") leftAlignedDataStyle ]
         else []) ++
        (if str_eqb key (u "20mshuttleruns") then
           [ AddRow [ label; Str (u ""); Template firstTry; Str (u ""); Str (u "");
                      Str (u ""); Str (u ""); Str (u ""); unit; Int score ];
             EachCell applyStyleToCell;
             MergeCells (u "A11:B11");
             MergeCells (u "C11:H11") ]
         else []))
  else
    let firstTry := try1st student !! key in
    let secondTry := try2nd student !! key ?? firstTry in
    score <-- calculateScore key (gender student)
                (toNumber firstTry) (toNumber secondTry) ;;
    let label := cellOfString (property componentOrder key) in
    let unit := Str (getUnitForComponent key) in
    Ok (totalScore + score,
        sheet ++
        [ AddRow [ label; Str (u ""); Str (u ""); Str (u "1:"); cellOf firstTry;
                   unit; Str (u "2:"); cellOf secondTry; unit; Int score ];
          EachCell applyStyleToCell ] ++
        (if str_eqb key (u "seatedtoetouch") then [MergeCells (u "A9:B9")] else []) ++
        (if str_eqb key (u "sidesteps") then [MergeCells (u "A10:B10")] else []) ++
        (if str_eqb key (u "longjump") then [MergeCells (u "A13:B13")] else []) ++
        (if str_eqb key (u "softballthrowing") then [MergeCells (u "A14:B14")] else [])).

(** The calls made on the worksheet of one student, the [i]-th of the
    export. *)
Definition sheetCalls (i : nat) (student : Student num) : result (list (SheetOp num)) :=
  let totalScore := 0 in
  st <-- forEach (componentCalls student) (Object_keys componentOrder)
                 (totalScore, headerCalls i student) ;;
  let '(totalScore, sheet) := st in
  grade <-- determineGrade totalScore (class student) ;;
  Ok (sheet ++
      [ AddRow [ Str (u "Total Score"); Str (u ""); Str (u ""); Str (u "");
                 Str (u ""); Str (u ""); Str (u ""); Str (u ""); Str (u "");
                 Int totalScore ];
        EachCell applyStyleToCell;
        MergeCells (u "A15:I15");
        AddRow [ Str (u "Grade"); Str (u ""); Str (u ""); Str (u ""); Str (u "");
                 Str (u ""); Str (u ""); Str (u ""); Str (u ""); Str grade ];
        EachCell applyStyleToCell;
        MergeCells (u "A16:I16") ] ++
      setManualColumnWidths).

(** The body of the loop over the students; the state is the counter [i]
    and the files added to the archive. *)
Definition addWorkbook (st : nat * list (jsstring * Worksheet num)) (student : Student num)
  : result (nat * list (jsstring * Worksheet num)) :=
  let '(i, zip) := st in
  sheet <-- sheetCalls i student ;;
  let worksheet :=
    {| sheetName := u "Grade " ++ slice 1 (-1) (class student); calls := sheet |} in
  Ok (S i, zip ++ [(nat_to_string i ++ u " " ++ enname student ++ u ".xlsx", worksheet)]).

(** The name of the archive and its files, one workbook of one worksheet
    each. *)
Definition exportGradeToIndividualWorkbooks (students : list (Student num))
    (selectedGrade : jsstring) : result (jsstring * list (jsstring * Worksheet num)) :=
  st <-- forEach addWorkbook students (1%nat, []) ;;
  Ok (u "Grade_" ++ selectedGrade ++ u "_Reports.zip", snd st).

End Rendering.
End Individual.

(** ** One workbook, a worksheet per student: [exportGradeToSingleWorkbook] *)
Module Single.
Section Rendering.
Context {num : Type} `{!JsNumber num}.

Definition headerStyle : Style :=
  {| fontSize := 22; horizontal := u "center"; vertical := u "middle";
     wrapText := None;
     borderTop := None; borderLeft := None;
     borderBottom := Some (u "thick"); borderRight := None |}.

Definition dataStyle : Style :=
  {| fontSize := 14; horizontal := u "center"; vertical := u "middle";
     wrapText := Some true;
     borderTop := Some (u "thin"); borderLeft := Some (u "thin");
     borderBottom := Some (u "thin"); borderRight := Some (u "thin") |}.

Definition leftAlignedDataStyle : Style :=
  {| fontSize := 14; horizontal := u "left"; vertical := u "middle";
     wrapText := Some true;
     borderTop := Some (u "thin"); borderLeft := Some (u "thin");
     borderBottom := Some (u "thin"); borderRight := Some (u "thin") |}.

Definition applyStyleToCell (colNumber : Z) : Style :=
  if (colNumber =? 6) || (colNumber =? 9) then leftAlignedDataStyle
  else dataStyle.

(** Title, header block and column headers: rows 1 to 4. *)
Definition headerCalls (i : nat) (student : Student num) : list (SheetOp num) :=
  [ SetValue (u "A1") (Str (u "Physical Fitness Test Results"));
    SetStyle (u "A1") headerStyle;
    MergeCells (u "A1:J1");
    SetValue (u "A2") (Str (u "Grade"));
    SetStyle (u "A2") headerStyle;
    SetValue (u "B2") (Str (slice 1 (-1) (class student)));
    SetStyle (u "B2") headerStyle;
    SetValue (u "C2") (Str (u "Class"));
    SetStyle (u "C2") headerStyle;
    SetStyle (u "D2") headerStyle;
    MergeCells (u "C2:D2");
    SetValue (u "E2") (Str (slice_from (-1) (class student)));
    SetStyle (u "E2") headerStyle;
    SetStyle (u "G2") headerStyle;
    SetValue (u "F2") (Str (u "Name"));
    SetStyle (u "F2") headerStyle;
    MergeCells (u "G2:F2");
    SetValue (u "H2") (Str (nat_to_string i ++ u " " ++ enname student));
    SetStyle (u "H2") headerStyle;
    MergeCells (u "H2:J2");
    AddRow [Str (u ""); Str (u ""); Str (u "")];
    AddRow [ Str (u "Component"); Str (u ""); Str (u "Record"); Str (u "");
             Str (u ""); Str (u ""); Str (u ""); Str (u ""); Str (u "");
             Str (u "Score") ];
    EachCell applyStyleToCell;
    MergeCells (u "A4:B4");
    MergeCells (u "C4:I4") ].

(** The callback of the loop over [Object.keys(componentOrder)]; the state
    is [totalScore] and the calls made on the worksheet so far. *)
Definition componentCalls (student : Student num) (st : Z * list (SheetOp num))
    (key : jsstring) : result (Z * list (SheetOp num)) :=
  let '(totalScore, sheet) := st in
  if str_eqb key (u "gripStrength") then
    let firstTryR := try1st student !! u "gripstrR" in
    let secondTryR := try2nd student !! u "gripstrR" ?? firstTryR in
    let firstTryL := try1st student !! u "gripstrL" in
    let secondTryL := try2nd student !! u "gripstrL" ?? firstTryL in
    let maxGripStrength :=
      Math_max4 (toNumber firstTryR) (toNumber secondTryR)
                (toNumber firstTryL) (toNumber secondTryL) in
    score <-- calculateScore (u "gripStrength") (gender student)
                maxGripStrength (lit 0) ;;
    Ok (totalScore + score,
        sheet ++
        [ AddRow [ Str (u "Grip Strength"); Str (u ""); Str (u "R"); Str (u "1:");
                   Template firstTryR; Str (u "kg"); Str (u "2:");
                   Template secondTryR; Str (u "kg"); Int score ];
          EachCell applyStyleToCell;
          AddRow [ Str (u "Grip Strength"); Str (u ""); Str (u "L"); Str (u "1:");
                   Template firstTryL; Str (u "kg"); Str (u "2:");
                   Template secondTryL; Str (u "kg"); Int score ];
          EachCell applyStyleToCell;
          AddRow [ Str (u ""); Str (u ""); Str (u "Avg: ");
                   Template (Some maxGripStrength); Str (u ""); Str (u "");
                   Str (u ""); Str (u ""); Str (u "kg"); Str (u "") ];
          EachCell applyStyleToCell;
          MergeCells (u "A5:B7");
          MergeCells (u "D7:H7");
          MergeCells (u "J5:J7") ])
  else if str_eqb key (u "situps") || str_eqb key (u "50msprint")
          || str_eqb key (u "20mshuttleruns") then
    let firstTry := try1st student !! key in
    score <-- calculateScore key (gender student) (toNumber firstTry) (lit 0) ;;
    let label := cellOfString (property componentOrder key) in
    let unit := Str (getUnitForComponent key) in
    Ok (totalScore + score,
        sheet ++
        (if str_eqb key (u "situps") then
           [ AddRow [ label; Str (u ""); Template firstTry; Str (u ""); Str (u "");
                      Str (u ""); Str (u ""); Str (u ""); unit; Int score ];
             EachCell applyStyleToCell;
             MergeCells (u "A8:B8");
             MergeCells (u "C8:H8") ]
         else []) ++
        (if str_eqb key (u "50msprint") then
           [ AddRow [ label; Str (u ""); Template firstTry; Str (u ""); Str (u "");
                      Str (u ""); Str (u ""); unit; Str (u ""); Int score ];
             EachCell applyStyleToCell;
             MergeCells (u "A12:B12");
             MergeCells (u "C12:G12");
             MergeCells (u "H12:I12");
             SetStyle (u "H12") leftAlignedDataStyle ]
         else []) ++
        (if str_eqb key (u "20mshuttleruns") then
           [ AddRow [ label; Str (u ""); Template firstTry; Str (u ""); Str (u "");
                      Str (u ""); Str (u ""); Str (u ""); unit; Int score ];
             EachCell applyStyleToCell;
             MergeCells (u "A11:B11");
             MergeCells (u "C11:H11") ]
         else []))
  else
    let firstTry := try1st student !! key in
    let secondTry := try2nd student !! key ?? firstTry in
    score <-- calculateScore key (gender student)
                (toNumber firstTry) (toNumber secondTry) ;;
    let label := cellOfString (property componentOrder key) in
    let unit := Str (getUnitForComponent key) in
    Ok (totalScore + score,
        sheet ++
        [ AddRow [ label; Str (u ""); Str (u ""); Str (u "1:"); cellOf firstTry;
                   unit; Str (u "2:"); cellOf secondTry; unit; Int score ];
          EachCell applyStyleToCell ] ++
        (if str_eqb key (u "seatedtoetouch") then [MergeCells (u "A9:B9")] else []) ++
        (if str_eqb key (u "sidesteps") then [MergeCells (u "A10:B10")] else []) ++
        (if str_eqb key (u "longjump") then [MergeCells (u "A13:B13")] else []) ++
        (if str_eqb key (u "softballthrowing") then [MergeCells (u "A14:B14")] else [])).

(** The calls made on the worksheet of one student, the [i]-th of the
    export. *)
Definition sheetCalls (i : nat) (student : Student num) : result (list (SheetOp num)) :=
  let totalScore := 0 in
  st <-- forEach (componentCalls student) (Object_keys componentOrder)
                 (totalScore, headerCalls i student) ;;
  let '(totalScore, sheet) := st in
  grade <-- determineGrade totalScore (class student) ;;
  Ok (sheet ++
      [ AddRow [ Str (u "Total Score"); Str (u ""); Str (u ""); Str (u "");
                 Str (u ""); Str (u ""); Str (u ""); Str (u ""); Str (u "");
                 Int totalScore ];
        EachCell applyStyleToCell;
        MergeCells (u "A15:I15");
        AddRow [ Str (u "Grade"); Str (u ""); Str (u ""); Str (u ""); Str (u "");
                 Str (u ""); Str (u ""); Str (u ""); Str (u ""); Str grade ];
        EachCell applyStyleToCell;
        MergeCells (u "A16:I16") ] ++
      setManualColumnWidths).

(** The callback of [students.forEach((student, index) => ...)]; the state
    is the counter [i] and the worksheets added to the workbook. *)
Definition addWorksheet (st : nat * list (Worksheet num)) (entry : nat * Student num)
  : result (nat * list (Worksheet num)) :=
  let '(i, workbook) := st in
  let '(index, student) := entry in
  sheet <-- sheetCalls i student ;;
  let worksheet :=
    {| sheetName := nat_to_string (index + 1) ++ u " " ++ enname student;
       calls := sheet |} in
  Ok (S i, workbook ++ [worksheet]).

(** The name of the file and the worksheets of the workbook. *)
Definition exportGradeToSingleWorkbook (students : list (Student num))
    (selectedGrade : jsstring) : result (jsstring * list (Worksheet num)) :=
  st <-- forEach addWorksheet (indexed students) (1%nat, []) ;;
  Ok (u "Grade_" ++ selectedGrade ++ u "_Reports.xlsx", snd st).

End Rendering.
End Single.

(** * Roster import ([CsvUpload]) *)

(** A student read from a line of the file is the object whose keys are the
    headers of the file; an object used as a map is the map of the
    properties set on it. *)
Abbreviation StudentData := (gmap jsstring jsstring).

(** [values[index] || ''] *)
Definition valueOrEmpty (values : list jsstring) (index : nat) : jsstring :=
  match values !! index with
  | Some (c :: value) => c :: value
  | _ => []
  end.

(** [headers.forEach((header, index) => { student[header] = values[index] || ''; })]
    from index [index] on. *)
Fixpoint assignFields (headers : list jsstring) (index : nat)
    (values : list jsstring) (student : StudentData) : StudentData :=
  match headers with
  | [] => student
  | header :: rest =>
      assignFields rest (S index) values
                   (<[header := valueOrEmpty values index]> student)
  end.

(** Truthiness of a property that holds a string or is [undefined]. *)
Definition truthy (v : option jsstring) : bool :=
  match v with
  | Some (_ :: _) => true
  | _ => false
  end.

Definition hasRequiredFields (student : StudentData) : bool :=
  truthy (student !! u "enname") && truthy (student !! u "jpname")
  && truthy (student !! u "firstname") && truthy (student !! u "gender")
  && truthy (student !! u "grade") && truthy (student !! u "class")
  && truthy (student !! u "teacher").

Definition newline : N := 10.
Definition comma : N := 44.

(** The callback of [lines.slice(1).map(...)]. *)
Definition parseLine (headers : list jsstring) (line : jsstring) : StudentData :=
  let values := List.map trim (split comma line) in
  assignFields headers 0 values ∅.

(** Reading [lines[0].split] of an empty array of lines would throw. *)
Definition processCSV (csvData : jsstring) : result (list StudentData) :=
  let lines := split newline csvData in
  match lines with
  | [] => Throw TypeError
  | line0 :: _ =>
      let headers := List.map trim (split comma line0) in
      Ok (List.filter hasRequiredFields
                      (List.map (parseLine headers) (drop 1 lines)))
  end.

(** ** The store

    The realtime database is a collaborator of the program. It is modelled
    as a map from the path [year/classSection] to the children stored below
    it, each under its slot key; a class section is taken to be one path
    segment, and a write to succeed. *)

Module Roster.
Section Store.
Context {num : Type} `{!JsNumber num}.

(** The object stored for a student; a field the parsed student does not
    have is [undefined]. *)
Record StoredStudent := {
  enname : option jsstring;
  jpname : option jsstring;
  firstname : option jsstring;
  gender : option jsstring;
  grade : option jsstring;
  class : option jsstring;
  teacher : option jsstring;
  try1st : gmap jsstring num;
  try2nd : gmap jsstring num;
}.

Definition Database := gmap (jsstring * jsstring) (gmap jsstring StoredStudent).

(** The children of [year/classSection]; none when nothing is stored. *)
Definition children (db : Database) (year classSection : jsstring)
  : gmap jsstring StoredStudent :=
  default ∅ (db !! (year, classSection)).

(** [set(ref(db, `${year}/${classSection}/${studentKey}`), studentData)] *)
Definition set (year classSection studentKey : jsstring)
    (studentData : StoredStudent) (db : Database) : Database :=
  <[(year, classSection) :=
      <[studentKey := studentData]> (children db year classSection)]> db.

Definition zeroTrials : gmap jsstring num :=
  list_to_map
    [ (u "20mshuttleruns", lit 0); (u "50msprint", lit 0); (u "aveGrip", lit 0);
      (u "gripstrL", lit 0); (u "gripstrR", lit 0); (u "longjump", lit 0);
      (u "seatedtoetouch", lit 0); (u "sidesteps", lit 0); (u "situps", lit 0);
      (u "softballthrowing", lit 0) ].

(** The key a value is used as: [undefined] becomes the string. *)
Definition propertyKey (v : option jsstring) : jsstring :=
  default (u "undefined") v.

(** [if (!studentsByClass[c]) studentsByClass[c] = []; studentsByClass[c].push(student)]
    on an object whose keys are kept in the order they were added; the
    order in which the class sections are visited afterwards does not
    change what is stored, each being written below a path of its own. *)
Fixpoint pushStudent (studentsByClass : list (jsstring * list StudentData))
    (c : jsstring) (student : StudentData) : list (jsstring * list StudentData) :=
  match studentsByClass with
  | [] => [(c, [student])]
  | (k, classStudents) :: rest =>
      if str_eqb k c then (k, classStudents ++ [student]) :: rest
      else (k, classStudents) :: pushStudent rest c student
  end.

Definition groupByClass (students : list StudentData)
  : list (jsstring * list StudentData) :=
  fold_left (fun studentsByClass student =>
               pushStudent studentsByClass (propertyKey (student !! u "class")) student)
            students [].

Definition studentKey (i : nat) : jsstring := u "student" ++ nat_to_string (i + 1).

Definition studentData (student : StudentData) : StoredStudent :=
  {| enname := student !! u "enname";
     jpname := student !! u "jpname";
     firstname := student !! u "firstname";
     gender := student !! u "gender";
     grade := student !! u "grade";
     class := student !! u "class";
     teacher := student !! u "teacher";
     try1st := zeroTrials;
     try2nd := zeroTrials |}.

(** The inner loop: [for (let i = 0; i < classStudents.length; i++)]. *)
Definition uploadClass (currentYear classSection : jsstring)
    (classStudents : list StudentData) (db : Database) : Database :=
  fold_left (fun db entry =>
               set currentYear classSection (studentKey (fst entry))
                   (studentData (snd entry)) db)
            (indexed classStudents) db.

(** [currentYear] is the year of the day of the upload. *)
Definition uploadToFirebase (currentYear : jsstring) (students : list StudentData)
    (db : Database) : Database :=
  fold_left (fun db entry => uploadClass currentYear (fst entry) (snd entry) db)
            (groupByClass students) db.

(** * Roster export ([StudentManagement]) *)

Definition isDigit (c : N) : bool := (48 <=? c)%N && (c <=? 57)%N.

Fixpoint takeWhile {A} (f : A -> bool) (l : list A) : list A :=
  match l with
  | [] => []
  | x :: l' => if f x then x :: takeWhile f l' else []
  end.

(** [key.match(/\d+$/)?.[0] || '0'] *)
Definition trailingDigits (key : jsstring) : jsstring :=
  match rev (takeWhile isDigit (rev key)) with
  | [] => u "0"
  | digits => digits
  end.

(** [parseInt(digits, 10)] of a string of digits, as an exact integer *)
Definition parseInt (digits : jsstring) : Z :=
  fold_left (fun n c => n * 10 + (Z.of_N c - 48)) digits 0.

Definition slotNumber (key : jsstring) : Z := parseInt (trailingDigits key).

(** [entries.sort((a, b) => numA - numB)]: the sort is stable. *)
Fixpoint insertBySlot (a : jsstring * StoredStudent)
    (sorted : list (jsstring * StoredStudent)) : list (jsstring * StoredStudent) :=
  match sorted with
  | [] => [a]
  | b :: rest =>
      if slotNumber (fst a) - slotNumber (fst b) <=? 0 then a :: b :: rest
      else b :: insertBySlot a rest
  end.

Definition sortBySlot (entries : list (jsstring * StoredStudent))
  : list (jsstring * StoredStudent) :=
  fold_right insertBySlot [] entries.

(** [row.join(',')]: an element that is [undefined] is rendered empty. *)
Definition joinValues (sep : jsstring) (row : list (option jsstring)) : jsstring :=
  join sep (List.map (default []) row).

Definition headers : list jsstring :=
  [ u "enname"; u "jpname"; u "firstname"; u "gender"; u "grade"; u "class";
    u "teacher" ].

Definition csvRow (student : StoredStudent) : list (option jsstring) :=
  [ enname student; jpname student; firstname student; gender student;
    grade student; class student; teacher student ].

(** The name and the content of the file downloaded. *)
Definition downloadCSV (students : list StoredStudent) (schoolYear grade : jsstring)
  : jsstring * jsstring :=
  let csvContent :=
    [join (u ",") headers]
    ++ List.map (fun student => joinValues (u ",") (csvRow student)) students in
  (u "students_" ++ schoolYear
     ++ (match grade with [] => u "_all_grades" | _ => u "_" ++ grade end)
     ++ u ".csv",
   join [newline] csvContent).

(** What the page of a selected class section downloads, [entries] being
    [Object.entries] of the children of [year/grade]: the students are put
    in the order of their slots first. *)
Definition exportClass (entries : list (jsstring * StoredStudent))
    (schoolYear grade : jsstring) : jsstring * jsstring :=
  downloadCSV (List.map snd (sortBySlot entries)) schoolYear grade.

(** With no class section selected ("All Grades") the page pushes the
    entries of every class section of the year as the store lists them,
    [listings] being [Object.entries] of the children of each, and the
    students are downloaded in that order. *)
Definition exportAllGrades (listings : list (list (jsstring * StoredStudent)))
    (schoolYear : jsstring) : jsstring * jsstring :=
  downloadCSV (List.map snd (concat listings)) schoolYear [].

(** The store lists the children of a path in the order of their keys,
    compared as strings: [a < b]. *)
Fixpoint keyBefore (a b : jsstring) : bool :=
  match a, b with
  | _, [] => false
  | [], _ :: _ => true
  | x :: a', y :: b' => (x <? y)%N || ((x =? y)%N && keyBefore a' b')
  end.

Fixpoint insertByKey (a : jsstring * StoredStudent)
    (listed : list (jsstring * StoredStudent)) : list (jsstring * StoredStudent) :=
  match listed with
  | [] => [a]
  | b :: rest =>
      if keyBefore (fst b) (fst a) then b :: insertByKey a rest
      else a :: b :: rest
  end.

Definition listChildren (m : gmap jsstring StoredStudent)
  : list (jsstring * StoredStudent) :=
  fold_right insertByKey [] (map_to_list m).

End Store.
End Roster.

Arguments Roster.StoredStudent num : clear implicits.
Arguments Roster.Database num : clear implicits.

(** * The record page ([PhFitnessRecord]): listener and handlers

    The page keeps its state in hooks. A handler reads the state of the
    render it belongs to and calls setters, and the state of the next
    render is that state with the values set; so a handler is a function
    from the state, and the store where it writes, to the state and the
    store after it. The students of the page are the objects read from the
    store. The listener of the class section is an event of its own
    ([onStudents]). *)

(** [array[i]]: [undefined] outside the array. *)
Definition item {A} (l : list A) (i : Z) : option A :=
  if i <? 0 then None else l !! Z.to_nat i.

(** [s.startsWith(t)] and [s.includes(t)] *)
Fixpoint startsWith (s t : jsstring) : bool :=
  match t, s with
  | [], _ => true
  | _ :: _, [] => false
  | y :: t', x :: s' => N.eqb x y && startsWith s' t'
  end.

Fixpoint includes (s t : jsstring) : bool :=
  startsWith s t
  || match s with
     | [] => false
     | _ :: s' => includes s' t
     end.

(** [array.filter(callback)] with a callback that may throw. *)
Fixpoint filterArray {A} (callback : A -> result bool) (l : list A)
  : result (list A) :=
  match l with
  | [] => Ok []
  | a :: l' =>
      keep <-- callback a ;;
      rest <-- filterArray callback l' ;;
      Ok (if keep then a :: rest else rest)
  end.

(** ['1sttry' | '2ndtry'] *)
Inductive TryNumber := FirstTry | SecondTry.

Module Page.
Section Handlers.
Context {num : Type} `{!JsNumber num}.

(** The state the handlers read and set; [lastSavedTime] is a time of the
    clock of the browser. *)
Record State := {
  students : list (Roster.StoredStudent num);
  currentStudentIndex : option Z;
  selectedSchoolYear : jsstring;
  selectedGrade : jsstring;
  hasUnsavedChanges : bool;
  isSaving : bool;
  lastSavedTime : option Z;
  searchTerm : jsstring;
}.

Definition setStudents (v : list (Roster.StoredStudent num)) (st : State) : State :=
  {| students := v; currentStudentIndex := currentStudentIndex st;
     selectedSchoolYear := selectedSchoolYear st; selectedGrade := selectedGrade st;
     hasUnsavedChanges := hasUnsavedChanges st; isSaving := isSaving st;
     lastSavedTime := lastSavedTime st; searchTerm := searchTerm st |}.

Definition setCurrentStudentIndex (v : option Z) (st : State) : State :=
  {| students := students st; currentStudentIndex := v;
     selectedSchoolYear := selectedSchoolYear st; selectedGrade := selectedGrade st;
     hasUnsavedChanges := hasUnsavedChanges st; isSaving := isSaving st;
     lastSavedTime := lastSavedTime st; searchTerm := searchTerm st |}.

Definition setHasUnsavedChanges (v : bool) (st : State) : State :=
  {| students := students st; currentStudentIndex := currentStudentIndex st;
     selectedSchoolYear := selectedSchoolYear st; selectedGrade := selectedGrade st;
     hasUnsavedChanges := v; isSaving := isSaving st;
     lastSavedTime := lastSavedTime st; searchTerm := searchTerm st |}.

Definition setIsSaving (v : bool) (st : State) : State :=
  {| students := students st; currentStudentIndex := currentStudentIndex st;
     selectedSchoolYear := selectedSchoolYear st; selectedGrade := selectedGrade st;
     hasUnsavedChanges := hasUnsavedChanges st; isSaving := v;
     lastSavedTime := lastSavedTime st; searchTerm := searchTerm st |}.

Definition setLastSavedTime (v : option Z) (st : State) : State :=
  {| students := students st; currentStudentIndex := currentStudentIndex st;
     selectedSchoolYear := selectedSchoolYear st; selectedGrade := selectedGrade st;
     hasUnsavedChanges := hasUnsavedChanges st; isSaving := isSaving st;
     lastSavedTime := v; searchTerm := searchTerm st |}.

Definition setSearchTerm (v : jsstring) (st : State) : State :=
  {| students := students st; currentStudentIndex := currentStudentIndex st;
     selectedSchoolYear := selectedSchoolYear st; selectedGrade := selectedGrade st;
     hasUnsavedChanges := hasUnsavedChanges st; isSaving := isSaving st;
     lastSavedTime := lastSavedTime st; searchTerm := v |}.

(** The listener on [selectedSchoolYear/selectedGrade]. [data] is
    [Object.entries] of the value of the snapshot, [None] when the class
    section holds nothing; the students are put in the order of their
    slots, and the view is reset. *)
Definition onStudents (data : option (list (jsstring * Roster.StoredStudent num)))
    (st : State) : State :=
  let studentList :=
    match data with
    | Some entries => List.map snd (Roster.sortBySlot entries)
    | None => []
    end in
  setSearchTerm []
    (setLastSavedTime None
       (setHasUnsavedChanges false
          (setCurrentStudentIndex None (setStudents studentList st)))).

(** [handleKeyPress]: the index [handleStudentSelect] is called with, if it
    is called. *)
Definition handleKeyPress (key : jsstring) (st : State) : option Z :=
  match currentStudentIndex st with
  | None => None
  | Some current =>
      if str_eqb key (u "ArrowLeft") && (0 <? current) then Some (current - 1)
      else if str_eqb key (u "ArrowRight")
              && (current <? Z.of_nat (length (students st)) - 1)
      then Some (current + 1)
      else None
  end.

(** [student[tryNumber]] and [{ ...student, [tryNumber]: trials }]. A
    student holds its two trial objects, as the interface [Student] has it
    and as the upload writes them; an object without values is the empty
    map. *)
Definition trialsOf (tryNumber : TryNumber) (student : Roster.StoredStudent num)
  : gmap jsstring num :=
  match tryNumber with
  | FirstTry => Roster.try1st student
  | SecondTry => Roster.try2nd student
  end.

Definition withTrials (tryNumber : TryNumber) (trials : gmap jsstring num)
    (student : Roster.StoredStudent num) : Roster.StoredStudent num :=
  {| Roster.enname := Roster.enname student;
     Roster.jpname := Roster.jpname student;
     Roster.firstname := Roster.firstname student;
     Roster.gender := Roster.gender student;
     Roster.grade := Roster.grade student;
     Roster.class := Roster.class student;
     Roster.teacher := Roster.teacher student;
     Roster.try1st := match tryNumber with
                      | FirstTry => trials
                      | SecondTry => Roster.try1st student
                      end;
     Roster.try2nd := match tryNumber with
                      | FirstTry => Roster.try2nd student
                      | SecondTry => trials
                      end |}.

(** [value] is [Number(event.target.value)]. *)
Definition handleInputChange (value : num) (type : jsstring) (tryNumber : TryNumber)
    (st : State) : State :=
  match currentStudentIndex st with
  | None => st
  | Some current =>
      let updatedStudents :=
        List.map (fun entry =>
                    let '(index, student) := entry in
                    if Z.of_nat index =? current
                    then withTrials tryNumber
                                    (<[type := value]> (trialsOf tryNumber student))
                                    student
                    else student)
                 (indexed (students st)) in
      setHasUnsavedChanges true (setStudents updatedStudents st)
  end.

(** [update(ref(db, `${year}/${classSection}/${studentKey}`),
    { '1sttry': first, '2ndtry': second })]: the children named are
    replaced and the other children of the student kept; a student not
    stored yet comes to hold the two alone. *)
Definition updateTrials (year classSection studentKey : jsstring)
    (first second : gmap jsstring num) (db : Roster.Database num)
  : Roster.Database num :=
  let stored := Roster.children db year classSection !! studentKey in
  Roster.set year classSection studentKey
    {| Roster.enname := stored ≫= Roster.enname;
       Roster.jpname := stored ≫= Roster.jpname;
       Roster.firstname := stored ≫= Roster.firstname;
       Roster.gender := stored ≫= Roster.gender;
       Roster.grade := stored ≫= Roster.grade;
       Roster.class := stored ≫= Roster.class;
       Roster.teacher := stored ≫= Roster.teacher;
       Roster.try1st := first;
       Roster.try2nd := second |}
    db.

(** In [update(ref(db), updates)] a key of [updates] is the path of a
    student, and what is stored at a path is replaced by the value given
    for it: here [{ '1sttry': first, '2ndtry': second }]. *)
Definition replaceByTrials (year classSection studentKey : jsstring)
    (first second : gmap jsstring num) (db : Roster.Database num)
  : Roster.Database num :=
  Roster.set year classSection studentKey
    {| Roster.enname := None; Roster.jpname := None; Roster.firstname := None;
       Roster.gender := None; Roster.grade := None; Roster.class := None;
       Roster.teacher := None;
       Roster.try1st := first;
       Roster.try2nd := second |}
    db.

(** [now] is the time of the clock when the write has been made. Reading
    the trials of a student the list does not hold throws inside [try], and
    the error is logged. *)
Definition saveCurrentStudent (now : Z) (st : State) (db : Roster.Database num)
  : State * Roster.Database num :=
  match negb (hasUnsavedChanges st), currentStudentIndex st with
  | false, Some current =>
      let st := setIsSaving true st in
      match item (students st) current with
      | Some student =>
          let db :=
            updateTrials (selectedSchoolYear st) (selectedGrade st)
                         (Roster.studentKey (Z.to_nat current))
                         (Roster.try1st student) (Roster.try2nd student) db in
          (setIsSaving false
             (setLastSavedTime (Some now) (setHasUnsavedChanges false st)),
           db)
      | None => (setIsSaving false st, db)
      end
  | _, _ => (st, db)
  end.

(** The object [updates] of [saveAllChanges], a path for each student of
    the list. *)
Definition updates (st : State)
  : list (jsstring * (gmap jsstring num * gmap jsstring num)) :=
  List.map (fun entry =>
              (Roster.studentKey (fst entry),
               (Roster.try1st (snd entry), Roster.try2nd (snd entry))))
           (indexed (students st)).

Definition saveAllChanges (st : State) (db : Roster.Database num)
  : State * Roster.Database num :=
  if negb (hasUnsavedChanges st) then (st, db)
  else
    let st := setIsSaving true st in
    let db :=
      fold_left (fun db update =>
                   replaceByTrials (selectedSchoolYear st) (selectedGrade st)
                                   (fst update) (fst (snd update)) (snd (snd update))
                                   db)
                (updates st) db in
    (setIsSaving false (setHasUnsavedChanges false st), db).

Definition handleStudentSelect (now : Z) (index : Z) (st : State)
    (db : Roster.Database num) : State * Roster.Database num :=
  let saved :=
    if hasUnsavedChanges st && bool_decide (currentStudentIndex st <> None)
    then saveCurrentStudent now st db
    else (st, db) in
  (setCurrentStudentIndex (Some index) (fst saved), snd saved).


(** The student the edit view is rendered for:
    [students[currentStudentIndex]]. *)
Definition shownStudent (st : State) : option (Roster.StoredStudent num) :=
  match currentStudentIndex st with
  | Some current => item (students st) current
  | None => None
  end.

(** [String.prototype.toLowerCase] is a function of the string. *)
Variable toLowerCase : jsstring -> jsstring.

(** The callback of [students.filter]: reading [toLowerCase] of a name
    that is [undefined] throws. *)
Definition nameMatches (searchTerm : jsstring) (student : Roster.StoredStudent num)
  : result bool :=
  match Roster.enname student with
  | None => Throw TypeError
  | Some enname =>
      if includes (toLowerCase enname) (toLowerCase searchTerm) then Ok true
      else match Roster.jpname student with
           | None => Throw TypeError
           | Some jpname =>
               Ok (includes (toLowerCase jpname) (toLowerCase searchTerm))
           end
  end.

Definition filteredStudents (st : State) : result (list (Roster.StoredStudent num)) :=
  filterArray (nameMatches (searchTerm st)) (students st).

(** The rows of [renderStudentList]: a click on the row at [index] calls
    [handleStudentSelect(index)]. *)
Definition rowClicked (now : Z) (index : nat) (st : State) (db : Roster.Database num)
  : State * Roster.Database num :=
  handleStudentSelect now (Z.of_nat index) st db.

End Handlers.
End Page.

Arguments Page.State num : clear implicits.

(** * The upload page ([CsvUpload]) *)
Module CsvUpload.
Section Handlers.
Context {num : Type} `{!JsNumber num}.

(** A file is represented by its text. *)
Record State := {
  file : option jsstring;
  uploading : bool;
  message : jsstring;
}.

Definition setMessage (v : jsstring) (st : State) : State :=
  {| file := file st; uploading := uploading st; message := v |}.


(** [uploadToFirebase] with the message it sets; the writes succeed. *)
Definition uploadToFirebase (currentYear : jsstring) (students : list StudentData)
    (st : State) (db : Roster.Database num) : State * Roster.Database num :=
  (setMessage (u "Successfully uploaded student data!") st,
   Roster.uploadToFirebase currentYear students db).


End Handlers.
End CsvUpload.

(** * Vocabulary of the properties *)

Definition resultMap {A B} (f : A -> B) (r : result A) : result B :=
  match r with
  | Ok a => Ok (f a)
  | Throw e => Throw e
  end.

(** Every range of the table starts at 1 or above. *)
Definition startsAtOne (ranges : list (@ScoreRange number)) : bool :=
  forallb (fun r => number_le (Real 1) (min r)) ranges.

Definition descending (thresholds : list Z) : Prop := StronglySorted Z.gt thresholds.

(** A boy with 10 sit-ups at the first trial and 26 recorded for the
    second. *)
Definition situpsTwice : Student number :=
  {| enname := u "Taro"; jpname := u "T"; class := u "G2A"; grade := u "G2";
     gender := Boy;
     try1st := {[ u "situps" := int 10 ]};
     try2nd := {[ u "situps" := int 26 ]} |}.

(** A boy with one trial of grip strength, 30 kg right and 28 kg left, and
    no second trial recorded. *)
Definition gripOnce : Student number :=
  {| enname := u "Taro"; jpname := u "T"; class := u "G2A"; grade := u "G2";
     gender := Boy;
     try1st := {[ u "gripstrR" := int 30; u "gripstrL" := int 28 ]};
     try2nd := ∅ |}.

Definition requiredFields : list jsstring :=
  [ u "enname"; u "jpname"; u "firstname"; u "gender"; u "grade"; u "class";
    u "teacher" ].

(** The column of a field: the last header of that name, counted from
    [index]. *)
Fixpoint columnFrom (headers : list jsstring) (index : nat) (k : jsstring)
  : option nat :=
  match headers with
  | [] => None
  | header :: rest =>
      match columnFrom rest (S index) k with
      | Some i => Some i
      | None => if str_eqb header k then Some index else None
      end
  end.

(** The field [k] of a data line after trimming; empty when the line has
    too few columns or the file no column of that name. *)
Definition fieldOf (headers : list jsstring) (line : jsstring) (k : jsstring)
  : jsstring :=
  match columnFrom headers 0 k with
  | Some i => trim (nth i (split comma line) [])
  | None => []
  end.

Definition nonempty (s : jsstring) : bool :=
  match s with
  | [] => false
  | _ :: _ => true
  end.

Definition complete (headers : list jsstring) (line : jsstring) : bool :=
  forallb (fun k => nonempty (fieldOf headers line k)) requiredFields.

Definition standardHeader : jsstring :=
  u "enname,jpname,firstname,gender,grade,class,teacher".

(** A file of ten students of one class section. *)
Definition tenStudents : jsstring :=
  join [newline]
       [ standardHeader;
         u "S01,J,F,Boy,1,G1A,T"; u "S02,J,F,Boy,1,G1A,T"; u "S03,J,F,Boy,1,G1A,T";
         u "S04,J,F,Boy,1,G1A,T"; u "S05,J,F,Boy,1,G1A,T"; u "S06,J,F,Boy,1,G1A,T";
         u "S07,J,F,Boy,1,G1A,T"; u "S08,J,F,Boy,1,G1A,T"; u "S09,J,F,Boy,1,G1A,T";
         u "S10,J,F,Boy,1,G1A,T" ].

(** The class section a parsed student is stored under. *)
Definition classOf (student : StudentData) : jsstring :=
  Roster.propertyKey (student !! u "class").

Abbreviation entry num := (jsstring * Roster.StoredStudent num)%type.

Section Vocabulary.
Context {num : Type} `{!JsNumber num}.

(** The calls made on the worksheets of [students], the first of which is
    the [i]-th of the export. *)
Fixpoint sheetsFrom (i : nat) (students : list (Student num))
  : result (list (list (SheetOp num))) :=
  match students with
  | [] => Ok []
  | student :: rest =>
      sheet <-- Individual.sheetCalls i student ;;
      sheets <-- sheetsFrom (S i) rest ;;
      Ok (sheet :: sheets)
  end.

Definition slotLe (a b : entry num) : Prop :=
  Roster.slotNumber (fst a) <= Roster.slotNumber (fst b).
Definition slotLt (a b : entry num) : Prop :=
  Roster.slotNumber (fst a) < Roster.slotNumber (fst b).

(** The entries written for the students of a class, the first of them at
    index [k]. *)
Definition slots (k : nat) (classStudents : list StudentData) : list (entry num) :=
  List.map (fun e => (Roster.studentKey (fst e), Roster.studentData (snd e)))
           (combine (seq k (length classStudents)) classStudents).

Definition writes (entries : list (entry num))
    (m : gmap jsstring (Roster.StoredStudent num))
  : gmap jsstring (Roster.StoredStudent num) :=
  fold_left (fun m e => <[fst e := snd e]> m) entries m.

End Vocabulary.

(** [{ ...student, '2ndtry': secondTrials }] *)
Definition withSecondTrials {num} (student : Student num)
    (secondTrials : gmap jsstring num) : Student num :=
  {| enname := enname student; jpname := jpname student; class := class student;
     grade := grade student; gender := gender student;
     try1st := try1st student; try2nd := secondTrials |}.

(** The value the exports look up for a component of a student, and the
    score the table gives it. *)
Definition exportedValue (student : Student number) (key : jsstring) : number :=
  let firstTry := try1st student !! key in
  if str_eqb key (u "gripStrength") then
    let firstTryR := try1st student !! u "gripstrR" in
    let firstTryL := try1st student !! u "gripstrL" in
    Math_max4 (toNumber firstTryR)
              (toNumber (try2nd student !! u "gripstrR" ?? firstTryR))
              (toNumber firstTryL)
              (toNumber (try2nd student !! u "gripstrL" ?? firstTryL))
  else if str_eqb key (u "50msprint") then truncateToOneDecimal (toNumber firstTry)
  else if str_eqb key (u "situps") || str_eqb key (u "20mshuttleruns")
  then toNumber firstTry
  else Math_max (toNumber firstTry) (toNumber (try2nd student !! key ?? firstTry)).

Definition exportedScore (student : Student number) (key : jsstring) : Z :=
  tableScore key (gender student) (exportedValue student key).

Definition sumOf (scores : list Z) : Z := fold_right Z.add 0 scores.

(** * Vocabulary of the further properties *)

(** The next whole number above the top of a range. *)
Definition aboveTop (r : @ScoreRange number) : number :=
  match max r with
  | Real m => Real (m + 1)
  | other => other
  end.

(** No range of the table reaches between the top of a range and the next
    whole number. *)
Definition wholeSteps (ranges : list (@ScoreRange number)) : bool :=
  forallb (fun r =>
             forallb (fun r' => number_le (max r') (max r)
                                || number_le (aboveTop r) (min r')) ranges)
          ranges.

(** The whole numbers from 0 to [n]. *)
Definition upTo (n : nat) : list Z := List.map Z.of_nat (seq 0 (S n)).

(** The range [calculateScore] finds for the value it looks up. *)
Definition foundRange {num} `{!JsNumber num} (ranges : list ScoreRange) (v : num)
  : option ScoreRange :=
  find (fun range => le v (max range) && ge v (min range)) ranges.

(** Whether the table read in binary64 and the table read exactly give the
    measurement [q] the same score, the value looked up being the
    measurement cut to one decimal ([cut]) or the measurement itself. *)
Definition sameScore (cut : bool)
    (doubles : list (@ScoreRange SpecFloat.spec_float))
    (decimals : list (@ScoreRange number)) (q : Q) : bool :=
  let double : SpecFloat.spec_float := lit q in
  let decimal : number := lit q in
  scoreOrZero (foundRange doubles
                 (if cut then truncateToOneDecimal double else Math_max double (lit 0)))
  =? scoreOrZero (foundRange decimals
                    (if cut then truncateToOneDecimal decimal
                     else Math_max decimal (lit 0))).

Definition sameScores (cut : bool) (component : jsstring) (gender : Gender)
    (measurements : list Q) : bool :=
  let doubles := @tableOf SpecFloat.spec_float _ component gender in
  let decimals := @tableOf number _ component gender in
  forallb (sameScore cut doubles decimals) measurements.

(** Whether the class of a student is of a grade [gradeThresholds] knows. *)
Definition gradeKnown (class : jsstring) : bool :=
  match property gradeThresholds (slice 0 2 class) with
  | Some _ => true
  | None => false
  end.

(** [`${i} ${enname}`] for the student at position [index] of the list. *)
Definition numbered {num} (entry : nat * Student num) : jsstring :=
  nat_to_string (S (fst entry)) ++ u " " ++ enname (snd entry).


(** The key of a row of the edit view, as React is given it. *)
Definition rowKey {num} (row : EditRow num) : jsstring :=
  match row with
  | ComponentRow key _ _ _ => key
  | GripRow _ _ _ => u "Grip Strength"
  | TotalRow _ => u "totalScore"
  | GradeRow _ => u "grade"
  end.

(** ** Vocabulary of the properties of the pages *)

#[global] Instance error_eq_dec : EqDecision error.
Proof. solve_decision. Defined.
#[global] Instance result_eq_dec {A} `{EqDecision A} : EqDecision (result A).
Proof. solve_decision. Defined.

Section PageVocabulary.
Context {num : Type} `{!JsNumber num}.

(** The students before [position] that the search hides. *)
Definition hiddenBefore (toLowerCase : jsstring -> jsstring) (st : Page.State num)
    (position : nat) : nat :=
  length (List.filter
            (fun student =>
               bool_decide (Page.nameMatches toLowerCase (Page.searchTerm st) student
                            = Ok false))
            (take position (Page.students st))).

(** The students of a class section under the slots 1, 2, ... in the order
    of the list. *)
Definition keyed (students : list (Roster.StoredStudent num))
  : list (jsstring * Roster.StoredStudent num) :=
  List.map (fun e => (Roster.studentKey (fst e), snd e)) (indexed students).

(** The index is [null] or that of a student of the list. *)
Definition indexInList (st : Page.State num) : Prop :=
  match Page.currentStudentIndex st with
  | Some current => 0 <= current < Z.of_nat (length (Page.students st))
  | None => True
  end.

End PageVocabulary.

Section StoreVocabulary.
Context {num : Type} `{!JsNumber num}.

(** The class section the page has selected holds the students of the page,
    each under the slot of its position. *)
Definition stored (st : Page.State num) (db : Roster.Database num) : Prop :=
  Roster.children db (Page.selectedSchoolYear st) (Page.selectedGrade st)
  = list_to_map (keyed (Page.students st)).

(** A student as [saveAllChanges] leaves it in the store: the two trials
    and nothing else. *)
Definition trialsAlone (student : Roster.StoredStudent num) : Roster.StoredStudent num :=
  {| Roster.enname := None; Roster.jpname := None; Roster.firstname := None;
     Roster.gender := None; Roster.grade := None; Roster.class := None;
     Roster.teacher := None;
     Roster.try1st := Roster.try1st student;
     Roster.try2nd := Roster.try2nd student |}.


(** The same student but for the trials. *)
Definition sameRoster (a b : Roster.StoredStudent num) : Prop :=
  Roster.enname a = Roster.enname b /\ Roster.jpname a = Roster.jpname b
  /\ Roster.firstname a = Roster.firstname b /\ Roster.gender a = Roster.gender b
  /\ Roster.grade a = Roster.grade b /\ Roster.class a = Roster.class b
  /\ Roster.teacher a = Roster.teacher b.


End StoreVocabulary.

(** A field a line of the file can carry as it is: a string that is not
    empty, holds no comma and no line feed, and has no white space at its
    ends. *)
Definition plainField (value : option jsstring) : Prop :=
  exists s, value = Some s /\ s <> [] /\ ~ In comma s /\ ~ In newline s /\ trim s = s.

(** A stored student as an upload writes it anew: the roster fields, and
    all trials 0. *)
Definition uploadedAnew {num} `{!JsNumber num} (student : Roster.StoredStudent num)
  : Roster.StoredStudent num :=
  {| Roster.enname := Roster.enname student; Roster.jpname := Roster.jpname student;
     Roster.firstname := Roster.firstname student;
     Roster.gender := Roster.gender student; Roster.grade := Roster.grade student;
     Roster.class := Roster.class student; Roster.teacher := Roster.teacher student;
     Roster.try1st := Roster.zeroTrials; Roster.try2nd := Roster.zeroTrials |}.

Section SheetVocabulary.
Context {num : Type} `{!JsNumber num}.

(** The rows [addRow] adds to a worksheet, each with its number and its
    first cell. The cells set before are in rows 1 and 2, so the first row
    added is row [3] when [row] is. *)
Fixpoint addedRows (row : Z) (calls : list (SheetOp num))
  : list (Z * CellValue num) :=
  match calls with
  | [] => []
  | AddRow values :: rest => (row, hd Undefined values) :: addedRows (row + 1) rest
  | _ :: rest => addedRows row rest
  end.

(** The ranges merged, in the order of the calls. *)
Fixpoint mergedRanges (calls : list (SheetOp num)) : list jsstring :=
  match calls with
  | [] => []
  | MergeCells cells :: rest => cells :: mergedRanges rest
  | _ :: rest => mergedRanges rest
  end.

End SheetVocabulary.

(** ** Vocabulary of the order of the scores *)

(** The whole measurement up to which the table of a component is checked
    step by step: the table of grip strength ends at 100. *)
Definition lastStep (component : jsstring) : Z :=
  if str_eqb component (u "gripStrength") then 100 else 300.

(** The whole measurement [n + 1] scores at least what [n] does. *)
Definition climbs (component : jsstring) (gender : Gender) (n : Z) : bool :=
  tableScore component gender (int n) <=? tableScore component gender (int (n + 1)).

(** The score of a sprint of [k] tenths of a second, and whether a tenth
    more scores at most that. *)
Definition sprintScore (gender : Gender) (k : Z) : Z :=
  tableScore (u "50msprint") gender (Real (inject_Z k * (1 # 10))).

Definition falls (gender : Gender) (k : Z) : bool :=
  sprintScore gender (k + 1) <=? sprintScore gender k.

(** The table has a range without top that starts at [from] or below and
    gives [points]. *)
Definition openFrom (from : number) (points : Z)
    (ranges : list (@ScoreRange number)) : bool :=
  existsb (fun r => bool_decide (max r = PosInf) && number_le (min r) from
                    && (score r =? points))
          ranges.


(** The carriage return before the line feed of a Windows line end, the
    byte order mark a file may start with, and the fields of a line as
    [processCSV] takes them. *)
Definition carriageReturn : N := 13.
Definition byteOrderMark : N := 65279.

Definition fields (line : jsstring) : list jsstring :=
  List.map trim (split comma line).

(** * Properties *)

(** ** Strings and object literals *)

Lemma str_eqb_eq a b : str_eqb a b = true <-> a = b.
Proof.
  revert b; induction a as [|x a IH]; intros [|y b]; simpl;
    try (split; congruence).
  rewrite andb_true_iff, N.eqb_eq, IH.
  split; [intros [-> ->]; reflexivity | intros [= -> ->]; auto].
Qed.

Lemma str_eqb_refl a : str_eqb a a = true.
Proof. apply str_eqb_eq; reflexivity. Qed.

Lemma str_eqb_neq a b : str_eqb a b = false <-> a <> b.
Proof.
  rewrite <- str_eqb_eq. destruct (str_eqb a b); split; congruence.
Qed.

Lemma property_In {V} (obj : list (jsstring * V)) key v :
  property obj key = Some v -> In (key, v) obj.
Proof.
  induction obj as [|[k w] obj IH]; simpl; [discriminate|].
  destruct (str_eqb k key) eqn:E.
  - apply str_eqb_eq in E. intros [= ->]. left; congruence.
  - auto.
Qed.

Lemma property_keys {V} (obj : list (jsstring * V)) key :
  In key (Object_keys obj) <-> exists v, property obj key = Some v.
Proof.
  induction obj as [|[k w] obj IH]; simpl.
  - split; [tauto | intros [v H]; discriminate].
  - destruct (str_eqb k key) eqn:E.
    + apply str_eqb_eq in E. split; eauto.
    + apply str_eqb_neq in E. rewrite <- IH. tauto.
Qed.

(** ** Exact numbers *)

Lemma number_le_trans x y z :
  number_le x y = true -> number_le y z = true -> number_le x z = true.
Proof.
  destruct x, y, z; simpl; try congruence.
  rewrite !Qle_bool_iff. apply Qle_trans.
Qed.

Lemma number_le_Qeq a b c :
  (a == b)%Q -> number_le (Real a) c = number_le (Real b) c
                /\ number_le c (Real a) = number_le c (Real b).
Proof.
  intros E. destruct c as [q| |]; simpl; auto.
  split; apply eq_true_iff_eq; rewrite !Qle_bool_iff, E; reflexivity.
Qed.

Lemma inRange_Qeq a b r : (a == b)%Q -> inRange (Real a) r = inRange (Real b) r.
Proof.
  intros E.
  change (number_le (min r) (Real a) && number_le (Real a) (max r)
          = number_le (min r) (Real b) && number_le (Real b) (max r)).
  destruct (number_le_Qeq a b (min r) E) as [_ E1].
  destruct (number_le_Qeq a b (max r) E) as [E2 _].
  rewrite E1, E2. reflexivity.
Qed.

Lemma inRange_nan (r : @ScoreRange number) : inRange NotANumber r = false.
Proof. unfold inRange. simpl. destruct (min r); reflexivity. Qed.

Lemma covered_nan (ranges : list (@ScoreRange number)) :
  covered ranges NotANumber = false.
Proof.
  unfold covered. induction ranges as [|r l IH]; simpl;
    [reflexivity | rewrite inRange_nan; exact IH].
Qed.

Lemma find_pointwise {A} (f g : A -> bool) l :
  (forall x, f x = g x) -> find f l = find g l.
Proof. intros E. induction l as [|x l IH]; simpl; [|rewrite E, IH]; reflexivity. Qed.

Lemma find_uncovered {A} (f : A -> bool) l : existsb f l = false -> find f l = None.
Proof.
  induction l as [|x l IH]; simpl; [reflexivity|].
  destruct (f x); simpl; [discriminate | exact IH].
Qed.

Lemma tableScore_Qeq component gender a b :
  (a == b)%Q -> tableScore component gender (Real a) = tableScore component gender (Real b).
Proof.
  intros E. unfold tableScore. f_equal. apply find_pointwise.
  intros r. apply inRange_Qeq, E.
Qed.

(** ** Well-formed tables *)

Lemma separated_sound r1 r2 v :
  separated r1 r2 = true -> inRange v r1 = true -> inRange v r2 = true -> r1 = r2.
Proof.
  unfold separated, inRange, below. simpl.
  rewrite !orb_true_iff, !andb_true_iff, !negb_true_iff, bool_decide_eq_true.
  intros [[E | B] | B] [L1 U1] [L2 U2]; [exact E | |].
  - rewrite (number_le_trans _ _ _ L2 U1) in B. discriminate.
  - rewrite (number_le_trans _ _ _ L1 U2) in B. discriminate.
Qed.

Lemma disjoint_sound ranges v r1 r2 :
  disjoint ranges = true -> In r1 ranges -> In r2 ranges ->
  inRange v r1 = true -> inRange v r2 = true -> r1 = r2.
Proof.
  unfold disjoint. rewrite forallb_forall. intros H I1 I2.
  specialize (H _ I1). rewrite forallb_forall in H. apply separated_sound; auto.
Qed.

(** In a table of disjoint ranges the range [find] returns is the range
    that holds the value. *)
Lemma find_the_range ranges v r :
  disjoint ranges = true -> In r ranges -> inRange v r = true ->
  find (inRange v) ranges = Some r.
Proof.
  intros D I R. destruct (find (inRange v) ranges) as [r'|] eqn:F.
  - apply find_some in F as [I' R']. f_equal. eapply disjoint_sound; eauto.
  - eapply find_none in F; eauto. congruence.
Qed.

Lemma inRange_int_lo n r : inRange (int n) r = true -> zlo r <= n.
Proof.
  unfold inRange, zlo, int. simpl. destruct (min r) as [a| |]; simpl; try discriminate.
  rewrite andb_true_iff, Qle_bool_iff. intros [L _].
  apply Qceiling_resp_le in L. rewrite Qceiling_Z in L. exact L.
Qed.

Lemma inRange_int_down n k r :
  inRange (int n) r = true -> zlo r <= k <= n -> inRange (int k) r = true.
Proof.
  unfold inRange, zlo, int. simpl.
  destruct (min r) as [a| |]; simpl; try discriminate.
  rewrite !andb_true_iff, !Qle_bool_iff. intros [L U] [Hk Hn]. split.
  - apply Qle_trans with (inject_Z (Qceiling a)); [apply Qle_ceiling|].
    rewrite <- Zle_Qle. exact Hk.
  - destruct (max r) as [b| |]; simpl in *; try congruence.
    apply Qle_bool_iff. apply Qle_bool_iff in U.
    apply Qle_trans with (inject_Z n); [|exact U]. rewrite <- Zle_Qle. exact Hn.
Qed.

Lemma covered_down ranges L :
  contiguousFrom L ranges = true ->
  forall (k : nat) c b, L <= b <= c -> c - b <= Z.of_nat k ->
    covered ranges (int c) = true -> covered ranges (int b) = true.
Proof.
  intros W. unfold contiguousFrom in W. rewrite forallb_forall in W.
  induction k as [|k IH]; intros c b Hb Hk C.
  - assert (b = c) by lia. subst. exact C.
  - unfold covered in C. apply existsb_exists in C as (r & I & R).
    pose proof (inRange_int_lo _ _ R) as Hlo.
    assert (Hin : inhabited r = true).
    { unfold inhabited. apply (inRange_int_down c); [exact R | lia]. }
    specialize (W r I). rewrite Hin in W. simpl in W.
    apply andb_true_iff in W as [HL W]. apply Z.leb_le in HL.
    destruct (Z_le_gt_dec (zlo r) b) as [Hle | Hgt].
    + apply existsb_exists. exists r. split; [exact I|].
      apply (inRange_int_down c); [exact R | lia].
    + apply orb_true_iff in W as [E | C']; [apply Z.eqb_eq in E; lia|].
      apply (IH (zlo r - 1)); [lia | lia | exact C'].
Qed.

Lemma contiguous_sound ranges L a b c :
  contiguousFrom L ranges = true -> a <= b <= c ->
  covered ranges (int a) = true -> covered ranges (int c) = true ->
  covered ranges (int b) = true.
Proof.
  intros W Hb A C.
  assert (HL : L <= a).
  { unfold covered in A. apply existsb_exists in A as (r & I & R).
    pose proof (inRange_int_lo _ _ R) as Hlo.
    unfold contiguousFrom in W. rewrite forallb_forall in W. specialize (W r I).
    assert (Hin : inhabited r = true).
    { unfold inhabited. apply (inRange_int_down a); [exact R | lia]. }
    rewrite Hin in W. simpl in W. apply andb_true_iff in W as [HL _].
    apply Z.leb_le in HL. lia. }
  apply (covered_down ranges L W (Z.to_nat (c - b)) c b); [lia | lia | exact C].
Qed.

Lemma scoringTables_wellFormed :
  forallb (fun entry => wellFormed (forBoy (snd entry)) && wellFormed (forGirl (snd entry)))
          (@scoringTables number _) = true.
Proof. vm_compute. reflexivity. Qed.

Lemma tableOf_wellFormed component gender :
  In component (Object_keys (@scoringTables number _)) ->
  wellFormed (tableOf component gender) = true.
Proof.
  intros K. apply property_keys in K as [scores P]. unfold tableOf. rewrite P.
  apply property_In in P.
  pose proof scoringTables_wellFormed as W. rewrite forallb_forall in W.
  specialize (W _ P). simpl in W. apply andb_true_iff in W as [WB WG].
  destruct gender; assumption.
Qed.

(** ** [calculateScore] *)

Lemma calculateScore_tableScore component gender (firstTry secondTry : number) :
  In component (Object_keys (@scoringTables number _)) ->
  calculateScore component gender firstTry secondTry
  = Ok (tableScore component gender (lookedUp component firstTry secondTry)).
Proof.
  intros K. apply property_keys in K as [scores P].
  unfold calculateScore, tableScore, tableOf, lookedUp. rewrite P.
  destruct (str_eqb component (u "50msprint")); do 2 f_equal;
    apply find_pointwise; intros r; unfold inRange, ge; apply andb_comm || reflexivity.
Qed.

Lemma Qfloor_times10 n : Qfloor (inject_Z n * 10) = n * 10.
Proof.
  assert (E : (inject_Z n * 10 == inject_Z (n * 10))%Q).
  { rewrite inject_Z_mult. reflexivity. }
  rewrite (Qfloor_comp _ _ E). apply Qfloor_Z.
Qed.

Lemma truncateToOneDecimal_Real q :
  truncateToOneDecimal (Real q) = Real (inject_Z (Qfloor (q * 10)) * (1 # 10)).
Proof. reflexivity. Qed.

Lemma lookedUp_int component n m :
  m <= n -> exists q, lookedUp component (int n) (int m) = Real q /\ (q == inject_Z n)%Q.
Proof.
  intros H. unfold lookedUp. destruct (str_eqb component (u "50msprint")).
  - unfold int. rewrite truncateToOneDecimal_Real.
    eexists; split; [reflexivity|]. rewrite Qfloor_times10.
    rewrite inject_Z_mult. field.
  - unfold int. simpl. destruct (Qle_bool (inject_Z n) (inject_Z m)) eqn:E.
    + eexists; split; [reflexivity|]. apply Qle_bool_iff in E.
      rewrite <- Zle_Qle in E. assert (m = n) by lia. subst. reflexivity.
    + eexists; split; reflexivity.
Qed.

(** C1. For every component of the scoring tables and both genders the
    ranges of the table are disjoint and, over the integers, contiguous; an
    integer-valued measurement lying in a range scores that range's score,
    which is between 1 and 10; a value lying in no range, zero and a missing
    value among them, scores 0; and the scoring never throws. *)
Theorem calculateScore_partitions (component : jsstring) (gender : Gender) :
  In component (Object_keys (@scoringTables number _)) ->
  let ranges := tableOf component gender in
  (forall v r1 r2, In r1 ranges -> In r2 ranges ->
     inRange v r1 = true -> inRange v r2 = true -> r1 = r2)
  /\ (forall a b c, a <= b <= c ->
        covered ranges (int a) = true -> covered ranges (int c) = true ->
        covered ranges (int b) = true)
  /\ (forall n m r, m <= n -> In r ranges -> inRange (int n) r = true ->
        calculateScore component gender (int n) (int m) = Ok (score r)
        /\ 1 <= score r <= 10)
  /\ (forall n m, m <= n -> covered ranges (int n) = false ->
        calculateScore component gender (int n) (int m) = Ok 0)
  /\ (forall firstTry secondTry,
        covered ranges (lookedUp component firstTry secondTry) = false ->
        calculateScore component gender firstTry secondTry = Ok 0)
  /\ calculateScore component gender (int 0) (int 0) = Ok 0
  /\ (forall secondTry,
        calculateScore component gender (@toNumber number _ None) secondTry = Ok 0)
  /\ (forall firstTry secondTry, exists s,
        calculateScore component gender firstTry secondTry = Ok s /\ 0 <= s <= 10).
Proof.
  intros K ranges.
  pose proof (tableOf_wellFormed component gender K) as W.
  fold ranges in W. unfold wellFormed in W.
  rewrite !andb_true_iff, negb_true_iff in W.
  destruct W as [[[D C] B] Z0]. rewrite forallb_forall in B.
  assert (Hint : forall n m, m <= n ->
            calculateScore component gender (int n) (int m)
            = Ok (scoreOrZero (find (inRange (int n)) ranges))).
  { intros n m Hm. rewrite calculateScore_tableScore by exact K.
    destruct (lookedUp_int component n m Hm) as (q & -> & E).
    unfold int. rewrite (tableScore_Qeq _ _ _ _ E). reflexivity. }
  split; [intros v r1 r2; apply disjoint_sound, D|].
  split; [intros a b c; apply contiguous_sound with (L := lowest ranges), C|].
  split.
  { intros n m r Hm I R. rewrite Hint by assumption.
    rewrite (find_the_range ranges _ r) by auto. split; [reflexivity|].
    apply B in I. unfold scoreInBounds in I.
    apply andb_true_iff in I as [L U]. apply Z.leb_le in L, U. lia. }
  split.
  { intros n m Hm U. rewrite Hint by assumption.
    rewrite find_uncovered; [reflexivity | exact U]. }
  split.
  { intros f s U. rewrite calculateScore_tableScore by exact K.
    unfold tableScore. fold ranges. rewrite find_uncovered; [reflexivity | exact U]. }
  split.
  { rewrite Hint by lia. rewrite find_uncovered; [reflexivity | exact Z0]. }
  split.
  { intros s. rewrite calculateScore_tableScore by exact K.
    assert (E : lookedUp component (@toNumber number _ None) s = NotANumber).
    { unfold lookedUp. destruct (str_eqb component (u "50msprint")); reflexivity. }
    rewrite E. unfold tableScore.
    rewrite find_uncovered; [reflexivity | apply covered_nan]. }
  intros f s. rewrite calculateScore_tableScore by exact K.
  eexists; split; [reflexivity|]. unfold tableScore. fold ranges.
  destruct (find _ ranges) as [r|] eqn:F; simpl; [|lia].
  apply find_some in F as [I _]. apply B in I. unfold scoreInBounds in I.
  apply andb_true_iff in I as [L U]. apply Z.leb_le in L, U. lia.
Qed.

Lemma calculateScore_partitions_witness :
  In (u "situps") (Object_keys (@scoringTables number _))
  /\ calculateScore (u "situps") Girl (int 12) (int 0) = Ok 5.
Proof.
  assert (K : In (u "situps") (Object_keys (@scoringTables number _))).
  { right; left; reflexivity. }
  split; [exact K|].
  destruct (calculateScore_partitions (u "situps") Girl K) as (_ & _ & H & _).
  apply (H 12 0 (range 12 13 5)); [lia | | reflexivity].
  do 5 right; left; reflexivity.
Defined.

(** ** The 50 m sprint *)

Lemma below_one_unscored ranges x :
  startsAtOne ranges = true -> (x < 1)%Q -> find (inRange (Real x)) ranges = None.
Proof.
  unfold startsAtOne. rewrite forallb_forall. intros S Hx.
  apply find_uncovered. apply not_true_is_false. intros C.
  apply existsb_exists in C as (r & I & R).
  unfold inRange in R. apply andb_true_iff in R as [L _].
  pose proof (number_le_trans _ _ _ (S r I) L) as T.
  apply Qle_bool_iff in T. apply (Qlt_not_le _ _ Hx T).
Qed.

Lemma sprint_startsAtOne gender : startsAtOne (tableOf (u "50msprint") gender) = true.
Proof. destruct gender; vm_compute; reflexivity. Qed.

Lemma sprint_key : In (u "50msprint") (Object_keys (@scoringTables number _)).
Proof. do 5 right; left; reflexivity. Qed.

Lemma Qfloor_Qtruncate q : 0 <= Qnum q -> Qfloor q = Qtruncate q.
Proof.
  destruct q as [n d]. unfold Qfloor, Qtruncate. simpl. intros H.
  symmetry. apply Z.quot_div_nonneg; lia.
Qed.

Lemma tenth_below_one z : z <= 0 -> (inject_Z z * (1 # 10) < 1)%Q.
Proof. intros H. unfold Qlt, Qmult, inject_Z. simpl. lia. Qed.

Lemma sprint_score_toward_zero gender q :
  tableScore (u "50msprint") gender (truncateToOneDecimal (Real q))
  = tableScore (u "50msprint") gender (Real (truncTowardZero1 q)).
Proof.
  rewrite truncateToOneDecimal_Real. unfold truncTowardZero1.
  destruct (Z_le_gt_dec 0 (Qnum (q * 10))) as [Hpos | Hneg].
  - rewrite Qfloor_Qtruncate by exact Hpos. reflexivity.
  - unfold tableScore.
    rewrite !below_one_unscored; try apply sprint_startsAtOne; try reflexivity.
    + apply tenth_below_one. unfold Qtruncate.
      rewrite <- (Z.quot_0_l (Z.pos (Qden (q * 10)))) by lia.
      apply Z.quot_le_mono; lia.
    + apply tenth_below_one. unfold Qfloor. destruct (q * 10)%Q as [n d].
      simpl in *. assert (n / Z.pos d < 0); [|lia].
      apply Z.div_lt_upper_bound; lia.
Qed.

(** C4. For the 50 m sprint the first-trial time is cut to one decimal
    place, [floor(10 x) / 10], before the range lookup: the score is the
    table score of the time truncated toward zero, not of the rounded time.
    For a boy 8.06 is looked up as 8.0 and scores 10, and 8.19 as 8.1 and
    scores 9, in exact arithmetic and in binary64 alike. *)
Theorem sprint_truncates_before_lookup :
  (forall gender q secondTry,
     calculateScore (u "50msprint") gender (Real q) secondTry
     = Ok (tableScore (u "50msprint") gender (truncateToOneDecimal (Real q)))
     /\ truncateToOneDecimal (Real q) = Real (inject_Z (Qfloor (q * 10)) * (1 # 10))
     /\ (0 <= q -> truncateToOneDecimal (Real q) = Real (truncTowardZero1 q))%Q
     /\ calculateScore (u "50msprint") gender (Real q) secondTry
        = Ok (tableScore (u "50msprint") gender (Real (truncTowardZero1 q))))
  /\ (forall secondTry,
        (truncTowardZero1 8.06 == 8.0)%Q
        /\ calculateScore (u "50msprint") Boy (Real 8.06) secondTry = Ok 10
        /\ tableScore (u "50msprint") Boy (Real 8.0) = 10
        /\ (truncTowardZero1 8.19 == 8.1)%Q
        /\ calculateScore (u "50msprint") Boy (Real 8.19) secondTry = Ok 9
        /\ tableScore (u "50msprint") Boy (Real 8.1) = 9)
  /\ ((roundToOneDecimal 8.06 == 8.1)%Q
      /\ tableScore (u "50msprint") Boy (Real (roundToOneDecimal 8.06)) = 9
      /\ (roundToOneDecimal 8.19 == 8.2)%Q)
  /\ (let lit64 := @lit SpecFloat.spec_float _ in
      truncateToOneDecimal (lit64 8.06%Q) = lit64 8.0%Q
      /\ calculateScore (u "50msprint") Boy (lit64 8.06%Q) (lit64 0%Q) = Ok 10
      /\ truncateToOneDecimal (lit64 8.19%Q) = lit64 8.1%Q
      /\ calculateScore (u "50msprint") Boy (lit64 8.19%Q) (lit64 0%Q) = Ok 9).
Proof.
  split; [|split; [|split]].
  - intros gender q secondTry.
    assert (E : calculateScore (u "50msprint") gender (Real q) secondTry
                = Ok (tableScore (u "50msprint") gender (truncateToOneDecimal (Real q)))).
    { rewrite calculateScore_tableScore by apply sprint_key. reflexivity. }
    split; [exact E|]. split; [apply truncateToOneDecimal_Real|]. split.
    + intros Hq. rewrite truncateToOneDecimal_Real. unfold truncTowardZero1.
      rewrite Qfloor_Qtruncate; [reflexivity|].
      destruct q as [n d]. unfold Qle in Hq. simpl in *. lia.
    + rewrite E, sprint_score_toward_zero. reflexivity.
  - intros secondTry.
    assert (C : forall q, calculateScore (u "50msprint") Boy (Real q) secondTry
                = Ok (tableScore (u "50msprint") Boy (truncateToOneDecimal (Real q)))).
    { intros q. rewrite calculateScore_tableScore by apply sprint_key. reflexivity. }
    rewrite !C. repeat split; vm_compute; reflexivity.
  - repeat split; vm_compute; reflexivity.
  - cbv zeta. repeat split; vm_compute; reflexivity.
Qed.

(** ** [determineGrade] *)

Lemma gradeLoop_first_met totalScore thresholds i0 i t :
  thresholds !! i = Some t -> t <= totalScore ->
  (forall j t', (j < i)%nat -> thresholds !! j = Some t' -> totalScore < t') ->
  gradeLoop totalScore thresholds i0 = [(65 + (i0 + N.of_nat i))%N].
Proof.
  revert i0 i. induction thresholds as [|t0 rest IH]; intros i0 i Hi Hmet Hbefore.
  - discriminate.
  - simpl. destruct i as [|i]; simpl in Hi.
    + injection Hi as ->. destruct (Z.geb_spec totalScore t); [|lia].
      do 2 f_equal. lia.
    + pose proof (Hbefore 0%nat t0 ltac:(lia) eq_refl) as H0.
      destruct (Z.geb_spec totalScore t0); [lia|].
      rewrite (IH (i0 + 1)%N i Hi Hmet).
      * do 2 f_equal. lia.
      * intros j t' Hj Hl. apply (Hbefore (S j) t'); [lia | exact Hl].
Qed.

Lemma gradeLoop_none_met totalScore thresholds i0 :
  (forall t, In t thresholds -> totalScore < t) ->
  gradeLoop totalScore thresholds i0 = u "E".
Proof.
  revert i0. induction thresholds as [|t0 rest IH]; intros i0 H; [reflexivity|].
  simpl. pose proof (H t0 (or_introl eq_refl)).
  destruct (Z.geb_spec totalScore t0); [lia|].
  apply IH. intros t I. apply H. right. exact I.
Qed.

Lemma gradeThresholds_descending gradeLevel thresholds :
  property gradeThresholds gradeLevel = Some thresholds ->
  descending thresholds /\ length thresholds = 5%nat.
Proof.
  intros P. apply property_In in P. simpl in P.
  repeat (destruct P as [[= <- <-] | P]; [split; [|reflexivity];
    repeat (constructor; [|repeat constructor; lia]); constructor |]).
  destruct P.
Qed.

(** C5. [determineGrade] reads the thresholds of the two-character prefix
    of the grade level, a descending list, and returns the letter of the
    first threshold the total meets or exceeds, 'A' for the first, 'B' for
    the second and so on, and 'E' when the total meets none; a total of 45
    in "G2", whose thresholds are 47, 41, 34, 27, 26, is graded 'B'. *)
Theorem determineGrade_first_threshold_met :
  (forall totalScore gradeLevel thresholds,
     property gradeThresholds (slice 0 2 gradeLevel) = Some thresholds ->
     descending thresholds
     /\ (forall i t,
           thresholds !! i = Some t -> t <= totalScore ->
           (forall j t', (j < i)%nat -> thresholds !! j = Some t' -> totalScore < t') ->
           determineGrade totalScore gradeLevel = Ok [(65 + N.of_nat i)%N])
     /\ ((forall t, In t thresholds -> totalScore < t) ->
         determineGrade totalScore gradeLevel = Ok (u "E")))
  /\ slice 0 2 (u "G1A") = u "G1"
  /\ property gradeThresholds (slice 0 2 (u "G2")) = Some [47; 41; 34; 27; 26]
  /\ determineGrade 45 (u "G2") = Ok (u "B")
  /\ u "A" = [65%N] /\ u "B" = [66%N] /\ u "E" = [69%N].
Proof.
  split; [|repeat split].
  intros totalScore gradeLevel thresholds P. split; [|split].
  - apply (gradeThresholds_descending _ _ P).
  - intros i t Hi Hmet Hbefore. unfold determineGrade. rewrite P.
    rewrite (gradeLoop_first_met _ _ 0%N i t Hi Hmet Hbefore). reflexivity.
  - intros H. unfold determineGrade. rewrite P.
    rewrite gradeLoop_none_met by exact H. reflexivity.
Qed.

Lemma determineGrade_first_threshold_met_witness :
  property gradeThresholds (slice 0 2 (u "G3B")) = Some [53; 46; 39; 32; 31]
  /\ determineGrade 40 (u "G3B") = Ok (u "C").
Proof.
  assert (P : property gradeThresholds (slice 0 2 (u "G3B")) = Some [53; 46; 39; 32; 31])
    by reflexivity.
  split; [exact P|].
  destruct determineGrade_first_threshold_met as [H _].
  destruct (H 40 (u "G3B") _ P) as (_ & Hmet & _).
  apply (Hmet 2%nat 39); [reflexivity | lia |].
  intros j t' Hj Hl. destruct j as [|[|j]]; [| |lia]; injection Hl as <-; lia.
Defined.

Lemma gradeLoop_letter totalScore thresholds i :
  (i + N.of_nat (length thresholds) <= 5)%N ->
  exists l, gradeLoop totalScore thresholds i = [l]
            /\ (l <= 69)%N /\ ((i <= 4)%N -> (65 + i <= l)%N).
Proof.
  revert i. induction thresholds as [|t rest IH]; intros i Hlen.
  - exists 69%N. split; [reflexivity | lia].
  - simpl. simpl length in Hlen. destruct (totalScore >=? t).
    + exists (65 + i)%N. split; [reflexivity | lia].
    + destruct (IH (i + 1)%N ltac:(lia)) as (l & E & U & L).
      exists l. split; [exact E|]. split; [exact U|]. intros Hi.
      destruct rest as [|t' rest'].
      * simpl in E. injection E as <-. lia.
      * simpl length in Hlen. lia.
Qed.

Lemma gradeLoop_monotonic s1 s2 thresholds i :
  s1 <= s2 -> (i + N.of_nat (length thresholds) <= 5)%N ->
  exists l1 l2, gradeLoop s1 thresholds i = [l1] /\ gradeLoop s2 thresholds i = [l2]
                /\ (l2 <= l1)%N.
Proof.
  intros Hs. revert i. induction thresholds as [|t rest IH]; intros i Hlen.
  - exists 69%N, 69%N. repeat split; reflexivity || lia.
  - simpl. simpl length in Hlen.
    destruct (Z.geb_spec s1 t), (Z.geb_spec s2 t); try lia.
    + exists (65 + i)%N, (65 + i)%N. repeat split; lia.
    + destruct (gradeLoop_letter s1 rest (i + 1)%N ltac:(lia)) as (l & E & U & L).
      exists l, (65 + i)%N. split; [exact E|]. split; [reflexivity|].
      destruct rest as [|t' rest'].
      * simpl in E. injection E as <-. lia.
      * simpl length in Hlen. lia.
    + apply IH. lia.
Qed.

(** C6. [determineGrade] is monotonic in the total score: for every grade
    level of the threshold table and totals [s1 <= s2] the letter for [s2]
    is alphabetically no later than the letter for [s1]. *)
Theorem determineGrade_monotonic (gradeLevel : jsstring) (s1 s2 : Z) :
  In (slice 0 2 gradeLevel) (Object_keys gradeThresholds) ->
  s1 <= s2 ->
  exists l1 l2,
    determineGrade s1 gradeLevel = Ok [l1]
    /\ determineGrade s2 gradeLevel = Ok [l2]
    /\ (65 <= l2 <= l1)%N /\ (l1 <= 69)%N.
Proof.
  intros K Hs. apply property_keys in K as [thresholds P].
  unfold determineGrade. rewrite P.
  destruct (gradeThresholds_descending _ _ P) as [_ Hlen].
  destruct (gradeLoop_monotonic s1 s2 thresholds 0%N Hs) as (l1 & l2 & E1 & E2 & H);
    [rewrite Hlen; lia|].
  destruct (gradeLoop_letter s1 thresholds 0%N) as (l1' & E1' & U1 & _);
    [rewrite Hlen; lia|].
  destruct (gradeLoop_letter s2 thresholds 0%N) as (l2' & E2' & _ & L2);
    [rewrite Hlen; lia|].
  rewrite E1 in E1'. rewrite E2 in E2'. injection E1' as <-. injection E2' as <-.
  exists l1, l2. rewrite E1, E2. repeat split; try lia.
Qed.

Lemma determineGrade_monotonic_witness :
  In (slice 0 2 (u "G4C")) (Object_keys gradeThresholds) /\ 40 <= 55
  /\ exists l1 l2,
       determineGrade 40 (u "G4C") = Ok [l1] /\ determineGrade 55 (u "G4C") = Ok [l2]
       /\ (65 <= l2 <= l1)%N /\ (l1 <= 69)%N.
Proof.
  assert (K : In (slice 0 2 (u "G4C")) (Object_keys gradeThresholds)).
  { do 3 right; left; reflexivity. }
  split; [exact K|]. split; [lia|].
  apply (determineGrade_monotonic (u "G4C") 40 55 K). lia.
Defined.

Lemma gradeLoop_E totalScore thresholds i0 :
  gradeLoop totalScore thresholds i0 = u "E" ->
  forall i t, (i0 + N.of_nat i < 4)%N -> thresholds !! i = Some t -> totalScore < t.
Proof.
  revert i0. induction thresholds as [|t0 rest IH]; intros i0 E i t Hi Hl.
  - discriminate.
  - simpl in E. destruct (Z.geb_spec totalScore t0).
    + injection E as E. lia.
    + destruct i as [|i]; simpl in Hl.
      * injection Hl as <-. lia.
      * apply (IH (i0 + 1)%N E i t); [lia | exact Hl].
Qed.

(** C10, as the code has it. [determineGrade] throws for every grade level
    whose two-character prefix is not a key of the threshold table, the
    empty string and "X1A" among them; 'E' is returned only when the prefix
    is a known grade and the total meets none of the first four thresholds
    (a total that meets the fifth threshold alone is graded 'E' as well). *)
Theorem determineGrade_partial (totalScore : Z) (gradeLevel : jsstring) :
  (~ In (slice 0 2 gradeLevel) (Object_keys gradeThresholds) ->
   determineGrade totalScore gradeLevel = Throw TypeError)
  /\ (determineGrade totalScore gradeLevel = Ok (u "E") ->
      exists thresholds,
        property gradeThresholds (slice 0 2 gradeLevel) = Some thresholds
        /\ forall i t, (i < 4)%nat -> thresholds !! i = Some t -> totalScore < t)
  /\ determineGrade totalScore (u "") = Throw TypeError
  /\ determineGrade totalScore (u "X1A") = Throw TypeError.
Proof.
  split; [|split; [|split; reflexivity]].
  - intros K. unfold determineGrade.
    destruct (property gradeThresholds (slice 0 2 gradeLevel)) as [ths|] eqn:P;
      [|reflexivity].
    exfalso. apply K. apply property_keys. eauto.
  - unfold determineGrade.
    destruct (property gradeThresholds (slice 0 2 gradeLevel)) as [ths|] eqn:P;
      [|discriminate].
    intros [= E]. exists ths. split; [reflexivity|].
    intros i t Hi. apply (gradeLoop_E totalScore ths 0%N E). lia.
Qed.

Lemma determineGrade_partial_witness :
  ~ In (slice 0 2 (u "K2")) (Object_keys gradeThresholds)
  /\ determineGrade 50 (u "K2") = Throw TypeError.
Proof.
  assert (K : ~ In (slice 0 2 (u "K2")) (Object_keys gradeThresholds)).
  { intros H. vm_compute in H. intuition discriminate. }
  split; [exact K|].
  exact (proj1 (determineGrade_partial 50 (u "K2")) K).
Defined.

(** The last sentence of C10 as it is written fails: a total of 26 in "G2"
    is graded 'E' although it meets the fifth threshold, 26. *)
Lemma determineGrade_E_with_a_threshold_met :
  ~ (determineGrade 26 (u "G2") = Ok (u "E") ->
     exists thresholds,
       property gradeThresholds (slice 0 2 (u "G2")) = Some thresholds
       /\ forall t, In t thresholds -> 26 < t).
Proof.
  intros H. destruct (H eq_refl) as (ths & P & None_met).
  injection P as <-. specialize (None_met 26). simpl in None_met. lia.
Qed.

(** ** The two exports *)

Section Exports.
Context {num : Type} `{!JsNumber num}.

Lemma sheetCalls_same i (student : Student num) :
  Individual.sheetCalls i student = Single.sheetCalls i student.
Proof. reflexivity. Qed.

Lemma individual_loop (students : list (Student num)) :
  forall i zip,
    resultMap (fun st => List.map (fun file => calls (snd file)) (snd st))
              (forEach Individual.addWorkbook students (i, zip))
    = resultMap (fun sheets => List.map (fun file => calls (snd file)) zip ++ sheets)
                (sheetsFrom i students).
Proof.
  induction students as [|student students IH]; intros i zip; simpl.
  - rewrite app_nil_r. reflexivity.
  - destruct (Individual.sheetCalls i student) as [sheet|e]; simpl; [|reflexivity].
    rewrite IH. destruct (sheetsFrom (S i) students) as [sheets|e]; simpl;
      [|reflexivity].
    rewrite List.map_app. simpl. rewrite <- app_assoc. reflexivity.
Qed.

Lemma single_loop (students : list (Student num)) :
  forall i index workbook,
    resultMap (fun st => List.map calls (snd st))
              (forEach Single.addWorksheet
                       (combine (seq index (length students)) students)
                       (i, workbook))
    = resultMap (fun sheets => List.map calls workbook ++ sheets)
                (sheetsFrom i students).
Proof.
  induction students as [|student students IH]; intros i index workbook; simpl.
  - rewrite app_nil_r. reflexivity.
  - rewrite <- sheetCalls_same.
    destruct (Individual.sheetCalls i student) as [sheet|e]; simpl; [|reflexivity].
    rewrite IH. destruct (sheetsFrom (S i) students) as [sheets|e]; simpl;
      [|reflexivity].
    rewrite List.map_app. simpl. rewrite <- app_assoc. reflexivity.
Qed.

Lemma sheetsFrom_lookup (students : list (Student num)) :
  forall i sheets k sheet,
    sheetsFrom i students = Ok sheets -> sheets !! k = Some sheet ->
    exists student, students !! k = Some student
                    /\ Individual.sheetCalls (i + k) student = Ok sheet.
Proof.
  induction students as [|student students IH]; intros i sheets k sheet; simpl.
  - intros [= <-]. discriminate.
  - destruct (Individual.sheetCalls i student) as [c|e] eqn:C; simpl; [|discriminate].
    destruct (sheetsFrom (S i) students) as [cs|e] eqn:Rest; simpl; [|discriminate].
    intros [= <-] L. destruct k as [|k]; simpl in L.
    + injection L as <-. exists student. rewrite Nat.add_0_r. auto.
    + destruct (IH (S i) cs k sheet Rest L) as (st & Hst & Hc).
      exists st. split; [exact Hst|]. rewrite <- Hc. f_equal. lia.
Qed.

Lemma exports_same_sheets (students : list (Student num)) selectedGrade :
  resultMap (fun out => List.map (fun file => calls (snd file)) (snd out))
            (Individual.exportGradeToIndividualWorkbooks students selectedGrade)
  = resultMap (fun out => List.map calls (snd out))
              (Single.exportGradeToSingleWorkbook students selectedGrade).
Proof.
  unfold Individual.exportGradeToIndividualWorkbooks,
    Single.exportGradeToSingleWorkbook, indexed.
  pose proof (individual_loop students 1 []) as I.
  pose proof (single_loop students 1 0 []) as W.
  destruct (forEach Individual.addWorkbook students (1%nat, [])) as [st|e];
    destruct (forEach Single.addWorksheet _ (1%nat, [])) as [st'|e'];
    destruct (sheetsFrom 1 students) as [sheets|e'']; simpl in *;
    congruence.
Qed.

End Exports.

(** C9. The two export modes render each student identically: the
    per-student routine of the archive of individual workbooks and that of
    the single workbook make the same calls on the worksheet of a student,
    cell values, styles, merges, scores, total and grade alike (or throw
    alike), and so do the exports on every list of students, worksheet by
    worksheet; the worksheets differ in their names alone. *)
Theorem exports_render_identically :
  forall (num : Type) (N : JsNumber num),
    (forall i (student : Student num),
        Individual.sheetCalls i student = Single.sheetCalls i student)
    /\ (forall (students : list (Student num)) selectedGrade,
          resultMap (fun out => List.map (fun file => calls (snd file)) (snd out))
                    (Individual.exportGradeToIndividualWorkbooks students selectedGrade)
          = resultMap (fun out => List.map calls (snd out))
                      (Single.exportGradeToSingleWorkbook students selectedGrade))
    /\ (forall (students : list (Student num)) selectedGrade zipName zip k file,
          Individual.exportGradeToIndividualWorkbooks students selectedGrade
          = Ok (zipName, zip) ->
          zip !! k = Some file ->
          exists student fileName workbook sheet,
            students !! k = Some student
            /\ Single.exportGradeToSingleWorkbook students selectedGrade
               = Ok (fileName, workbook)
            /\ workbook !! k = Some sheet
            /\ calls (snd file) = calls sheet
            /\ Individual.sheetCalls (S k) student = Ok (calls sheet)
            /\ Single.sheetCalls (S k) student = Ok (calls sheet)).
Proof.
  intros num N. split; [intros; reflexivity|]. split; [apply exports_same_sheets|].
  intros students selectedGrade zipName zip k file E L.
  pose proof (exports_same_sheets students selectedGrade) as Same.
  rewrite E in Same. simpl in Same.
  destruct (Single.exportGradeToSingleWorkbook students selectedGrade)
    as [[fileName workbook]|e] eqn:W0; simpl in Same; [|discriminate].
  injection Same as Same.
  unfold Individual.exportGradeToIndividualWorkbooks in E.
  pose proof (individual_loop students 1 []) as I.
  destruct (forEach Individual.addWorkbook students (1%nat, [])) as [st|e];
    simpl in E; [|discriminate].
  injection E as _ <-. simpl in I.
  destruct (sheetsFrom 1 students) as [sheets|e] eqn:F; simpl in I; [|discriminate].
  injection I as I.
  assert (Lk : sheets !! k = Some (calls (snd file))).
  { rewrite <- I. rewrite list_lookup_fmap, L. reflexivity. }
  destruct (sheetsFrom_lookup students 1 sheets k _ F Lk) as (student & Hs & Hc).
  assert (Lw : List.map calls workbook !! k = Some (calls (snd file))).
  { rewrite <- Same. rewrite list_lookup_fmap, L. reflexivity. }
  rewrite list_lookup_fmap in Lw.
  destruct (workbook !! k) as [sheet|] eqn:W; simpl in Lw; [|discriminate].
  injection Lw as Lw.
  exists student, fileName, workbook, sheet.
  rewrite Lw. repeat split; auto.
Qed.

Lemma exports_render_identically_witness :
  let student : Student number :=
    {| enname := u "Taro"; jpname := u "T"; class := u "G2A"; grade := u "2";
       gender := Boy;
       try1st := {[ u "situps" := int 12 ]}; try2nd := ∅ |} in
  exists zip workbook file sheet,
    Individual.exportGradeToIndividualWorkbooks [student] (u "G2A")
    = Ok (u "Grade_G2A_Reports.zip", zip)
    /\ zip !! 0%nat = Some file
    /\ Single.exportGradeToSingleWorkbook [student] (u "G2A")
       = Ok (u "Grade_G2A_Reports.xlsx", workbook)
    /\ workbook !! 0%nat = Some sheet
    /\ fst file = u "1 Taro.xlsx" /\ sheetName (snd file) = u "Grade 2"
    /\ sheetName sheet = u "1 Taro"
    /\ calls (snd file) = calls sheet.
Proof.
  intros student.
  assert (E : exists zip file,
             Individual.exportGradeToIndividualWorkbooks [student] (u "G2A")
             = Ok (u "Grade_G2A_Reports.zip", zip)
             /\ zip !! 0%nat = Some file
             /\ fst file = u "1 Taro.xlsx" /\ sheetName (snd file) = u "Grade 2").
  { vm_compute. eexists _, _. repeat split. }
  destruct E as (zip & file & E & L & Hname & Hsheet).
  destruct (exports_render_identically number _) as (_ & _ & Same).
  destruct (Same [student] (u "G2A") _ zip 0%nat file E L)
    as (student' & fileName & workbook & sheet & Hs & W & Lw & Hc & _).
  exists zip, workbook, file, sheet.
  assert (N : exists wb, Single.exportGradeToSingleWorkbook [student] (u "G2A")
                         = Ok (u "Grade_G2A_Reports.xlsx", wb)
                         /\ match wb !! 0%nat with
                            | Some sh => sheetName sh = u "1 Taro"
                            | None => True
                            end).
  { vm_compute. eexists. split; reflexivity. }
  destruct N as (wb & W' & Hw). rewrite W in W'. injection W' as -> <-.
  rewrite Lw in Hw. repeat split; assumption.
Defined.

(** ** Single-attempt components and grip strength *)

(** C2 at [situpsTwice]. Both exports score the sit-ups by the first trial,
    10 sit-ups scoring 4; the edit view scores the better of the two trials,
    10, and its score changes with the second trial alone. *)
Theorem editView_scores_second_trial_of_situps :
  calculateScore (u "situps") Boy (int 10) (int 10) = Ok 4
  /\ resultMap fst (Individual.componentCalls situpsTwice (0, []) (u "situps")) = Ok 4
  /\ resultMap fst (Single.componentCalls situpsTwice (0, []) (u "situps")) = Ok 4
  /\ resultMap fst (editViewRow situpsTwice (0, []) (u "situps")) = Ok 10
  /\ resultMap fst
       (editViewRow
          {| enname := enname situpsTwice; jpname := jpname situpsTwice;
             class := class situpsTwice; grade := grade situpsTwice;
             gender := gender situpsTwice; try1st := try1st situpsTwice;
             try2nd := {[ u "situps" := int 0 ]} |}
          (0, []) (u "situps")) = Ok 4.
Proof. repeat split; vm_compute; reflexivity. Qed.

(** C3 at [gripOnce]. Both exports let the first trial stand in for the
    missing second one and score the maximum, 30 kg, with 10; the edit view
    takes the maximum of the four stored values as they are, which is [NaN],
    and scores 0. *)
Theorem editView_grip_without_fallback :
  tableScore (u "gripStrength") Boy (int 30) = 10
  /\ resultMap fst (Individual.componentCalls gripOnce (0, []) (u "gripStrength")) = Ok 10
  /\ resultMap fst (Single.componentCalls gripOnce (0, []) (u "gripStrength")) = Ok 10
  /\ renderGripStrength gripOnce
     = Ok (GripRow [Some (int 30); None; Some (int 28); None] NotANumber 0).
Proof. repeat split; vm_compute; reflexivity. Qed.

(** ** What the exports do for the single-attempt components and for grip
    strength *)

Lemma scoringTables_startAtOne :
  forallb (fun entry => startsAtOne (forBoy (snd entry))
                        && startsAtOne (forGirl (snd entry)))
          (@scoringTables number _) = true.
Proof. vm_compute. reflexivity. Qed.

Lemma tableOf_startsAtOne component gender :
  In component (Object_keys (@scoringTables number _)) ->
  startsAtOne (tableOf component gender) = true.
Proof.
  intros K. apply property_keys in K as [scores P]. unfold tableOf. rewrite P.
  apply property_In in P.
  pose proof scoringTables_startAtOne as W. rewrite forallb_forall in W.
  specialize (W _ P). simpl in W. apply andb_true_iff in W as [WB WG].
  destruct gender; assumption.
Qed.

Lemma tableScore_below_one component gender x :
  In component (Object_keys (@scoringTables number _)) ->
  (x < 1)%Q -> tableScore component gender (Real x) = 0.
Proof.
  intros K Hx. unfold tableScore.
  rewrite below_one_unscored; [reflexivity | apply tableOf_startsAtOne, K | exact Hx].
Qed.

Lemma tableScore_max_zero component gender f :
  In component (Object_keys (@scoringTables number _)) ->
  tableScore component gender (number_max f (Real 0)) = tableScore component gender f.
Proof.
  intros K. destruct f as [a| |]; try reflexivity. simpl.
  destruct (Qle_bool a 0) eqn:E; [|reflexivity].
  apply Qle_bool_iff in E.
  rewrite !tableScore_below_one; try exact K; try reflexivity.
  eapply Qle_lt_trans; [exact E | reflexivity].
Qed.

Lemma number_max_same f : number_max f f = f.
Proof. destruct f as [a| |]; try reflexivity. simpl. destruct (Qle_bool a a); reflexivity. Qed.

Lemma calculateScore_second_zero component gender (f : number) :
  In component (Object_keys (@scoringTables number _)) ->
  calculateScore component gender f (lit 0) = calculateScore component gender f f.
Proof.
  intros K. rewrite !calculateScore_tableScore by exact K. unfold lookedUp.
  destruct (str_eqb component (u "50msprint")); [reflexivity|].
  change (Math_max f (lit 0)) with (number_max f (Real 0)).
  change (Math_max f f) with (number_max f f).
  rewrite tableScore_max_zero by exact K. rewrite number_max_same. reflexivity.
Qed.

Ltac decide_keys :=
  repeat match goal with
         | |- context [str_eqb ?a ?b] =>
             let v := eval vm_compute in (str_eqb a b) in
             change (str_eqb a b) with v
         end;
  cbv beta iota.

Lemma single_attempt_key key :
  In key [u "situps"; u "50msprint"; u "20mshuttleruns"] ->
  In key (Object_keys (@scoringTables number _)).
Proof.
  intros [<-|[<-|[<-|[]]]]; vm_compute; tauto.
Qed.

(** For sit-ups, the 50 m sprint and the 20 m shuttle runs both exports
    make the same calls whatever the second trials are, and add to the
    total the score of the first trial alone; so does the edit view for the
    sprint. *)
Theorem exports_score_first_trial_alone (student : Student number)
    (key : jsstring) (secondTrials : gmap jsstring number)
    (totalScore : Z) (sheet : list (SheetOp number)) :
  In key [u "situps"; u "50msprint"; u "20mshuttleruns"] ->
  let firstTry := toNumber (try1st student !! key) in
  let changed := withSecondTrials student secondTrials in
  Individual.componentCalls changed (totalScore, sheet) key
  = Individual.componentCalls student (totalScore, sheet) key
  /\ Single.componentCalls changed (totalScore, sheet) key
     = Single.componentCalls student (totalScore, sheet) key
  /\ resultMap fst (Individual.componentCalls student (totalScore, sheet) key)
     = resultMap (Z.add totalScore)
                 (calculateScore key (gender student) firstTry firstTry)
  /\ resultMap fst (Single.componentCalls student (totalScore, sheet) key)
     = resultMap (Z.add totalScore)
                 (calculateScore key (gender student) firstTry firstTry).
Proof.
  intros K firstTry changed.
  pose proof (calculateScore_second_zero key (gender student) firstTry
                (single_attempt_key key K)) as Z0.
  unfold firstTry in *. clear firstTry.
  destruct K as [<-|[<-|[<-|[]]]];
    (split; [reflexivity|]); (split; [reflexivity|]);
    unfold Individual.componentCalls, Single.componentCalls; decide_keys;
    cbv [orb]; rewrite Z0;
    (split; destruct (calculateScore _ _ _ _); reflexivity).
Qed.

Lemma exports_score_first_trial_alone_witness :
  In (u "situps") [u "situps"; u "50msprint"; u "20mshuttleruns"]
  /\ resultMap fst (Individual.componentCalls (withSecondTrials situpsTwice ∅)
                                              (0, []) (u "situps"))
     = Ok 4.
Proof.
  assert (K : In (u "situps") [u "situps"; u "50msprint"; u "20mshuttleruns"])
    by (left; reflexivity).
  split; [exact K|].
  destruct (exports_score_first_trial_alone situpsTwice (u "situps") ∅ 0 [] K)
    as (E & _ & S & _).
  rewrite E, S. vm_compute. reflexivity.
Defined.

Lemma number_max_real x y :
  exists z, number_max (Real x) (Real y) = Real z
            /\ (x <= z)%Q /\ (y <= z)%Q /\ (z == x \/ z == y)%Q.
Proof.
  simpl. destruct (Qle_bool x y) eqn:E.
  - apply Qle_bool_iff in E. exists y. repeat split; auto with qarith.
  - exists x. repeat split; auto with qarith.
    destruct (Qlt_le_dec y x) as [H|H]; [apply Qlt_le_weak, H|].
    apply Qle_bool_iff in H. congruence.
Qed.

Lemma Math_max4_real p q r s :
  exists z, Math_max4 (Real p) (Real q) (Real r) (Real s) = Real z
            /\ (p <= z)%Q /\ (q <= z)%Q /\ (r <= z)%Q /\ (s <= z)%Q
            /\ (z == p \/ z == q \/ z == r \/ z == s)%Q.
Proof.
  unfold Math_max4.
  change (@Math_max number _) with number_max.
  destruct (number_max_real p q) as (a & -> & Pa & Qa & Ea).
  destruct (number_max_real a r) as (b & -> & Ab & Rb & Eb).
  destruct (number_max_real b s) as (c & -> & Bc & Sc & Ec).
  exists c. split; [reflexivity|].
  assert (p <= c)%Q by (apply Qle_trans with b; [apply Qle_trans with a|]; assumption).
  assert (q <= c)%Q by (apply Qle_trans with b; [apply Qle_trans with a|]; assumption).
  assert (r <= c)%Q by (apply Qle_trans with b; assumption).
  repeat split; try assumption.
  destruct Ec as [Ec|Ec]; [|right; right; right; exact Ec].
  destruct Eb as [Eb|Eb]; [|right; right; left; rewrite Ec; exact Eb].
  destruct Ea as [Ea|Ea]; [left | right; left]; rewrite Ec, Eb; exact Ea.
Qed.

Lemma grip_key : In (u "gripStrength") (Object_keys (@scoringTables number _)).
Proof. left; reflexivity. Qed.

(** Both exports score grip strength once, by the table score of the
    maximum of the four values, the first trial of a hand standing in for
    its missing second trial; the edit view scores the maximum of the four
    stored values as they are, which is the same score when both second
    trials are stored; and when one of four values is at least the other
    three the score is the table score of that value. *)
Theorem exports_score_grip_maximum (student : Student number)
    (totalScore : Z) (sheet : list (SheetOp number)) :
  let firstTryR := try1st student !! u "gripstrR" in
  let secondTryR := try2nd student !! u "gripstrR" ?? firstTryR in
  let firstTryL := try1st student !! u "gripstrL" in
  let secondTryL := try2nd student !! u "gripstrL" ?? firstTryL in
  let maxGripStrength :=
    Math_max4 (toNumber firstTryR) (toNumber secondTryR)
              (toNumber firstTryL) (toNumber secondTryL) in
  resultMap fst (Individual.componentCalls student (totalScore, sheet) (u "gripStrength"))
  = Ok (totalScore + tableScore (u "gripStrength") (gender student) maxGripStrength)
  /\ resultMap fst (Single.componentCalls student (totalScore, sheet) (u "gripStrength"))
     = Ok (totalScore + tableScore (u "gripStrength") (gender student) maxGripStrength)
  /\ resultMap scoreCell (renderGripStrength student)
     = Ok (tableScore (u "gripStrength") (gender student)
             (Math_max4 (toNumber (try1st student !! u "gripstrR"))
                        (toNumber (try2nd student !! u "gripstrR"))
                        (toNumber (try1st student !! u "gripstrL"))
                        (toNumber (try2nd student !! u "gripstrL"))))
  /\ (is_Some (try2nd student !! u "gripstrR") ->
      is_Some (try2nd student !! u "gripstrL") ->
      resultMap scoreCell (renderGripStrength student)
      = Ok (tableScore (u "gripStrength") (gender student) maxGripStrength))
  /\ (forall gender p q r s v,
        In v [p; q; r; s] ->
        (p <= v)%Q -> (q <= v)%Q -> (r <= v)%Q -> (s <= v)%Q ->
        tableScore (u "gripStrength") gender (Math_max4 (Real p) (Real q) (Real r) (Real s))
        = tableScore (u "gripStrength") gender (Real v)).
Proof.
  intros firstTryR secondTryR firstTryL secondTryL maxGripStrength.
  assert (C : forall m : number,
             calculateScore (u "gripStrength") (gender student) m (lit 0)
             = Ok (tableScore (u "gripStrength") (gender student) m)).
  { intros m. rewrite calculateScore_tableScore by apply grip_key.
    unfold lookedUp. decide_keys.
    change (Math_max m (lit 0)) with (number_max m (Real 0)).
    rewrite tableScore_max_zero by apply grip_key. reflexivity. }
  split; [|split; [|split; [|split]]].
  - unfold Individual.componentCalls. decide_keys.
    fold firstTryR secondTryR firstTryL secondTryL. fold maxGripStrength.
    rewrite C. reflexivity.
  - unfold Single.componentCalls. decide_keys.
    fold firstTryR secondTryR firstTryL secondTryL. fold maxGripStrength.
    rewrite C. reflexivity.
  - unfold renderGripStrength. rewrite C. reflexivity.
  - intros [r Hr] [l Hl]. unfold renderGripStrength. rewrite C.
    unfold maxGripStrength, secondTryR, secondTryL. rewrite Hr, Hl. reflexivity.
  - intros g p q r s v I Hp Hq Hr Hs.
    destruct (Math_max4_real p q r s) as (z & -> & Pz & Qz & Rz & Sz & E).
    apply tableScore_Qeq. apply Qle_antisym.
    + destruct E as [E|[E|[E|E]]]; rewrite E; assumption.
    + simpl in I. destruct I as [<-|[<-|[<-|[<-|[]]]]]; assumption.
Qed.

(** ** The total score *)

Lemma component_keys :
  Forall (fun key => In key (Object_keys (@scoringTables number _)))
         (Object_keys componentOrder).
Proof.
  apply List.Forall_forall. intros key K. simpl in K.
  repeat (destruct K as [<-|K]; [vm_compute; tauto|]). destruct K.
Qed.

Lemma tableScore_bounds component gender (v : number) :
  In component (Object_keys (@scoringTables number _)) ->
  0 <= tableScore component gender v <= 10.
Proof.
  intros K. pose proof (tableOf_wellFormed component gender K) as W.
  unfold wellFormed in W. rewrite !andb_true_iff in W.
  destruct W as [[[_ _] B] _]. rewrite forallb_forall in B.
  unfold tableScore. destruct (find _ _) as [r|] eqn:F; simpl; [|lia].
  apply find_some in F as [I _]. apply B in I. unfold scoreInBounds in I.
  apply andb_true_iff in I as [L U]. apply Z.leb_le in L, U. lia.
Qed.

Lemma tableScore_max_same component gender (f : number) :
  tableScore component gender (number_max f f) = tableScore component gender f.
Proof. rewrite number_max_same. reflexivity. Qed.

(** Each step of the loop of an export adds the score of its component and
    appends to the worksheet. *)
Lemma individual_step (student : Student number) key totalScore sheet :
  In key (Object_keys componentOrder) ->
  exists rows,
    Individual.componentCalls student (totalScore, sheet) key
    = Ok (totalScore + exportedScore student key, sheet ++ rows).
Proof.
  intros K. unfold exportedScore, exportedValue.
  assert (T : forall c (f s : number),
             In c (Object_keys (@scoringTables number _)) ->
             calculateScore c (gender student) f s
             = Ok (tableScore c (gender student) (lookedUp c f s))).
  { intros. apply calculateScore_tableScore. assumption. }
  pose proof component_keys as CK. rewrite List.Forall_forall in CK.
  simpl in K.
  repeat (destruct K as [<-|K];
          [ unfold Individual.componentCalls; decide_keys; cbv [orb];
            rewrite T by (apply CK; vm_compute; tauto);
            unfold lookedUp; decide_keys;
            try change (Math_max ?m (lit 0)) with (number_max m (Real 0));
            try rewrite tableScore_max_zero by (apply CK; vm_compute; tauto);
            cbn [bind]; eexists; reflexivity |]).
  destruct K.
Qed.

Lemma individual_total (student : Student number) keys :
  (forall key, In key keys -> In key (Object_keys componentOrder)) ->
  forall totalScore sheet,
  exists rows,
    forEach (Individual.componentCalls student) keys (totalScore, sheet)
    = Ok (totalScore + sumOf (List.map (exportedScore student) keys), sheet ++ rows).
Proof.
  induction keys as [|key keys IH]; intros K totalScore sheet.
  - exists []. simpl. rewrite Z.add_0_r, app_nil_r. reflexivity.
  - destruct (individual_step student key totalScore sheet) as [rows E];
      [apply K; left; reflexivity|].
    destruct (IH (fun k I => K k (or_intror I))
                 (totalScore + exportedScore student key) (sheet ++ rows))
      as [rows' E'].
    exists (rows ++ rows'). cbn [forEach]. rewrite E. cbn [bind]. rewrite E'.
    rewrite app_assoc. do 2 f_equal. cbn [List.map sumOf fold_right]. unfold sumOf. lia.
Qed.

Lemma exportedScore_bounds (student : Student number) key :
  In key (Object_keys componentOrder) -> 0 <= exportedScore student key <= 10.
Proof.
  intros K. apply tableScore_bounds.
  pose proof component_keys as CK. rewrite List.Forall_forall in CK. apply CK, K.
Qed.

(** The total of an export is the sum of the scores of the eight
    components, grip strength counted once, each the table score of the
    value the export looks up and between 0 and 10; the scoring does not
    throw, and the worksheet of a student is produced unless the class of
    the student is of no known grade. *)
Theorem exports_total_is_sum (student : Student number) (i : nat) :
  length (Object_keys componentOrder) = 8%nat
  /\ (forall key, In key (Object_keys componentOrder) ->
        0 <= exportedScore student key <= 10)
  /\ exists rows,
       let totalScore := sumOf (List.map (exportedScore student) (Object_keys componentOrder)) in
       forEach (Individual.componentCalls student) (Object_keys componentOrder)
               (0, Individual.headerCalls i student)
       = Ok (totalScore, Individual.headerCalls i student ++ rows)
       /\ forEach (Single.componentCalls student) (Object_keys componentOrder)
                  (0, Single.headerCalls i student)
          = Ok (totalScore, Single.headerCalls i student ++ rows)
       /\ 0 <= totalScore <= 80
       /\ match determineGrade totalScore (class student) with
          | Ok letter =>
              exists sheet,
                Individual.sheetCalls i student = Ok sheet
                /\ Single.sheetCalls i student = Ok sheet
                /\ In (AddRow [ Str (u "Total Score"); Str (u ""); Str (u "");
                                Str (u ""); Str (u ""); Str (u ""); Str (u "");
                                Str (u ""); Str (u ""); Int totalScore ]) sheet
                /\ In (AddRow [ Str (u "Grade"); Str (u ""); Str (u ""); Str (u "");
                                Str (u ""); Str (u ""); Str (u ""); Str (u "");
                                Str (u ""); Str letter ]) sheet
          | Throw e =>
              Individual.sheetCalls i student = Throw e
              /\ Single.sheetCalls i student = Throw e
          end.
Proof.
  split; [reflexivity|]. split; [apply exportedScore_bounds|].
  destruct (individual_total student (Object_keys componentOrder) (fun k I => I)
              0 (Individual.headerCalls i student)) as [rows E].
  exists rows. cbv zeta. rewrite Z.add_0_l in E.
  split; [exact E|]. split; [exact E|]. split.
  { pose proof (exportedScore_bounds student) as B.
    assert (S : forall keys, (forall k, In k keys -> In k (Object_keys componentOrder)) ->
                0 <= sumOf (List.map (exportedScore student) keys)
                <= 10 * Z.of_nat (length keys)).
    { induction keys as [|k keys IH]; intros K; [simpl; lia|].
      specialize (IH (fun k' I => K k' (or_intror I))).
      specialize (B k (K k (or_introl eq_refl))).
      cbn [List.map sumOf fold_right length] in *. unfold sumOf in IH. lia. }
    specialize (S (Object_keys componentOrder) (fun k I => I)).
    change (Z.of_nat (length (Object_keys componentOrder))) with 8 in S. lia. }
  assert (SC : Single.sheetCalls i student = Individual.sheetCalls i student)
    by reflexivity.
  rewrite SC. unfold Individual.sheetCalls. rewrite E. cbn [bind].
  destruct (determineGrade _ (class student)) as [letter|e]; cbn [bind].
  - eexists. split; [reflexivity|]. split; [reflexivity|].
    split; apply in_app_iff; right; apply in_app_iff; left;
      [left | do 3 right; left]; reflexivity.
  - split; reflexivity.
Qed.

(** ** The import parser *)

Lemma split_nonempty sep s : split sep s <> [].
Proof.
  destruct s as [|c s]; simpl; [discriminate|].
  destruct (N.eqb c sep); [discriminate|].
  destruct (split sep s); discriminate.
Qed.

Lemma split_no_separator sep s : ~ In sep s -> split sep s = [s].
Proof.
  induction s as [|c s IH]; simpl; intros H; [reflexivity|].
  destruct (N.eqb_spec c sep) as [->|_]; [tauto|].
  rewrite IH by tauto. reflexivity.
Qed.

Lemma split_app sep s rest :
  ~ In sep s -> split sep (s ++ sep :: rest) = s :: split sep rest.
Proof.
  induction s as [|c s IH]; simpl; intros H.
  - rewrite N.eqb_refl. reflexivity.
  - destruct (N.eqb_spec c sep) as [->|_]; [tauto|].
    rewrite IH by tauto. reflexivity.
Qed.

Lemma valueOrEmpty_trim cols i :
  valueOrEmpty (List.map trim cols) i = trim (nth i cols []).
Proof.
  unfold valueOrEmpty. revert i. induction cols as [|c cols IH]; intros [|i]; simpl;
    try reflexivity.
  - destruct (trim c); reflexivity.
  - apply IH.
Qed.

Lemma assignFields_lookup headers : forall index values student k,
  assignFields headers index values student !! k
  = match columnFrom headers index k with
    | Some i => Some (valueOrEmpty values i)
    | None => student !! k
    end.
Proof.
  induction headers as [|header rest IH]; intros index values student k; simpl;
    [reflexivity|].
  rewrite IH. destruct (columnFrom rest (S index) k); [reflexivity|].
  destruct (str_eqb header k) eqn:E.
  - apply str_eqb_eq in E as ->. apply lookup_insert_eq.
  - apply str_eqb_neq in E. apply lookup_insert_ne, E.
Qed.

Lemma parseLine_lookup headers line k :
  parseLine headers line !! k
  = match columnFrom headers 0 k with
    | Some i => Some (fieldOf headers line k)
    | None => None
    end.
Proof.
  unfold parseLine, fieldOf. rewrite assignFields_lookup.
  destruct (columnFrom headers 0 k); [|apply lookup_empty].
  rewrite valueOrEmpty_trim. reflexivity.
Qed.

Lemma truthy_parseLine headers line k :
  truthy (parseLine headers line !! k) = nonempty (fieldOf headers line k).
Proof.
  rewrite parseLine_lookup. unfold fieldOf.
  destruct (columnFrom headers 0 k); reflexivity.
Qed.

Lemma hasRequiredFields_complete headers line :
  hasRequiredFields (parseLine headers line) = complete headers line.
Proof.
  unfold hasRequiredFields, complete, requiredFields. simpl.
  rewrite !truthy_parseLine, andb_true_r, !andb_assoc. reflexivity.
Qed.

Lemma filter_map_commute {A B} (f : B -> bool) (g : A -> B) l :
  List.filter f (List.map g l) = List.map g (List.filter (fun a => f (g a)) l).
Proof.
  induction l as [|a l IH]; simpl; [reflexivity|].
  destruct (f (g a)); simpl; rewrite IH; reflexivity.
Qed.

Lemma filter_pointwise {A} (f g : A -> bool) l :
  (forall a, f a = g a) -> List.filter f l = List.filter g l.
Proof.
  intros E. induction l as [|a l IH]; simpl; [reflexivity|].
  rewrite E, IH. reflexivity.
Qed.

Lemma processCSV_complete_lines csvData :
  let lines := split newline csvData in
  let headers := List.map trim (split comma (hd [] lines)) in
  processCSV csvData
  = Ok (List.map (parseLine headers) (List.filter (complete headers) (drop 1 lines))).
Proof.
  unfold processCSV. pose proof (split_nonempty newline csvData) as NE.
  destruct (split newline csvData) as [|line0 rest]; [congruence|].
  cbv zeta. simpl hd. f_equal. rewrite filter_map_commute. f_equal.
  apply filter_pointwise. intros line. apply hasRequiredFields_complete.
Qed.

Lemma complete_iff headers line :
  complete headers line = true
  <-> forall k, In k requiredFields -> fieldOf headers line k <> [].
Proof.
  unfold complete. rewrite forallb_forall.
  split; intros H k I; specialize (H k I);
    destruct (fieldOf headers line k); simpl in *; congruence.
Qed.

Lemma short_line_empty headers line k i :
  columnFrom headers 0 k = Some i ->
  (length (split comma line) <= i)%nat ->
  fieldOf headers line k = [].
Proof.
  intros C L. unfold fieldOf. rewrite C.
  rewrite nth_overflow by exact L. reflexivity.
Qed.

Lemma empty_line_incomplete headers : complete headers [] = false.
Proof.
  unfold complete, requiredFields. simpl.
  assert (E : fieldOf headers [] (u "enname") = []).
  { unfold fieldOf. destruct (columnFrom headers 0 (u "enname")) as [i|];
      [|reflexivity].
    simpl. destruct i as [|[|i]]; reflexivity. }
  rewrite E. reflexivity.
Qed.

(** Surrounding whitespace is what [trim] removes. *)
Lemma trimStart_spec s :
  exists l, s = l ++ trimStart s /\ forallb is_ws l = true
            /\ match trimStart s with c :: _ => is_ws c = false | [] => True end.
Proof.
  induction s as [|c s (l & E & W & H)]; simpl.
  - exists []. auto.
  - destruct (is_ws c) eqn:C.
    + exists (c :: l). simpl. rewrite C, W. split; [congruence | auto].
    + exists []. simpl. auto.
Qed.

Lemma trimEnd_spec s :
  exists r, s = trimEnd s ++ r /\ forallb is_ws r = true
            /\ match rev (trimEnd s) with c :: _ => is_ws c = false | [] => True end.
Proof.
  induction s as [|c s (r & E & W & H)]; simpl.
  - exists []. auto.
  - destruct (trimEnd s) as [|d t] eqn:T.
    + destruct (is_ws c) eqn:C.
      * exists (c :: r). simpl in *. rewrite C, W. split; [congruence | auto].
      * exists r. simpl in *. split; [congruence | auto].
    + exists r. split; [simpl in *; congruence|]. split; [exact W|].
      change (rev (c :: d :: t)) with (rev (d :: t) ++ [c]).
      destruct (rev (d :: t)) as [|e t'] eqn:R; [|exact H].
      apply (f_equal (@rev N)) in R. rewrite rev_involutive in R. discriminate.
Qed.

Lemma trim_spec s :
  exists l r, s = l ++ trim s ++ r
              /\ forallb is_ws l = true /\ forallb is_ws r = true
              /\ match trim s with c :: _ => is_ws c = false | [] => True end
              /\ match rev (trim s) with c :: _ => is_ws c = false | [] => True end.
Proof.
  unfold trim. destruct (trimStart_spec s) as (l & E & Wl & Hl).
  destruct (trimEnd_spec (trimStart s)) as (r & E' & Wr & Hr).
  exists l, r. split; [rewrite <- E'; exact E|]. repeat split; auto.
  destruct (trimEnd (trimStart s)) as [|c t] eqn:T; [exact I|].
  rewrite E' in Hl. exact Hl.
Qed.

(** C7. The parser keeps a data line if and only if its seven required
    fields are non-empty after trimming; a line with too few columns has
    the missing fields set to the empty string and is dropped by the same
    filter, as is every line of fewer than seven columns under the standard
    header; no input raises an error; a line without its teacher field is
    absent from the result; and an empty or header-only input yields the
    empty sequence. *)
Theorem processCSV_keeps_complete_lines (csvData : jsstring) :
  let lines := split newline csvData in
  let headers := List.map trim (split comma (hd [] lines)) in
  processCSV csvData
  = Ok (List.map (parseLine headers) (List.filter (complete headers) (drop 1 lines)))
  /\ (forall line,
        complete headers line = true
        <-> forall k, In k requiredFields -> fieldOf headers line k <> [])
  /\ (forall line k,
        match columnFrom headers 0 k with
        | Some i =>
            parseLine headers line !! k = Some (fieldOf headers line k)
            /\ exists l r, nth i (split comma line) [] = l ++ fieldOf headers line k ++ r
                           /\ forallb is_ws l = true /\ forallb is_ws r = true
        | None => parseLine headers line !! k = None /\ fieldOf headers line k = []
        end)
  /\ (forall line k i,
        columnFrom headers 0 k = Some i ->
        (length (split comma line) <= i)%nat ->
        parseLine headers line !! k = Some []
        /\ (In k requiredFields -> complete headers line = false))
  /\ (forall line,
        (length (split comma line) < 7)%nat ->
        complete (List.map trim (split comma standardHeader)) line = false)
  /\ processCSV [] = Ok []
  /\ (forall header, ~ In newline header ->
        processCSV header = Ok [] /\ processCSV (header ++ [newline]) = Ok [])
  /\ processCSV (standardHeader ++ [newline] ++ u "Ann,J1,A,Girl,1,G1A") = Ok []
  /\ processCSV (standardHeader ++ [newline] ++ u "Ann,J1,A,Girl,1,G1A, ") = Ok []
  /\ processCSV (standardHeader ++ [newline] ++ u "Ann,J1,A,Girl,1,G1A, Mr X"
                 ++ [newline] ++ u "Bob,J2,B,Boy,1,G1A")
     = Ok [ parseLine (split comma standardHeader) (u "Ann,J1,A,Girl,1,G1A, Mr X") ]
  /\ parseLine (split comma standardHeader) (u "Ann,J1,A,Girl,1,G1A, Mr X")
     !! u "teacher" = Some (u "Mr X").
Proof.
  intros lines headers.
  split; [apply processCSV_complete_lines|].
  split; [intros line; apply complete_iff|].
  split.
  { intros line k. rewrite parseLine_lookup. unfold fieldOf.
    destruct (columnFrom headers 0 k) as [i|]; [|split; reflexivity].
    split; [reflexivity|].
    destruct (trim_spec (nth i (split comma line) [])) as (l & r & E & Wl & Wr & _).
    exists l, r. auto. }
  split.
  { intros line k i C L.
    pose proof (short_line_empty headers line k i C L) as E.
    split; [rewrite parseLine_lookup, C, E; reflexivity|].
    intros I. apply not_true_is_false. rewrite complete_iff. intros H.
    exact (H k I E). }
  split.
  { intros line L. apply not_true_is_false. rewrite complete_iff. intros H.
    apply (H (u "teacher")); [do 6 right; left; reflexivity|].
    apply (short_line_empty _ line (u "teacher") 6%nat); [reflexivity | lia]. }
  split; [reflexivity|].
  split.
  { intros header H. split.
    - rewrite processCSV_complete_lines.
      rewrite (split_no_separator newline header H). reflexivity.
    - rewrite processCSV_complete_lines.
      rewrite (split_app newline header [] H). simpl split. simpl drop.
      simpl List.filter. rewrite empty_line_incomplete. reflexivity. }
  repeat split; vm_compute; reflexivity.
Qed.

Lemma processCSV_keeps_complete_lines_witness :
  let csvData := standardHeader ++ [newline] ++ u " Ann ,J1,A,Girl,1,G1A,Mr X" in
  let student := parseLine (split comma standardHeader) (u " Ann ,J1,A,Girl,1,G1A,Mr X") in
  processCSV csvData = Ok [student]
  /\ student !! u "enname" = Some (u "Ann")
  /\ student !! u "teacher" = Some (u "Mr X").
Proof.
  intros csvData student.
  destruct (processCSV_keeps_complete_lines csvData) as (E & _).
  split.
  rewrite E.
  vm_compute.
  reflexivity.
  split; vm_compute; reflexivity.
Defined.

(** ** Slot keys *)

Lemma isDigit_digit k : (k < 10)%nat -> Roster.isDigit (digit k) = true.
Proof.
  intros H. unfold Roster.isDigit, digit.
  apply andb_true_iff. split; apply N.leb_le; lia.
Qed.

Lemma digit_value k : Z.of_N (digit k) - 48 = Z.of_nat k.
Proof. unfold digit. lia. Qed.

Lemma nat_digits_spec fuel : forall n acc,
  (n < fuel)%nat ->
  exists ds, nat_digits fuel n acc = ds ++ acc
             /\ ds <> []
             /\ forallb Roster.isDigit ds = true
             /\ forall z, fold_left (fun n c => n * 10 + (Z.of_N c - 48)) ds z
                          = z * 10 ^ Z.of_nat (length ds) + Z.of_nat n.
Proof.
  induction fuel as [|fuel IH]; intros n acc Hn; [lia|].
  change (nat_digits (S fuel) n acc)
    with (if (n / 10 =? 0)%nat then digit (n mod 10) :: acc
          else nat_digits fuel (n / 10) (digit (n mod 10) :: acc)).
  pose proof (Nat.mod_upper_bound n 10 ltac:(lia)) as Hm.
  pose proof (Nat.div_mod_eq n 10) as Hd.
  destruct (Nat.eqb_spec (n / 10) 0) as [E|E].
  - exists [digit (n mod 10)]. split; [reflexivity|]. split; [discriminate|].
    split; [cbn [forallb]; rewrite isDigit_digit by lia; reflexivity|].
    intros z. cbn [fold_left length]. rewrite digit_value. lia.
  - destruct (IH (n / 10)%nat (digit (n mod 10) :: acc)) as (ds & E1 & NE & D & V).
    { lia. }
    exists (ds ++ [digit (n mod 10)]). split; [rewrite <- app_assoc; exact E1|].
    split; [destruct ds; discriminate|].
    split; [rewrite forallb_app, D; cbn [forallb];
            rewrite isDigit_digit by lia; reflexivity|].
    intros z. rewrite fold_left_app, V. cbn [fold_left]. rewrite digit_value.
    rewrite length_app. cbn [length].
    replace (Z.of_nat (length ds + 1)) with (Z.of_nat (length ds) + 1) by lia.
    rewrite Z.pow_add_r by lia. lia.
Qed.

Lemma nat_to_string_spec n :
  nat_to_string n <> []
  /\ forallb Roster.isDigit (nat_to_string n) = true
  /\ Roster.parseInt (nat_to_string n) = Z.of_nat n.
Proof.
  unfold nat_to_string.
  destruct (nat_digits_spec (S n) n [] ltac:(lia)) as (ds & E & NE & D & V).
  rewrite E, app_nil_r. split; [exact NE|]. split; [exact D|].
  unfold Roster.parseInt. rewrite V. lia.
Qed.

Lemma takeWhile_app {A} (f : A -> bool) a b :
  forallb f a = true -> Roster.takeWhile f (a ++ b) = a ++ Roster.takeWhile f b.
Proof.
  induction a as [|x a IH]; simpl; [reflexivity|].
  intros H. apply andb_true_iff in H as [-> H]. rewrite IH by exact H. reflexivity.
Qed.

Lemma forallb_rev {A} (f : A -> bool) l : forallb f (rev l) = forallb f l.
Proof.
  induction l as [|x l IH]; simpl; [reflexivity|].
  rewrite forallb_app, IH. simpl. rewrite andb_true_r. apply andb_comm.
Qed.

Lemma slotNumber_studentKey i : Roster.slotNumber (Roster.studentKey i) = Z.of_nat (i + 1).
Proof.
  destruct (nat_to_string_spec (i + 1)) as (NE & D & V).
  unfold Roster.slotNumber, Roster.trailingDigits, Roster.studentKey.
  rewrite rev_app_distr, takeWhile_app by (rewrite forallb_rev; exact D).
  change (Roster.takeWhile Roster.isDigit (rev (u "student"))) with (@nil N).
  rewrite app_nil_r, rev_involutive.
  destruct (nat_to_string (i + 1)); [congruence | exact V].
Qed.

(** ** Sorting by slot *)

Section Sorting.
Context {num : Type} `{!JsNumber num}.

Lemma insertBySlot_perm (a : entry num) l : Roster.insertBySlot a l ≡ₚ a :: l.
Proof.
  induction l as [|b l IH]; simpl; [reflexivity|].
  destruct (_ <=? 0); [reflexivity|].
  rewrite IH. apply perm_swap.
Qed.

Lemma sortBySlot_perm (l : list (entry num)) : Roster.sortBySlot l ≡ₚ l.
Proof.
  induction l as [|a l IH]; simpl; [reflexivity|].
  rewrite insertBySlot_perm, IH. reflexivity.
Qed.

Lemma insertBySlot_sorted (a : entry num) l :
  StronglySorted slotLe l -> StronglySorted slotLe (Roster.insertBySlot a l).
Proof.
  induction 1 as [|b l S IH F]; simpl; [repeat constructor|].
  destruct (Z.leb_spec (Roster.slotNumber (fst a) - Roster.slotNumber (fst b)) 0).
  - constructor; [constructor; assumption|].
    constructor; [unfold slotLe; lia|].
    eapply Forall_impl; [exact F|]. unfold slotLe. intros c Hc. simpl in *. lia.
  - constructor; [exact IH|].
    rewrite insertBySlot_perm. constructor; [unfold slotLe; lia | exact F].
Qed.

Lemma sortBySlot_sorted (l : list (entry num)) : StronglySorted slotLe (Roster.sortBySlot l).
Proof.
  induction l as [|a l IH]; simpl; [constructor | apply insertBySlot_sorted, IH].
Qed.

(** A list sorted by slot that is a permutation of a list of strictly
    increasing slots is that list. *)
Lemma sorted_unique (C : list (entry num)) :
  StronglySorted slotLt C ->
  forall S, StronglySorted slotLe S -> S ≡ₚ C -> S = C.
Proof.
  induction 1 as [|c C HC IH FC]; intros S HS P.
  - apply Permutation_nil_r in P. exact P.
  - destruct S as [|s S]; [apply Permutation_nil_cons in P; contradiction|].
    apply StronglySorted_inv in HS as [HS FS].
    assert (E : s = c).
    { assert (Is : s ∈ c :: C) by (rewrite <- P; left).
      assert (Ic : c ∈ s :: S) by (rewrite P; left).
      apply elem_of_cons in Is as [?|Is]; [assumption|].
      apply elem_of_cons in Ic as [?|Ic]; [congruence|].
      rewrite Forall_forall in FC, FS.
      specialize (FC s Is). specialize (FS c Ic). unfold slotLt, slotLe in *. lia. }
    subst s. f_equal. apply IH; [exact HS|].
    eapply Permutation_cons_inv, P.
Qed.

Lemma sortBySlot_canonical (C l : list (entry num)) :
  StronglySorted slotLt C -> l ≡ₚ C -> Roster.sortBySlot l = C.
Proof.
  intros HC P. apply sorted_unique; [exact HC | apply sortBySlot_sorted|].
  rewrite sortBySlot_perm. exact P.
Qed.

End Sorting.

(** ** The store after an upload *)

Lemma property_None {V} (obj : list (jsstring * V)) key :
  ~ In key (Object_keys obj) -> property obj key = None.
Proof.
  intros H. destruct (property obj key) as [v|] eqn:P; [|reflexivity].
  exfalso. apply H. apply property_keys. eauto.
Qed.

Lemma fold_left_map {A B C} (f : A -> C -> A) (g : B -> C) l a :
  fold_left f (List.map g l) a = fold_left (fun a x => f a (g x)) l a.
Proof. revert a. induction l as [|x l IH]; intros a; simpl; [|rewrite IH]; reflexivity. Qed.

Section Upload.
Context {num : Type} `{!JsNumber num}.

Lemma children_set (year c key : jsstring) data (db : Roster.Database num)
    (year' c' : jsstring) :
  Roster.children (Roster.set year c key data db) year' c'
  = if decide ((year, c) = (year', c'))
    then <[key := data]> (Roster.children db year c)
    else Roster.children db year' c'.
Proof.
  unfold Roster.children, Roster.set, Roster.Database in *.
  destruct (decide _) as [E|E].
  - rewrite <- E, lookup_insert_eq. reflexivity.
  - rewrite lookup_insert_ne by exact E. reflexivity.
Qed.

Lemma children_upload_entries (year c : jsstring) (l : list (nat * StudentData)) :
  forall (db : Roster.Database num) (year' c' : jsstring),
    Roster.children
      (fold_left (fun db e => Roster.set year c (Roster.studentKey (fst e))
                                (Roster.studentData (snd e)) db) l db) year' c'
    = if decide ((year, c) = (year', c'))
      then writes (List.map (fun e => (Roster.studentKey (fst e),
                                       Roster.studentData (snd e))) l)
                  (Roster.children db year c)
      else Roster.children db year' c'.
Proof.
  induction l as [|e l IH]; intros db year' c'; simpl.
  - destruct (decide _) as [[= <- <-]|]; reflexivity.
  - rewrite IH. destruct (decide _) as [E|E].
    + rewrite children_set. destruct (decide _); [reflexivity | congruence].
    + rewrite children_set. destruct (decide _); [congruence | reflexivity].
Qed.

Lemma children_uploadClass (year c : jsstring) classStudents
    (db : Roster.Database num) (year' c' : jsstring) :
  Roster.children (Roster.uploadClass year c classStudents db) year' c'
  = if decide ((year, c) = (year', c'))
    then writes (slots 0 classStudents) (Roster.children db year c)
    else Roster.children db year' c'.
Proof. apply children_upload_entries. Qed.

Lemma pushStudent_keys acc c student k :
  In k (Object_keys (Roster.pushStudent acc c student)) ->
  k = c \/ In k (Object_keys acc).
Proof.
  induction acc as [|[k0 l0] acc IH]; simpl.
  - intros [<-|[]]. auto.
  - destruct (str_eqb k0 c); simpl; intros [<-|H]; auto.
    destruct (IH H); auto.
Qed.

Lemma pushStudent_NoDup acc c student :
  List.NoDup (Object_keys acc) ->
  List.NoDup (Object_keys (Roster.pushStudent acc c student)).
Proof.
  induction acc as [|[k0 l0] acc IH]; simpl; intros ND.
  - constructor; [intros [] | constructor].
  - inversion ND as [|? ? NI ND']; subst.
    destruct (str_eqb k0 c) eqn:E; simpl; [constructor; assumption|].
    constructor; [|apply IH, ND'].
    intros I. apply pushStudent_keys in I as [->|I]; [|contradiction].
    rewrite str_eqb_refl in E. discriminate.
Qed.

Lemma pushStudent_property acc k student c :
  default [] (property (Roster.pushStudent acc k student) c)
  = if str_eqb k c then default [] (property acc c) ++ [student]
    else default [] (property acc c).
Proof.
  induction acc as [|[k0 l0] acc IH]; simpl.
  - destruct (str_eqb k c); reflexivity.
  - destruct (str_eqb k0 k) eqn:E0; simpl.
    + apply str_eqb_eq in E0 as ->. destruct (str_eqb k c); reflexivity.
    + destruct (str_eqb k0 c) eqn:E1; [|exact IH].
      apply str_eqb_eq in E1 as ->. rewrite (proj2 (str_eqb_neq k c)); [reflexivity|].
      apply str_eqb_neq in E0. congruence.
Qed.

Lemma group_fold_property students : forall acc c,
  default [] (property
                (fold_left (fun acc student =>
                              Roster.pushStudent acc (classOf student) student)
                           students acc) c)
  = default [] (property acc c)
    ++ List.filter (fun student => str_eqb (classOf student) c) students.
Proof.
  induction students as [|s students IH]; intros acc c; simpl.
  - rewrite app_nil_r. reflexivity.
  - rewrite IH, pushStudent_property.
    destruct (str_eqb (classOf s) c); [rewrite <- app_assoc|]; reflexivity.
Qed.

Lemma group_fold_NoDup students : forall acc,
  List.NoDup (Object_keys acc) ->
  List.NoDup (Object_keys
                (fold_left (fun acc student =>
                              Roster.pushStudent acc (classOf student) student)
                           students acc)).
Proof.
  induction students as [|s students IH]; intros acc ND; simpl; [exact ND|].
  apply IH, pushStudent_NoDup, ND.
Qed.

Lemma groupByClass_property students c :
  default [] (property (Roster.groupByClass students) c)
  = List.filter (fun student => str_eqb (classOf student) c) students.
Proof. apply (group_fold_property students [] c). Qed.

Lemma groupByClass_NoDup students :
  List.NoDup (Object_keys (Roster.groupByClass students)).
Proof. apply group_fold_NoDup. constructor. Qed.

Lemma children_upload_groups (year : jsstring)
    (groups : list (jsstring * list StudentData)) :
  List.NoDup (Object_keys groups) ->
  forall (db : Roster.Database num) (c : jsstring),
    Roster.children
      (fold_left (fun db e => Roster.uploadClass year (fst e) (snd e) db) groups db)
      year c
    = writes (slots 0 (default [] (property groups c))) (Roster.children db year c).
Proof.
  induction groups as [|[k l] groups IH]; intros ND db c; simpl; [reflexivity|].
  inversion ND as [|? ? NI ND']; subst.
  rewrite IH by exact ND'. rewrite children_uploadClass.
  destruct (str_eqb k c) eqn:E.
  - apply str_eqb_eq in E as ->. rewrite property_None by exact NI.
    destruct (decide _); [reflexivity | congruence].
  - apply str_eqb_neq in E. destruct (decide _) as [[= ?]|]; [congruence | reflexivity].
Qed.

Lemma children_uploadToFirebase (year : jsstring) students
    (db : Roster.Database num) (c : jsstring) :
  Roster.children (Roster.uploadToFirebase year students db) year c
  = writes (slots 0 (List.filter (fun student => str_eqb (classOf student) c) students))
           (Roster.children db year c).
Proof.
  unfold Roster.uploadToFirebase.
  rewrite children_upload_groups by apply groupByClass_NoDup.
  rewrite groupByClass_property. reflexivity.
Qed.



Lemma sorted_NoDup (C : list (entry num)) :
  StronglySorted slotLt C -> NoDup (C.*1).
Proof.
  induction 1 as [|c C S IH F]; simpl; constructor; [|exact IH].
  intros I. apply list_elem_of_fmap in I as (e & E & I).
  rewrite Forall_forall in F. specialize (F e I). unfold slotLt in F.
  rewrite E in F. lia.
Qed.





End Upload.






(** C8 at [tenStudents]. After the import of ten students of G1A the store
    lists student10 before student2. The export of the selected class
    section sorts the entries by slot and has the students in the order of
    the file; the export of all grades downloads them as they are listed,
    the tenth student second. *)
Theorem allGrades_export_in_listing_order :
  let students := match processCSV tenStudents with Ok l => l | Throw _ => [] end in
  let db : Roster.Database number := Roster.uploadToFirebase (u "2025") students ∅ in
  let listing := Roster.listChildren (Roster.children db (u "2025") (u "G1A")) in
  processCSV tenStudents = Ok students
  /\ List.map (fun student => student !! u "enname") students
     = List.map Some [ u "S01"; u "S02"; u "S03"; u "S04"; u "S05"; u "S06"; u "S07";
                       u "S08"; u "S09"; u "S10" ]
  /\ List.map fst listing
     = [ u "student1"; u "student10"; u "student2"; u "student3"; u "student4";
         u "student5"; u "student6"; u "student7"; u "student8"; u "student9" ]
  /\ snd (Roster.exportClass listing (u "2025") (u "G1A")) = tenStudents
  /\ snd (Roster.exportAllGrades [listing] (u "2025"))
     = join [newline]
         [ standardHeader;
           u "S01,J,F,Boy,1,G1A,T"; u "S10,J,F,Boy,1,G1A,T"; u "S02,J,F,Boy,1,G1A,T";
           u "S03,J,F,Boy,1,G1A,T"; u "S04,J,F,Boy,1,G1A,T"; u "S05,J,F,Boy,1,G1A,T";
           u "S06,J,F,Boy,1,G1A,T"; u "S07,J,F,Boy,1,G1A,T"; u "S08,J,F,Boy,1,G1A,T";
           u "S09,J,F,Boy,1,G1A,T" ].
Proof. cbv zeta. repeat split; vm_compute; reflexivity. Qed.

(** * Further properties *)

(** ** The score tables off the whole numbers *)

Lemma scoringTables_wholeSteps :
  forallb (fun entry => str_eqb (fst entry) (u "50msprint")
                        || (wholeSteps (forBoy (snd entry))
                            && wholeSteps (forGirl (snd entry))))
          (@scoringTables number _) = true.
Proof. vm_compute. reflexivity. Qed.

Lemma tableOf_wholeSteps component gender :
  In component (Object_keys (@scoringTables number _)) ->
  component <> u "50msprint" ->
  wholeSteps (tableOf component gender) = true.
Proof.
  intros K NS. apply property_keys in K as [scores P]. unfold tableOf. rewrite P.
  apply property_In in P.
  pose proof scoringTables_wholeSteps as W. rewrite forallb_forall in W.
  specialize (W _ P). cbn [fst snd] in W.
  apply str_eqb_neq in NS. rewrite NS in W. cbn [orb] in W.
  apply andb_true_iff in W as [WB WG]. destruct gender; assumption.
Qed.

Lemma number_le_real_inv x q :
  number_le x (Real q) = true -> exists a, x = Real a /\ (a <= q)%Q.
Proof.
  destruct x as [a| |]; simpl; try discriminate.
  intros H. apply Qle_bool_iff in H. eauto.
Qed.

Lemma between_ranges_unscored ranges r m q :
  wholeSteps ranges = true -> In r ranges -> max r = Real m ->
  (m < q)%Q -> (q < m + 1)%Q ->
  find (inRange (Real q)) ranges = None.
Proof.
  intros W I M L U. apply find_uncovered. apply not_true_is_false.
  intros C. apply existsb_exists in C as (r' & I' & R).
  unfold wholeSteps in W. rewrite forallb_forall in W. specialize (W r I).
  rewrite forallb_forall in W. specialize (W r' I').
  unfold inRange in R. apply andb_true_iff in R as [Lo Hi].
  change le with number_le in Lo, Hi.
  apply orb_true_iff in W as [W|W].
  - rewrite M in W. apply number_le_real_inv in W as (a & E & A).
    rewrite E in Hi. simpl in Hi. apply Qle_bool_iff in Hi. lra.
  - unfold aboveTop in W. rewrite M in W.
    destruct (min r') as [b| |] eqn:E; simpl in W, Lo; try discriminate.
    apply Qle_bool_iff in W, Lo. lra.
Qed.

(** X5. The tables of the components other than the sprint are made for
    whole numbers: a measurement strictly between the top of a range and
    the next whole number is in no range and scores 0, while the top of the
    range itself scores what the range gives. *)
Theorem measurement_between_ranges_scores_zero :
  forall (component : jsstring) (gender : Gender) (r : @ScoreRange number)
         (firstTry secondTry : number) (m q : Q),
    In component (Object_keys (@scoringTables number _)) ->
    component <> u "50msprint" ->
    In r (tableOf component gender) ->
    max r = Real m ->
    Math_max firstTry secondTry = Real q ->
    (m < q)%Q -> (q < m + 1)%Q ->
    calculateScore component gender firstTry secondTry = Ok 0
    /\ (inRange (Real m) r = true ->
        calculateScore component gender (Real m) (Real m) = Ok (score r)
        /\ 1 <= score r <= 10).
Proof.
  intros component gender r firstTry secondTry m q K NS I M E L U.
  pose proof (tableOf_wellFormed component gender K) as WF.
  unfold wellFormed in WF. rewrite !andb_true_iff in WF.
  destruct WF as [[[D _] B] _].
  split.
  - rewrite calculateScore_tableScore by exact K.
    unfold lookedUp. apply str_eqb_neq in NS. rewrite NS. rewrite E.
    unfold tableScore.
    rewrite (between_ranges_unscored _ r m q); auto using tableOf_wholeSteps.
    apply tableOf_wholeSteps; [exact K | apply str_eqb_neq; exact NS].
  - intros R. split.
    + rewrite calculateScore_tableScore by exact K.
      unfold lookedUp. apply str_eqb_neq in NS. rewrite NS.
      change (Math_max (Real m) (Real m)) with (number_max (Real m) (Real m)).
      rewrite number_max_same. unfold tableScore.
      rewrite (find_the_range _ _ r); auto.
    + rewrite forallb_forall in B. specialize (B r I). unfold scoreInBounds in B.
      apply andb_true_iff in B as [B1 B2]. apply Z.leb_le in B1, B2. lia.
Qed.

Lemma measurement_between_ranges_scores_zero_witness :
  calculateScore (u "gripStrength") Boy (Real 25.5) (Real 0) = Ok 0
  /\ calculateScore (u "gripStrength") Boy (Real 25) (Real 25) = Ok 9.
Proof.
  destruct (measurement_between_ranges_scores_zero
              (u "gripStrength") Boy (range 23 25 9) (Real 25.5) (Real 0) 25 25.5)
    as [Z T].
  - vm_compute. tauto.
  - vm_compute. discriminate.
  - vm_compute. tauto.
  - reflexivity.
  - reflexivity.
  - reflexivity.
  - reflexivity.
  - split; [exact Z|]. apply T. reflexivity.
Defined.

(** ** The scores in binary64 *)

Lemma calculateScore_sprint {num} `{!JsNumber num} gender (firstTry secondTry : num) :
  calculateScore (u "50msprint") gender firstTry secondTry
  = Ok (scoreOrZero (foundRange (tableOf (u "50msprint") gender)
                                (truncateToOneDecimal firstTry))).
Proof. reflexivity. Qed.

Lemma calculateScore_best {num} `{!JsNumber num} component gender
    (firstTry secondTry : num) :
  In component (Object_keys (@scoringTables num _)) ->
  component <> u "50msprint" ->
  calculateScore component gender firstTry secondTry
  = Ok (scoreOrZero (foundRange (tableOf component gender)
                                (Math_max firstTry secondTry))).
Proof.
  intros K NS. apply property_keys in K as [scores P].
  unfold calculateScore, tableOf, foundRange. rewrite P.
  apply str_eqb_neq in NS. rewrite NS.
  do 2 f_equal. apply find_pointwise. intros r. apply andb_comm.
Qed.

Lemma upTo_In n k : 0 <= k <= Z.of_nat n -> In k (upTo n).
Proof.
  intros H. unfold upTo. apply in_map_iff. exists (Z.to_nat k). split; [lia|].
  apply in_seq. lia.
Qed.

Lemma sprint_sameScores gender :
  sameScores true (u "50msprint") gender
             (List.map (fun k => k # 100) (upTo 3000)) = true.
Proof. destruct gender; vm_compute; reflexivity. Qed.

Lemma whole_sameScores :
  forallb (fun component =>
             str_eqb component (u "50msprint")
             || (sameScores false component Boy (List.map inject_Z (upTo 300))
                 && sameScores false component Girl (List.map inject_Z (upTo 300))))
          (Object_keys (@scoringTables number _)) = true.
Proof. vm_compute. reflexivity. Qed.

Lemma keys_binary64 :
  Object_keys (@scoringTables SpecFloat.spec_float _)
  = Object_keys (@scoringTables number _).
Proof. reflexivity. Qed.

(** X6. Read in binary64, the arithmetic of JavaScript, the sprint scores
    as it does in exact decimals: for every time from 0.00 to 30.00 seconds
    in steps of a hundredth, the step of the input of the edit view,
    cutting the double to one decimal and looking it up in the table of
    doubles gives the score of the decimal time. So do the other components
    for every whole measurement from 0 to 300. *)
Theorem scores_agree_in_binary64 :
  forall (gender : Gender),
    (forall k : Z,
        0 <= k <= 3000 ->
        calculateScore (num:=SpecFloat.spec_float) (u "50msprint") gender
                       (lit (k # 100)) (lit 0)
        = calculateScore (num:=number) (u "50msprint") gender
                         (lit (k # 100)) (lit 0))
    /\ (forall (component : jsstring) (n : Z),
           In component (Object_keys (@scoringTables number _)) ->
           component <> u "50msprint" ->
           0 <= n <= 300 ->
           calculateScore (num:=SpecFloat.spec_float) component gender
                          (lit (inject_Z n)) (lit 0)
           = calculateScore (num:=number) component gender
                            (lit (inject_Z n)) (lit 0)).
Proof.
  intros gender. split.
  - intros k H. rewrite !calculateScore_sprint. f_equal.
    pose proof (sprint_sameScores gender) as S.
    unfold sameScores in S. rewrite forallb_forall in S.
    specialize (S (k # 100)). apply Z.eqb_eq. apply S.
    apply in_map_iff. exists k. split; [reflexivity|].
    apply upTo_In. lia.
  - intros component n K NS H.
    rewrite !calculateScore_best by (try rewrite keys_binary64; assumption).
    f_equal.
    pose proof whole_sameScores as S. rewrite forallb_forall in S.
    specialize (S component K). apply str_eqb_neq in NS. rewrite NS in S.
    cbn [orb] in S. apply andb_true_iff in S as [SB SG].
    assert (SS : sameScores false component gender (List.map inject_Z (upTo 300)) = true)
      by (destruct gender; assumption).
    unfold sameScores in SS. rewrite forallb_forall in SS.
    specialize (SS (inject_Z n)). apply Z.eqb_eq. apply SS.
    apply in_map_iff. exists n. split; [reflexivity|].
    apply upTo_In. lia.
Qed.

(** ** An export as a whole *)

Section WholeExport.
Context {num : Type} `{!JsNumber num}.

Lemma calculateScore_known component gender (firstTry secondTry : num) :
  In component (Object_keys (@scoringTables num _)) ->
  exists score, calculateScore component gender firstTry secondTry = Ok score.
Proof.
  intros K. apply property_keys in K as [scores P].
  unfold calculateScore. rewrite P.
  destruct (str_eqb component (u "50msprint")); eexists; reflexivity.
Qed.

Lemma component_known key :
  In key (Object_keys componentOrder) ->
  In key (Object_keys (@scoringTables num _)).
Proof.
  intros K. simpl in K.
  repeat (destruct K as [<-|K]; [vm_compute; tauto|]). destruct K.
Qed.

Lemma componentCalls_returns (student : Student num) key st :
  In key (Object_keys componentOrder) ->
  exists st', Individual.componentCalls student st key = Ok st'.
Proof.
  intros K. destruct st as [totalScore sheet].
  pose proof (component_known key K) as S.
  unfold Individual.componentCalls.
  destruct (str_eqb key (u "gripStrength")).
  - match goal with
    | |- context [calculateScore ?c ?g ?f ?s] =>
        destruct (calculateScore_known c g f s) as [z ->];
          [vm_compute; tauto|]
    end.
    cbn [bind]. eexists. reflexivity.
  - destruct (str_eqb key (u "situps") || str_eqb key (u "50msprint")
              || str_eqb key (u "20mshuttleruns"));
      match goal with
      | |- context [calculateScore ?c ?g ?f ?s] =>
          destruct (calculateScore_known c g f s S) as [z ->]
      end;
      cbn [bind]; eexists; reflexivity.
Qed.

Lemma components_return (student : Student num) keys :
  (forall key, In key keys -> In key (Object_keys componentOrder)) ->
  forall st, exists st', forEach (Individual.componentCalls student) keys st = Ok st'.
Proof.
  induction keys as [|key keys IH]; intros K st; [eexists; reflexivity|].
  destruct (componentCalls_returns student key st) as [st1 E];
    [apply K; left; reflexivity|].
  destruct (IH (fun k I => K k (or_intror I)) st1) as [st2 E2].
  exists st2. cbn [forEach]. rewrite E. cbn [bind]. exact E2.
Qed.

(** The worksheet of a student is produced when the grade of the class is
    known, and the rendering throws when it is not. *)
Lemma sheetCalls_known i (student : Student num) :
  if gradeKnown (class student)
  then exists sheet, Individual.sheetCalls i student = Ok sheet
  else Individual.sheetCalls i student = Throw TypeError.
Proof.
  unfold gradeKnown, Individual.sheetCalls.
  destruct (components_return student (Object_keys componentOrder) (fun k I => I)
              (0, Individual.headerCalls i student)) as [[totalScore sheet] ->].
  cbn [bind]. unfold determineGrade.
  destruct (property gradeThresholds (slice 0 2 (class student)));
    cbn [bind]; [eexists|]; reflexivity.
Qed.

Lemma addWorkbook_step i zip (student : Student num) :
  Individual.addWorkbook (i, zip) student
  = bind (Individual.sheetCalls i student)
         (fun sheet =>
            Ok (S i,
                zip ++ [(nat_to_string i ++ u " " ++ enname student ++ u ".xlsx",
                         {| sheetName := u "Grade " ++ slice 1 (-1) (class student);
                            calls := sheet |})])).
Proof. reflexivity. Qed.

Lemma addWorksheet_step i workbook index (student : Student num) :
  Single.addWorksheet (i, workbook) (index, student)
  = bind (Individual.sheetCalls i student)
         (fun sheet =>
            Ok (S i,
                workbook ++ [{| sheetName := nat_to_string (index + 1) ++ u " "
                                             ++ enname student;
                                calls := sheet |}])).
Proof. reflexivity. Qed.

Lemma individual_files (students : list (Student num)) :
  forall i zip,
    if forallb (fun student => gradeKnown (class student)) students
    then exists zip',
        forEach Individual.addWorkbook students (i, zip)
        = Ok ((i + length students)%nat, zip ++ zip')
        /\ List.map fst zip'
           = List.map (fun e => nat_to_string (fst e) ++ u " " ++ enname (snd e)
                                ++ u ".xlsx")
                      (combine (seq i (length students)) students)
        /\ List.map (fun file => sheetName (snd file)) zip'
           = List.map (fun student => u "Grade " ++ slice 1 (-1) (class student))
                      students
    else forEach Individual.addWorkbook students (i, zip) = Throw TypeError.
Proof.
  induction students as [|student students IH]; intros i zip.
  - cbn [forallb]. exists []. rewrite app_nil_r, Nat.add_0_r. auto.
  - cbn [forallb forEach]. rewrite addWorkbook_step.
    pose proof (sheetCalls_known i student) as S.
    destruct (gradeKnown (class student)); cbn [andb].
    + destruct S as [sheet S]. rewrite S. cbn [bind].
      match goal with
      | |- context [forEach _ students (_, zip ++ [?f])] =>
          specialize (IH (Datatypes.S i) (zip ++ [f])); set (file := f) in *
      end.
      destruct (forallb _ students).
      * destruct IH as (zip' & E & Names & Sheets).
        exists (file :: zip'). rewrite E. split; [|split].
        -- rewrite <- app_assoc. cbn [length]. do 2 f_equal. lia.
        -- cbn [length seq combine List.map fst snd]. rewrite Names. reflexivity.
        -- cbn [List.map snd sheetName]. rewrite Sheets. reflexivity.
      * exact IH.
    + rewrite S. reflexivity.
Qed.

Lemma single_sheets (students : list (Student num)) :
  forall i index workbook,
    if forallb (fun student => gradeKnown (class student)) students
    then exists sheets,
        forEach Single.addWorksheet (combine (seq index (length students)) students)
                (i, workbook)
        = Ok ((i + length students)%nat, workbook ++ sheets)
        /\ List.map sheetName sheets
           = List.map numbered (combine (seq index (length students)) students)
    else forEach Single.addWorksheet (combine (seq index (length students)) students)
                 (i, workbook) = Throw TypeError.
Proof.
  induction students as [|student students IH]; intros i index workbook.
  - cbn [forallb]. exists []. rewrite app_nil_r, Nat.add_0_r. auto.
  - cbn [forallb length seq combine forEach]. rewrite addWorksheet_step.
    pose proof (sheetCalls_known i student) as S.
    destruct (gradeKnown (class student)); cbn [andb].
    + destruct S as [sheet S]. rewrite S. cbn [bind].
      match goal with
      | |- context [forEach _ _ (_, workbook ++ [?w])] =>
          specialize (IH (Datatypes.S i) (Datatypes.S index) (workbook ++ [w]));
            set (worksheet := w) in *
      end.
      destruct (forallb _ students).
      * destruct IH as (sheets & E & Names).
        exists (worksheet :: sheets). rewrite E. split.
        -- rewrite <- app_assoc. cbn [length]. do 2 f_equal. lia.
        -- cbn [List.map]. rewrite Names. f_equal.
           unfold numbered, worksheet. cbn [fst snd sheetName]. rewrite Nat.add_1_r.
           reflexivity.
      * exact IH.
    + rewrite S. reflexivity.
Qed.

End WholeExport.



Lemma indexed_positions {A} (l : list A) :
  List.map fst (indexed l) = seq 0 (length l).
Proof.
  unfold indexed. generalize 0%nat.
  induction l as [|a l IH]; intros i; [reflexivity|].
  cbn [length seq combine List.map fst]. f_equal. apply IH.
Qed.



(** ** The edit view as a whole *)

Lemma calculateScore_bounds component gender (firstTry secondTry : number) score :
  In component (Object_keys (@scoringTables number _)) ->
  calculateScore component gender firstTry secondTry = Ok score ->
  0 <= score <= 10.
Proof.
  intros K E. rewrite calculateScore_tableScore in E by exact K.
  injection E as <-. apply tableScore_bounds, K.
Qed.

Lemma editViewRow_step (student : Student number) key totalScore componentRows :
  In key (Object_keys componentOrder) ->
  exists rows,
    editViewRow student (totalScore, componentRows) key
    = Ok (totalScore + sumOf (List.map scoreCell rows), componentRows ++ rows)
    /\ List.map rowKey rows
       = (if str_eqb key (u "gripStrength") then [] else [key])
    /\ Forall (fun row => 0 <= scoreCell row <= 10) rows.
Proof.
  intros K. pose proof (component_known (num:=number) key K) as S.
  unfold editViewRow. destruct (str_eqb key (u "gripStrength")); cbn [negb].
  - exists []. cbn [List.map sumOf fold_right]. rewrite Z.add_0_r, app_nil_r.
    split; [reflexivity|]. split; [reflexivity|constructor].
  - match goal with
    | |- context [calculateScore ?c ?g ?f ?s] =>
        destruct (calculateScore_known c g f s S) as [z E];
          pose proof (calculateScore_bounds _ _ _ _ _ S E) as B; rewrite E
    end.
    cbn [bind].
    match goal with
    | |- context [ComponentRow ?k ?l ?i ?s] => exists [ComponentRow k l i s]
    end.
    cbn [List.map sumOf fold_right scoreCell rowKey].
    rewrite Z.add_0_r. split; [reflexivity|]. split; [reflexivity|].
    constructor; [exact B | constructor].
Qed.

Lemma editViewRows (student : Student number) keys :
  (forall key, In key keys -> In key (Object_keys componentOrder)) ->
  forall totalScore componentRows,
  exists rows,
    forEach (editViewRow student) keys (totalScore, componentRows)
    = Ok (totalScore + sumOf (List.map scoreCell rows), componentRows ++ rows)
    /\ List.map rowKey rows
       = List.filter (fun key => negb (str_eqb key (u "gripStrength"))) keys
    /\ Forall (fun row => 0 <= scoreCell row <= 10) rows.
Proof.
  induction keys as [|key keys IH]; intros K totalScore componentRows.
  - exists []. cbn [forEach List.map sumOf fold_right List.filter].
    rewrite Z.add_0_r, app_nil_r. split; [reflexivity|]. split; [reflexivity|constructor].
  - destruct (editViewRow_step student key totalScore componentRows)
      as (rows & E & Keys & B); [apply K; left; reflexivity|].
    destruct (IH (fun k I => K k (or_intror I))
                 (totalScore + sumOf (List.map scoreCell rows)) (componentRows ++ rows))
      as (rows' & E' & Keys' & B').
    exists (rows ++ rows'). cbn [forEach]. rewrite E. cbn [bind]. rewrite E'.
    split; [|split].
    + rewrite <- app_assoc. do 2 f_equal. rewrite List.map_app. unfold sumOf.
      rewrite fold_right_app.
      generalize (List.map scoreCell rows). intros l.
      induction l as [|z l IHl]; cbn [fold_right]; lia.
    + rewrite List.map_app, Keys, Keys'. cbn [List.filter].
      destruct (str_eqb key (u "gripStrength")); reflexivity.
    + apply Forall_app. split; assumption.
Qed.

(** X8. The edit view of a student whose class is of a known grade has ten
    rows: grip strength, the seven other components in the order of
    [componentOrder], the total and the grade. Every score shown is between
    0 and 10, the total is the sum of the eight scores shown, and the grade
    is the grade of that total. For a student whose class is of no known
    grade the view throws. *)
Theorem editView_rows :
  forall student : Student number,
    if gradeKnown (class student)
    then exists gripRow rows totalScore letter,
        renderEditView student
        = Ok (gripRow :: rows ++ [TotalRow totalScore; GradeRow letter])
        /\ renderGripStrength student = Ok gripRow
        /\ List.map rowKey (gripRow :: rows)
           = [ u "Grip Strength"; u "situps"; u "seatedtoetouch"; u "sidesteps";
               u "20mshuttleruns"; u "50msprint"; u "longjump";
               u "softballthrowing" ]
        /\ Forall (fun row => 0 <= scoreCell row <= 10) (gripRow :: rows)
        /\ totalScore = sumOf (List.map scoreCell (gripRow :: rows))
        /\ 0 <= totalScore <= 80
        /\ determineGrade totalScore (class student) = Ok letter
    else renderEditView student = Throw TypeError.
Proof.
  intros student. unfold renderEditView, gradeKnown.
  assert (G : In (u "gripStrength") (Object_keys (@scoringTables number _)))
    by (vm_compute; tauto).
  unfold renderGripStrength at 1 2.
  match goal with
  | |- context [calculateScore ?c ?g ?f ?s] =>
      destruct (calculateScore_known c g f s G) as [z E];
        pose proof (calculateScore_bounds _ _ _ _ _ G E) as B
  end.
  assert (R : renderGripStrength student
              = Ok (GripRow [ try1st student !! u "gripstrR";
                              try2nd student !! u "gripstrR";
                              try1st student !! u "gripstrL";
                              try2nd student !! u "gripstrL" ]
                            (Math_max4 (toNumber (try1st student !! u "gripstrR"))
                                       (toNumber (try2nd student !! u "gripstrR"))
                                       (toNumber (try1st student !! u "gripstrL"))
                                       (toNumber (try2nd student !! u "gripstrL")))
                            z)).
  { unfold renderGripStrength. rewrite E. reflexivity. }
  rewrite E. cbn [bind scoreCell].
  match goal with
  | |- context [forEach _ _ (_, [?g])] => set (gripRow := g) in *
  end.
  destruct (editViewRows student (Object_keys componentOrder) (fun k I => I)
              (0 + z) [gripRow]) as (rows & L & Keys & Bs).
  rewrite L. cbn [bind].
  assert (Total : 0 + z + sumOf (List.map scoreCell rows)
                  = sumOf (List.map scoreCell (gripRow :: rows))).
  { cbn [List.map sumOf fold_right scoreCell gripRow]. unfold sumOf. lia. }
  unfold determineGrade.
  destruct (property gradeThresholds (slice 0 2 (class student))) as [thresholds|];
    cbn [bind]; [|reflexivity].
  exists gripRow, rows, (0 + z + sumOf (List.map scoreCell rows)),
    (gradeLoop (0 + z + sumOf (List.map scoreCell rows)) thresholds 0%N).
  split; [reflexivity|]. split; [exact R|].
  split; [cbn [List.map rowKey gripRow]; rewrite Keys; reflexivity|].
  assert (All : Forall (fun row => 0 <= scoreCell row <= 10) (gripRow :: rows)).
  { constructor; [exact B | exact Bs]. }
  split; [exact All|]. split; [exact Total|]. split; [|reflexivity].
  rewrite Total.
  assert (Len : length (gripRow :: rows) = 8%nat).
  { rewrite <- (length_map rowKey). cbn [List.map rowKey gripRow]. rewrite Keys.
    reflexivity. }
  revert All Len. generalize (gripRow :: rows). intros l All Len.
  assert (S : 0 <= sumOf (List.map scoreCell l) <= 10 * Z.of_nat (length l)).
  { clear Len. induction All as [|row l Hrow _ IH]; cbn [List.map sumOf fold_right length].
    - lia.
    - unfold sumOf in IH. lia. }
  rewrite Len in S. lia.
Qed.

(** ** The list of students and the search *)

Lemma includes_empty s : includes s [] = true.
Proof. destruct s; reflexivity. Qed.

Section Search.
Context {num : Type} `{!JsNumber num}.

Lemma item_lookup {A} (l : list A) (i : nat) : item l (Z.of_nat i) = l !! i.
Proof.
  unfold item. destruct (Z.ltb_spec (Z.of_nat i) 0); [lia|].
  rewrite Nat2Z.id. reflexivity.
Qed.

(** What [filter] returns when no callback throws: the elements the
    callback keeps, each at a position that is its index in the result
    plus the number of elements dropped before it. *)
Lemma filterArray_positions {A} (callback : A -> result bool) (l : list A) :
  forall filtered,
    filterArray callback l = Ok filtered ->
    Forall (fun a => callback a = Ok true) filtered
    /\ (length filtered <= length l)%nat
    /\ forall index a,
        filtered !! index = Some a ->
        exists position,
          l !! position = Some a
          /\ position
             = (index
                + length (List.filter (fun b => bool_decide (callback b = Ok false))
                                      (take position l)))%nat.
Proof.
  induction l as [|b l IH]; intros filtered; cbn [filterArray bind].
  - intros [= <-]. split; [constructor|]. split; [reflexivity|].
    intros index a L. destruct index; discriminate.
  - destruct (callback b) as [keep|e] eqn:C; cbn [bind]; [|discriminate].
    destruct (filterArray callback l) as [rest|e]; cbn [bind]; [|discriminate].
    destruct (IH rest eq_refl) as (M & Len & P).
    intros [= <-]. destruct keep.
    + split; [constructor; assumption|]. split; [cbn [length]; lia|].
      intros [|index] a L.
      * injection L as <-. exists 0%nat. split; reflexivity.
      * destruct (P index a L) as (position & La & Ep).
        exists (S position). split; [exact La|].
        cbn [take List.filter]. rewrite C.
        rewrite bool_decide_eq_false_2 by discriminate. lia.
    + split; [exact M|]. split; [cbn [length]; lia|].
      intros index a L. destruct (P index a L) as (position & La & Ep).
      exists (S position). split; [exact La|].
      cbn [take List.filter]. rewrite C.
      rewrite bool_decide_eq_true_2 by reflexivity. cbn [length]. lia.
Qed.

Lemma filterArray_all {A} (callback : A -> result bool) (l : list A) :
  forall filtered,
    filterArray callback l = Ok filtered ->
    (forall a, In a l -> callback a <> Ok false) ->
    filtered = l.
Proof.
  induction l as [|b l IH]; intros filtered; cbn [filterArray bind].
  - intros [= <-]. reflexivity.
  - destruct (callback b) as [keep|e] eqn:C; cbn [bind]; [|discriminate].
    destruct (filterArray callback l) as [rest|e]; cbn [bind]; [|discriminate].
    intros [= <-] All. destruct keep.
    + f_equal. apply IH; [reflexivity|]. intros a I. apply All. right. exact I.
    + exfalso. apply (All b); [left; reflexivity | exact C].
Qed.

Lemma handleStudentSelect_index now index (st : Page.State num) db :
  Page.currentStudentIndex (fst (Page.handleStudentSelect now index st db)) = Some index
  /\ Page.students (fst (Page.handleStudentSelect now index st db)) = Page.students st.
Proof.
  unfold Page.handleStudentSelect. cbn [fst Page.setCurrentStudentIndex
    Page.currentStudentIndex Page.students].
  split; [reflexivity|].
  destruct (Page.hasUnsavedChanges st && _); [|reflexivity].
  unfold Page.saveCurrentStudent.
  destruct (negb (Page.hasUnsavedChanges st)); [reflexivity|].
  destruct (Page.currentStudentIndex st); [|reflexivity].
  cbn [Page.setIsSaving Page.students].
  destruct (item (Page.students st) z); reflexivity.
Qed.

End Search.

(** X9. A click on a row of the list of students opens the student at the
    position of the row in the whole list, not the student the row shows:
    the row at [index] of the search result shows a student who is at
    position [index] plus the number of students the search hides before
    that student. So the student shown is the student opened when the
    search hides nobody before the row, as with the empty search, and a
    student further up the list is opened when it does. *)
Theorem row_click_opens_by_position :
  forall (num : Type) (N : JsNumber num) (toLowerCase : jsstring -> jsstring)
         (now : Z) (st : Page.State num) (db : Roster.Database num)
         (filtered : list (Roster.StoredStudent num)) (index : nat)
         (clicked : Roster.StoredStudent num),
    Page.filteredStudents toLowerCase st = Ok filtered ->
    filtered !! index = Some clicked ->
    let opened := fst (Page.rowClicked now index st db) in
    Page.currentStudentIndex opened = Some (Z.of_nat index)
    /\ Page.shownStudent opened = Page.students st !! index
    /\ is_Some (Page.students st !! index)
    /\ (exists position,
          Page.students st !! position = Some clicked
          /\ position = (index + hiddenBefore toLowerCase st position)%nat
          /\ (hiddenBefore toLowerCase st position = 0%nat ->
              Page.shownStudent opened = Some clicked))
    /\ (toLowerCase [] = [] -> Page.searchTerm st = [] ->
        filtered = Page.students st /\ Page.shownStudent opened = Some clicked).
Proof.
  intros num N toLowerCase now st db filtered index clicked F L opened.
  destruct (handleStudentSelect_index now (Z.of_nat index) st db) as [I S].
  fold (Page.rowClicked now index st db) in I, S. fold opened in I, S.
  assert (Shown : Page.shownStudent opened = Page.students st !! index).
  { unfold Page.shownStudent. rewrite I, S. apply item_lookup. }
  unfold Page.filteredStudents in F.
  destruct (filterArray_positions _ _ _ F) as (_ & Len & P).
  split; [exact I|]. split; [exact Shown|]. split.
  { apply lookup_lt_is_Some. apply lookup_lt_Some in L. lia. }
  split.
  - destruct (P index clicked L) as (position & La & Ep).
    exists position. split; [exact La|]. split; [exact Ep|].
    intros H. unfold hiddenBefore in H. rewrite H in Ep.
    rewrite Shown. rewrite Nat.add_0_r in Ep. rewrite <- Ep. exact La.
  - intros Lower Empty.
    assert (E : filtered = Page.students st).
    { apply (filterArray_all _ _ _ F). intros a _. rewrite Empty.
      unfold Page.nameMatches. rewrite Lower.
      destruct (Roster.enname a); [|discriminate].
      rewrite includes_empty. discriminate. }
    split; [exact E|]. rewrite Shown, <- E. exact L.
Qed.

Lemma row_click_opens_by_position_witness :
  let student (name : jsstring) : Roster.StoredStudent number :=
    {| Roster.enname := Some name; Roster.jpname := Some (u "J");
       Roster.firstname := None; Roster.gender := Some (u "Boy");
       Roster.grade := None; Roster.class := Some (u "G1A");
       Roster.teacher := None; Roster.try1st := ∅; Roster.try2nd := ∅ |} in
  let st : Page.State number :=
    {| Page.students := [student (u "ann"); student (u "bob"); student (u "cid")];
       Page.currentStudentIndex := None;
       Page.selectedSchoolYear := u "2025"; Page.selectedGrade := u "G1A";
       Page.hasUnsavedChanges := false; Page.isSaving := false;
       Page.lastSavedTime := None; Page.searchTerm := u "c" |} in
  Page.filteredStudents (fun s => s) st = Ok [student (u "cid")]
  /\ Page.shownStudent (fst (Page.rowClicked 0 0 st ∅)) = Some (student (u "ann")).
Proof.
  intros student st.
  assert (F : Page.filteredStudents (fun s => s) st = Ok [student (u "cid")])
    by reflexivity.
  split; [exact F|].
  destruct (row_click_opens_by_position number _ (fun s => s) 0 st ∅
              [student (u "cid")] 0%nat (student (u "cid")) F eq_refl)
    as (_ & Shown & _).
  rewrite Shown. reflexivity.
Defined.

(** ** Moving between students *)

(** X10. The arrow keys never leave the list. With a student open whose
    index is in the list, a key press selects nothing or the neighbour one
    position to the left or right, which is in the list; the left arrow
    does nothing at the first student, the right arrow nothing at the last,
    and no other key selects. With the list of students on screen no key
    selects. Selecting sets the index and leaves the students as they are,
    so the index stays in the list over any sequence of keys. *)
Theorem arrow_keys_stay_in_list :
  forall (num : Type) (N : JsNumber num) (key : jsstring) (st : Page.State num),
    indexInList st ->
    match Page.currentStudentIndex st with
    | None => Page.handleKeyPress key st = None
    | Some current =>
        match Page.handleKeyPress key st with
        | Some index =>
            ((key = u "ArrowLeft" /\ index = current - 1)
             \/ (key = u "ArrowRight" /\ index = current + 1))
            /\ is_Some (item (Page.students st) index)
            /\ forall now db,
                indexInList (fst (Page.handleStudentSelect now index st db))
        | None =>
            (key = u "ArrowLeft" /\ current = 0)
            \/ (key = u "ArrowRight"
                /\ current = Z.of_nat (length (Page.students st)) - 1)
            \/ (key <> u "ArrowLeft" /\ key <> u "ArrowRight")
        end
    end.
Proof.
  intros num N key st V. unfold indexInList in V. unfold Page.handleKeyPress.
  destruct (Page.currentStudentIndex st) as [current|] eqn:C; [|reflexivity].
  assert (Item : forall index, 0 <= index < Z.of_nat (length (Page.students st)) ->
                 is_Some (item (Page.students st) index)).
  { intros index H. unfold item. destruct (Z.ltb_spec index 0); [lia|].
    apply lookup_lt_is_Some. lia. }
  assert (Sel : forall index now db,
             0 <= index < Z.of_nat (length (Page.students st)) ->
             indexInList (fst (Page.handleStudentSelect now index st db))).
  { intros index now db H. unfold indexInList.
    destruct (handleStudentSelect_index now index st db) as [-> ->]. exact H. }
  destruct (str_eqb key (u "ArrowLeft")) eqn:L.
  - apply str_eqb_eq in L. destruct (Z.ltb_spec 0 current); cbn [andb].
    + split; [left; split; [exact L | reflexivity]|].
      split; [apply Item; lia|]. intros now db. apply Sel. lia.
    + rewrite L. change (str_eqb (u "ArrowLeft") (u "ArrowRight")) with false.
      cbn [andb]. left. split; [reflexivity | lia].
  - cbn [andb]. apply str_eqb_neq in L.
    destruct (str_eqb key (u "ArrowRight")) eqn:R.
    + apply str_eqb_eq in R.
      destruct (Z.ltb_spec current (Z.of_nat (length (Page.students st)) - 1));
        cbn [andb].
      * split; [right; split; [exact R | reflexivity]|].
        split; [apply Item; lia|]. intros now db. apply Sel. lia.
      * right. left. split; [exact R | lia].
    + cbn [andb]. apply str_eqb_neq in R. right. right. split; assumption.
Qed.

Lemma arrow_keys_stay_in_list_witness :
  let st : Page.State number :=
    {| Page.students :=
         [ Roster.studentData (∅ : StudentData); Roster.studentData (∅ : StudentData) ];
       Page.currentStudentIndex := Some 1;
       Page.selectedSchoolYear := u "2025"; Page.selectedGrade := u "G1A";
       Page.hasUnsavedChanges := false; Page.isSaving := false;
       Page.lastSavedTime := None; Page.searchTerm := [] |} in
  indexInList st
  /\ Page.handleKeyPress (u "ArrowLeft") st = Some 0
  /\ is_Some (item (Page.students st) 0)
  /\ Page.handleKeyPress (u "ArrowRight") st = None.
Proof.
  intros st.
  assert (V : indexInList st) by (unfold indexInList; simpl; lia).
  split; [exact V|].
  pose proof (arrow_keys_stay_in_list number _ (u "ArrowLeft") st V) as L.
  change (Page.currentStudentIndex st) with (Some 1) in L.
  change (Page.handleKeyPress (u "ArrowLeft") st) with (Some 0) in L.
  destruct L as (_ & I & _).
  split; [reflexivity|]. split; [exact I | reflexivity].
Defined.

(** ** The store under the record page *)

Section PageStore.
Context {num : Type} `{!JsNumber num}.

Lemma studentKey_inj i j : Roster.studentKey i = Roster.studentKey j -> i = j.
Proof.
  intros E. apply (f_equal Roster.slotNumber) in E.
  rewrite !slotNumber_studentKey in E. lia.
Qed.

Lemma keyed_from (l : list (Roster.StoredStudent num)) :
  forall k i,
    list_to_map (M := gmap jsstring (Roster.StoredStudent num))
      (List.map (fun e => (Roster.studentKey (fst e), snd e))
                (combine (seq k (length l)) l)) !! Roster.studentKey i
    = if (k <=? i)%nat then l !! (i - k)%nat else None.
Proof.
  induction l as [|a l IH]; intros k i.
  - cbn. rewrite lookup_empty. destruct (k <=? i)%nat; reflexivity.
  - cbn [length seq combine List.map fst snd].
    rewrite list_to_map_cons.
    destruct (decide (i = k)) as [->|NE].
    + rewrite lookup_insert_eq, Nat.leb_refl, Nat.sub_diag. reflexivity.
    + rewrite lookup_insert_ne by (intros E; apply studentKey_inj in E; congruence).
      rewrite IH.
      destruct (Nat.leb_spec (S k) i), (Nat.leb_spec k i); try lia; [|reflexivity].
      replace (i - k)%nat with (S (i - S k)) by lia. reflexivity.
Qed.

Lemma keyed_lookup (l : list (Roster.StoredStudent num)) i :
  list_to_map (M := gmap jsstring (Roster.StoredStudent num)) (keyed l)
  !! Roster.studentKey i = l !! i.
Proof.
  unfold keyed, indexed. rewrite keyed_from. cbn [Nat.leb].
  rewrite Nat.sub_0_r. reflexivity.
Qed.

Lemma keyed_keys (l : list (Roster.StoredStudent num)) :
  List.map fst (keyed l) = List.map Roster.studentKey (seq 0 (length l)).
Proof.
  unfold keyed. rewrite List.map_map. cbn [fst].
  rewrite <- (List.map_map fst Roster.studentKey), indexed_positions. reflexivity.
Qed.

Lemma keyed_other (l : list (Roster.StoredStudent num)) key :
  (forall i, (i < length l)%nat -> key <> Roster.studentKey i) ->
  list_to_map (M := gmap jsstring (Roster.StoredStudent num)) (keyed l) !! key = None.
Proof.
  intros O. apply not_elem_of_list_to_map_1.
  change ((keyed l).*1) with (List.map fst (keyed l)). rewrite keyed_keys.
  intros I. apply list_elem_of_fmap in I as (i & -> & I).
  apply elem_of_seq in I. apply (O i); [lia | reflexivity].
Qed.

(** Two lists of one length are stored alike but for the slots where they
    differ. *)
Lemma keyed_eq_or key (l : list (Roster.StoredStudent num)) :
  (exists i, (i < length l)%nat /\ key = Roster.studentKey i)
  \/ (forall i, (i < length l)%nat -> key <> Roster.studentKey i).
Proof.
  destruct (decide (key ∈ List.map Roster.studentKey (seq 0 (length l)))) as [I|NI].
  - left. apply list_elem_of_fmap in I as (i & -> & I). apply elem_of_seq in I.
    exists i. split; [lia | reflexivity].
  - right. intros i Hi ->. apply NI. apply list_elem_of_fmap. exists i.
    split; [reflexivity|]. apply elem_of_seq. lia.
Qed.

Lemma keyed_sorted (l : list (Roster.StoredStudent num)) :
  StronglySorted slotLt (keyed l).
Proof.
  unfold keyed, indexed. generalize 0%nat.
  induction l as [|a l IH]; intros k; [constructor|].
  cbn [length seq combine List.map fst snd]. constructor; [apply IH|].
  apply List.Forall_forall. intros e I. apply in_map_iff in I as ([j b] & <- & I).
  apply in_combine_l in I. apply in_seq in I.
  unfold slotLt. cbn [fst]. rewrite !slotNumber_studentKey. lia.
Qed.

Lemma keyed_students (l : list (Roster.StoredStudent num)) :
  List.map snd (keyed l) = l.
Proof.
  unfold keyed, indexed. generalize 0%nat.
  induction l as [|a l IH]; intros k; [reflexivity|].
  cbn [length seq combine List.map fst snd]. f_equal. apply IH.
Qed.

(** The listener puts the students of a class section stored under the
    slots 1, 2, ... back in the order of the slots, in whatever order the
    store lists them. *)
Lemma load_keyed (l : list (Roster.StoredStudent num)) entries :
  entries ≡ₚ map_to_list
               (list_to_map (M := gmap jsstring (Roster.StoredStudent num)) (keyed l)) ->
  List.map snd (Roster.sortBySlot entries) = l.
Proof.
  intros P. rewrite (sortBySlot_canonical (keyed l)).
  - apply keyed_students.
  - apply keyed_sorted.
  - rewrite P. apply map_to_list_to_map. apply sorted_NoDup, keyed_sorted.
Qed.

End PageStore.

(** ** Typing into the edit view *)

Section Editing.
Context {num : Type} `{!JsNumber num}.

Lemma map_at_index {A} (f : A -> A) (i : nat) (l : list A) :
  forall k,
    List.map (fun entry : nat * A =>
                let '(index, a) := entry in
                if Z.of_nat index =? Z.of_nat i then f a else a)
             (combine (seq k (length l)) l)
    = if (k <=? i)%nat then alter f (i - k)%nat l else l.
Proof.
  induction l as [|a l IH]; intros k.
  - destruct (k <=? i)%nat; reflexivity.
  - cbn [length seq combine List.map]. rewrite IH.
    destruct (Z.eqb_spec (Z.of_nat k) (Z.of_nat i)) as [E|NE].
    + apply Nat2Z.inj in E. subst k.
      rewrite Nat.leb_refl, Nat.sub_diag.
      destruct (Nat.leb_spec (S i) i); [lia|]. reflexivity.
    + destruct (Nat.leb_spec (S k) i), (Nat.leb_spec k i); try lia.
      * replace (i - k)%nat with (S (i - S k)) by lia. reflexivity.
      * reflexivity.
Qed.

Lemma handleInputChange_students (value : num) type tryNumber
    (st : Page.State num) (i : nat) :
  Page.currentStudentIndex st = Some (Z.of_nat i) ->
  Page.students (Page.handleInputChange value type tryNumber st)
  = alter (fun student =>
             Page.withTrials tryNumber
               (<[type := value]> (Page.trialsOf tryNumber student)) student)
          i (Page.students st)
  /\ Page.currentStudentIndex (Page.handleInputChange value type tryNumber st)
     = Some (Z.of_nat i)
  /\ Page.hasUnsavedChanges (Page.handleInputChange value type tryNumber st) = true
  /\ Page.selectedSchoolYear (Page.handleInputChange value type tryNumber st)
     = Page.selectedSchoolYear st
  /\ Page.selectedGrade (Page.handleInputChange value type tryNumber st)
     = Page.selectedGrade st.
Proof.
  intros C. unfold Page.handleInputChange. rewrite C.
  cbn [Page.setHasUnsavedChanges Page.setStudents Page.students
         Page.currentStudentIndex Page.hasUnsavedChanges Page.selectedSchoolYear
         Page.selectedGrade].
  split; [|auto]. unfold indexed.
  rewrite (map_at_index _ i (Page.students st) 0). cbn [Nat.leb].
  rewrite Nat.sub_0_r. reflexivity.
Qed.

Lemma withTrials_sameRoster tryNumber trials (student : Roster.StoredStudent num) :
  sameRoster (Page.withTrials tryNumber trials student) student.
Proof. unfold sameRoster. cbn. tauto. Qed.

End Editing.

(** X11. Typing a value into an input of the edit view changes the open
    student alone, and of that student the one value of the one trial: the
    other values of the trial, the other trial and the roster fields stay,
    and so do the other students; the edit view then shows the changed
    student, and the page has unsaved changes. With no student open nothing
    changes. *)
Theorem input_changes_one_value :
  forall (num : Type) (N : JsNumber num) (value : num) (type : jsstring)
         (tryNumber : TryNumber) (st : Page.State num),
    let st' := Page.handleInputChange value type tryNumber st in
    (Page.currentStudentIndex st = None -> st' = st)
    /\ forall (i : nat) (student : Roster.StoredStudent num),
        Page.currentStudentIndex st = Some (Z.of_nat i) ->
        Page.students st !! i = Some student ->
        exists edited,
          Page.students st' = <[i := edited]> (Page.students st)
          /\ Page.trialsOf tryNumber edited !! type = Some value
          /\ (forall component, component <> type ->
                Page.trialsOf tryNumber edited !! component
                = Page.trialsOf tryNumber student !! component)
          /\ (forall other, other <> tryNumber ->
                Page.trialsOf other edited = Page.trialsOf other student)
          /\ sameRoster edited student
          /\ (forall j, j <> i -> Page.students st' !! j = Page.students st !! j)
          /\ Page.shownStudent st' = Some edited
          /\ Page.hasUnsavedChanges st' = true.
Proof.
  intros num N value type tryNumber st st'. split.
  { intros C. unfold st', Page.handleInputChange. rewrite C. reflexivity. }
  intros i student C L.
  destruct (handleInputChange_students value type tryNumber st i C)
    as (S & C' & U & _).
  fold st' in S, C', U.
  set (edited := Page.withTrials tryNumber
                   (<[type := value]> (Page.trialsOf tryNumber student)) student).
  assert (E : Page.students st' = <[i := edited]> (Page.students st)).
  { rewrite S. apply list_eq. intros j.
    destruct (decide (j = i)) as [->|NE].
    - rewrite list_lookup_alter, decide_True, L by reflexivity.
      rewrite list_lookup_insert_eq by (apply lookup_lt_Some in L; exact L).
      reflexivity.
    - rewrite list_lookup_alter_ne by congruence.
      rewrite list_lookup_insert_ne by congruence. reflexivity. }
  exists edited. split; [exact E|].
  split; [destruct tryNumber; cbn; apply lookup_insert_eq|].
  split; [intros c NE; destruct tryNumber; cbn; apply lookup_insert_ne; congruence|].
  split; [intros [] NE; destruct tryNumber; try congruence; reflexivity|].
  split; [apply withTrials_sameRoster|].
  split; [intros j NE; rewrite E; apply list_lookup_insert_ne; congruence|].
  split; [|exact U].
  unfold Page.shownStudent. rewrite C', item_lookup, E.
  apply list_lookup_insert_eq. apply lookup_lt_Some in L. exact L.
Qed.

(** ** Saving the open student *)

Section Saving.
Context {num : Type} `{!JsNumber num}.

Lemma children_updateTrials (year c key : jsstring) first second
    (db : Roster.Database num) (year' c' : jsstring) :
  Roster.children (Page.updateTrials year c key first second db) year' c'
  = if decide ((year, c) = (year', c'))
    then <[key := {| Roster.enname := Roster.children db year c !! key ≫= Roster.enname;
                     Roster.jpname := Roster.children db year c !! key ≫= Roster.jpname;
                     Roster.firstname :=
                       Roster.children db year c !! key ≫= Roster.firstname;
                     Roster.gender := Roster.children db year c !! key ≫= Roster.gender;
                     Roster.grade := Roster.children db year c !! key ≫= Roster.grade;
                     Roster.class := Roster.children db year c !! key ≫= Roster.class;
                     Roster.teacher := Roster.children db year c !! key ≫= Roster.teacher;
                     Roster.try1st := first;
                     Roster.try2nd := second |}]>
           (Roster.children db year c)
    else Roster.children db year' c'.
Proof. unfold Page.updateTrials. apply children_set. Qed.






End Saving.

(** X12. Saving the open student writes the slot of its position and
    nothing else: the student stored under [student(index + 1)] of the
    class section selected gets the two trials of the open student and
    keeps its other fields (a slot that held nothing comes to hold the
    trials alone); every other slot and every other class section is left
    as it is; the page has no unsaved changes afterwards. With an index
    outside the list nothing is written and the changes stay unsaved; with
    no unsaved changes or no student open nothing happens. *)
Theorem saveCurrentStudent_writes_one_slot :
  forall (num : Type) (N : JsNumber num) (now : Z) (st : Page.State num)
         (db : Roster.Database num),
    let year := Page.selectedSchoolYear st in
    let grade := Page.selectedGrade st in
    let saved := Page.saveCurrentStudent now st db in
    (Page.hasUnsavedChanges st = false \/ Page.currentStudentIndex st = None ->
     saved = (st, db))
    /\ forall current,
        Page.hasUnsavedChanges st = true ->
        Page.currentStudentIndex st = Some current ->
        match item (Page.students st) current with
        | Some student =>
            let key := Roster.studentKey (Z.to_nat current) in
            (exists written,
                Roster.children (snd saved) year grade
                = <[key := written]> (Roster.children db year grade)
                /\ Roster.try1st written = Roster.try1st student
                /\ Roster.try2nd written = Roster.try2nd student
                /\ match Roster.children db year grade !! key with
                   | Some old => sameRoster written old
                   | None => written = trialsAlone student
                   end)
            /\ (forall year' c',
                   (year', c') <> (year, grade) ->
                   Roster.children (snd saved) year' c' = Roster.children db year' c')
            /\ Page.hasUnsavedChanges (fst saved) = false
            /\ Page.lastSavedTime (fst saved) = Some now
            /\ Page.isSaving (fst saved) = false
            /\ Page.students (fst saved) = Page.students st
        | None =>
            snd saved = db
            /\ Page.hasUnsavedChanges (fst saved) = true
            /\ Page.isSaving (fst saved) = false
        end.
Proof.
  intros num N now st db year grade saved. split.
  { unfold saved, Page.saveCurrentStudent.
    intros [U|C]; [rewrite U; reflexivity|].
    rewrite C. destruct (negb _); reflexivity. }
  intros current U C. unfold saved, Page.saveCurrentStudent. rewrite U, C.
  cbn [negb Page.setIsSaving Page.students Page.selectedSchoolYear
         Page.selectedGrade].
  destruct (item (Page.students st) current) as [student|]; cbn [fst snd].
  - split; [|split; [|cbn; auto]].
    + eexists. rewrite children_updateTrials, decide_True by reflexivity.
      split; [reflexivity|]. cbn [Roster.try1st Roster.try2nd].
      split; [reflexivity|]. split; [reflexivity|].
      fold year grade.
      destruct (Roster.children db year grade !! _) as [old|]; cbn.
      * unfold sameRoster. cbn. tauto.
      * reflexivity.
    + intros year' c' NE. rewrite children_updateTrials.
      rewrite decide_False by (intros E; apply NE; rewrite <- E; reflexivity).
      reflexivity.
  - cbn. rewrite U. auto.
Qed.

Ltac page_fields :=
  cbn [Page.setStudents Page.setCurrentStudentIndex
       Page.setHasUnsavedChanges Page.setIsSaving
       Page.setLastSavedTime Page.setSearchTerm
       Page.students Page.currentStudentIndex Page.selectedSchoolYear
       Page.selectedGrade Page.hasUnsavedChanges Page.isSaving
       Page.lastSavedTime Page.searchTerm fst snd].

Section Leaving.
Context {num : Type} `{!JsNumber num}.


End Leaving.



(** ** Saving all students *)

Section SavingAll.
Context {num : Type} `{!JsNumber num}.

Lemma writes_union (C : list (entry num)) (m : gmap jsstring (Roster.StoredStudent num)) :
  NoDup (C.*1) -> writes C m = list_to_map C ∪ m.
Proof.
  intros ND. unfold writes.
  rewrite <- (rev_involutive C) at 1. rewrite <- fold_left_rev_right.
  rewrite rev_involutive.
  change (fold_right (fun (y : entry num) (x : gmap jsstring (Roster.StoredStudent num)) =>
                        <[y.1 := y.2]> x) m (rev C))
    with (foldr (fun p : entry num => <[p.1 := p.2]>) m (rev C)).
  rewrite foldr_insert_union. f_equal.
  apply list_to_map_proper; [|symmetry; apply Permutation_rev].
  rewrite <- Permutation_rev. exact ND.
Qed.

Lemma indexed_map {A B} (f : A -> B) (l : list A) :
  indexed (List.map f l) = List.map (fun e => (fst e, f (snd e))) (indexed l).
Proof.
  unfold indexed. rewrite length_map. generalize 0%nat.
  induction l as [|a l IH]; intros k; [reflexivity|].
  cbn [length seq combine List.map fst snd]. f_equal. apply IH.
Qed.

Lemma keyed_map (f : Roster.StoredStudent num -> Roster.StoredStudent num) l :
  keyed (List.map f l)
  = List.map (fun e => (Roster.studentKey (fst e), f (snd e))) (indexed l).
Proof. unfold keyed. rewrite indexed_map, List.map_map. reflexivity. Qed.

Lemma children_replaced (year c : jsstring) (l : list (nat * Roster.StoredStudent num)) :
  forall (db : Roster.Database num) (year' c' : jsstring),
    Roster.children
      (fold_left (fun db e =>
                    Page.replaceByTrials year c (Roster.studentKey (fst e))
                      (Roster.try1st (snd e)) (Roster.try2nd (snd e)) db) l db)
      year' c'
    = if decide ((year, c) = (year', c'))
      then writes (List.map (fun e => (Roster.studentKey (fst e), trialsAlone (snd e))) l)
                  (Roster.children db year c)
      else Roster.children db year' c'.
Proof.
  induction l as [|e l IH]; intros db year' c'; cbn [fold_left List.map].
  - destruct (decide _) as [[= <- <-]|]; reflexivity.
  - rewrite IH. destruct (decide _) as [E|E]; unfold Page.replaceByTrials.
    + rewrite children_set. rewrite decide_True by reflexivity. reflexivity.
    + rewrite children_set. rewrite decide_False by exact E. reflexivity.
Qed.

Lemma children_saveAllChanges (st : Page.State num) db year' c' :
  Page.hasUnsavedChanges st = true ->
  Roster.children (snd (Page.saveAllChanges st db)) year' c'
  = if decide ((Page.selectedSchoolYear st, Page.selectedGrade st) = (year', c'))
    then list_to_map (keyed (List.map trialsAlone (Page.students st)))
         ∪ Roster.children db (Page.selectedSchoolYear st) (Page.selectedGrade st)
    else Roster.children db year' c'.
Proof.
  intros U. unfold Page.saveAllChanges. rewrite U. cbn [negb snd].
  unfold Page.updates. rewrite fold_left_map. cbn [fst snd].
  cbn [Page.setIsSaving Page.students Page.selectedSchoolYear Page.selectedGrade].
  rewrite children_replaced. destruct (decide _); [|reflexivity].
  rewrite <- keyed_map. apply writes_union. apply sorted_NoDup, keyed_sorted.
Qed.

End SavingAll.

(** X14. [saveAllChanges] puts the two trials of every student of the page
    in the place of the student: under each slot 1, 2, ... up to the number
    of students the store then holds the trials of the student at that
    position and no name, gender, class or other field, whatever it held
    before; the other slots and the other class sections are left as they
    are. When the class section held the students of the page, the listener
    then reads back students without names, and the search of the list,
    which reads the names, throws. *)
Theorem saveAllChanges_stores_the_trials_alone :
  forall (num : Type) (N : JsNumber num) (toLowerCase : jsstring -> jsstring)
         (st : Page.State num) (db : Roster.Database num),
    Page.hasUnsavedChanges st = true ->
    let year := Page.selectedSchoolYear st in
    let grade := Page.selectedGrade st in
    let saved := Page.saveAllChanges st db in
    (forall i student,
        Page.students st !! i = Some student ->
        Roster.children (snd saved) year grade !! Roster.studentKey i
        = Some (trialsAlone student))
    /\ (forall key,
           (forall i, (i < length (Page.students st))%nat -> key <> Roster.studentKey i) ->
           Roster.children (snd saved) year grade !! key
           = Roster.children db year grade !! key)
    /\ (forall year' c',
           (year', c') <> (year, grade) ->
           Roster.children (snd saved) year' c' = Roster.children db year' c')
    /\ Page.hasUnsavedChanges (fst saved) = false
    /\ Page.students (fst saved) = Page.students st
    /\ (stored st db ->
        forall entries,
          entries ≡ₚ map_to_list (Roster.children (snd saved) year grade) ->
          let reloaded := Page.onStudents (Some entries) (fst saved) in
          Page.students reloaded = List.map trialsAlone (Page.students st)
          /\ (Page.students st <> [] ->
              Page.filteredStudents toLowerCase reloaded = Throw TypeError)).
Proof.
  intros num N toLowerCase st db U year grade saved.
  pose proof (children_saveAllChanges st db year grade U) as Ch.
  rewrite decide_True in Ch by reflexivity. fold saved year grade in Ch.
  split; [|split; [|split; [|split; [|split]]]].
  - intros i student L. rewrite Ch. apply lookup_union_Some_l.
    rewrite keyed_lookup, list_lookup_fmap, L. reflexivity.
  - intros key O. rewrite Ch. rewrite lookup_union_r; [reflexivity|].
    apply keyed_other. rewrite length_map. exact O.
  - intros year' c' NE. unfold saved.
    rewrite (children_saveAllChanges st db year' c' U).
    apply decide_False. intros E. apply NE. rewrite <- E. reflexivity.
  - unfold saved, Page.saveAllChanges. rewrite U. reflexivity.
  - unfold saved, Page.saveAllChanges. rewrite U. reflexivity.
  - intros St entries P reloaded.
    assert (Sa : Roster.children (snd saved) year grade
                 = list_to_map (keyed (List.map trialsAlone (Page.students st)))).
    { rewrite Ch. unfold stored in St. fold year grade in St. rewrite St.
      apply map_eq. intros key.
      destruct (keyed_eq_or key (Page.students st)) as [(i & Hi & ->)|O].
      - destruct (lookup_lt_is_Some_2 _ _ Hi) as [o Lo].
        erewrite lookup_union_Some_l; rewrite keyed_lookup, list_lookup_fmap, Lo;
          reflexivity.
      - rewrite lookup_union_r by (apply keyed_other; rewrite length_map; exact O).
        rewrite !keyed_other; [reflexivity | rewrite length_map; exact O | exact O]. }
    assert (Re : Page.students reloaded = List.map trialsAlone (Page.students st)).
    { unfold reloaded, Page.onStudents. page_fields. apply load_keyed.
      rewrite P, Sa. reflexivity. }
    split; [exact Re|]. intros NE.
    unfold Page.filteredStudents. rewrite Re.
    destruct (Page.students st) as [|student rest]; [congruence|]. reflexivity.
Qed.

Lemma saveAllChanges_stores_the_trials_alone_witness :
  let student : Roster.StoredStudent number :=
    {| Roster.enname := Some (u "Ann"); Roster.jpname := Some (u "J");
       Roster.firstname := Some (u "F"); Roster.gender := Some (u "Girl");
       Roster.grade := Some (u "1"); Roster.class := Some (u "G1A");
       Roster.teacher := Some (u "T");
       Roster.try1st := {[ u "situps" := int 21 ]}; Roster.try2nd := ∅ |} in
  let st : Page.State number :=
    {| Page.students := [student];
       Page.currentStudentIndex := Some 0;
       Page.selectedSchoolYear := u "2025"; Page.selectedGrade := u "G1A";
       Page.hasUnsavedChanges := true; Page.isSaving := false;
       Page.lastSavedTime := None; Page.searchTerm := [] |} in
  let db : Roster.Database number :=
    <[(u "2025", u "G1A") := list_to_map (keyed (Page.students st))]> ∅ in
  Page.hasUnsavedChanges st = true
  /\ (Roster.children (snd (Page.saveAllChanges st db)) (u "2025") (u "G1A")
      !! u "student1" ≫= Roster.enname) = None
  /\ (Roster.children db (u "2025") (u "G1A") !! u "student1" ≫= Roster.enname)
     = Some (u "Ann").
Proof.
  intros student st db. split; [reflexivity|].
  destruct (saveAllChanges_stores_the_trials_alone number _ (fun s => s) st db eq_refl)
    as (Slot & _).
  specialize (Slot 0%nat student eq_refl).
  change (Roster.studentKey 0) with (u "student1") in Slot.
  change (Page.selectedSchoolYear st) with (u "2025") in Slot.
  change (Page.selectedGrade st) with (u "G1A") in Slot.
  rewrite Slot. split; [reflexivity|].
  assert (K : Roster.children db (u "2025") (u "G1A") !! Roster.studentKey 0
              = Some student).
  { unfold Roster.children, db, Roster.Database.
    rewrite lookup_insert_eq. cbn [default id].
    apply (keyed_lookup (Page.students st) 0). }
  change (Roster.studentKey 0) with (u "student1") in K. rewrite K. reflexivity.
Defined.

(** ** From the file to the record page *)

Section Imported.
Context {num : Type} `{!JsNumber num}.

Lemma slots_keyed (classStudents : list StudentData) :
  slots 0 classStudents = keyed (List.map Roster.studentData classStudents).
Proof.
  unfold slots, keyed. rewrite indexed_map, List.map_map. reflexivity.
Qed.

Lemma children_imported (year c : jsstring) students (db : Roster.Database num) :
  Roster.children (Roster.uploadToFirebase year students db) year c
  = list_to_map
      (keyed (List.map Roster.studentData
                (List.filter (fun student => str_eqb (classOf student) c) students)))
    ∪ Roster.children db year c.
Proof.
  rewrite children_uploadToFirebase, slots_keyed.
  apply writes_union. apply sorted_NoDup, keyed_sorted.
Qed.


End Imported.



(** ** The upload *)

Section Uploading.
Context {num : Type} `{!JsNumber num}.

Lemma children_uploadClass_year (year c : jsstring) classStudents
    (db : Roster.Database num) (year' c' : jsstring) :
  year' <> year ->
  Roster.children (Roster.uploadClass year c classStudents db) year' c'
  = Roster.children db year' c'.
Proof.
  intros NE. rewrite children_uploadClass.
  apply decide_False. congruence.
Qed.

Lemma children_uploadToFirebase_year (year : jsstring) students
    (db : Roster.Database num) (year' c' : jsstring) :
  year' <> year ->
  Roster.children (Roster.uploadToFirebase year students db) year' c'
  = Roster.children db year' c'.
Proof.
  intros NE. unfold Roster.uploadToFirebase.
  generalize (Roster.groupByClass students). intros groups. revert db.
  induction groups as [|[k l] groups IH]; intros db; cbn [fold_left]; [reflexivity|].
  rewrite IH. apply children_uploadClass_year, NE.
Qed.

End Uploading.




(** ** From the export back to the import *)

Lemma split_join sep (l : list jsstring) :
  l <> [] -> Forall (fun w => ~ In sep w) l -> split sep (join [sep] l) = l.
Proof.
  induction l as [|w l IH]; intros NE F; [congruence|].
  apply Forall_cons_1 in F as [Hw F].
  destruct l as [|w' l].
  - cbn [join]. apply split_no_separator, Hw.
  - change (join [sep] (w :: w' :: l)) with (w ++ sep :: join [sep] (w' :: l)).
    rewrite split_app by exact Hw. f_equal. apply IH; [discriminate | exact F].
Qed.

Lemma In_join c sep (l : list jsstring) :
  In c (join sep l) -> In c sep \/ exists w, In w l /\ In c w.
Proof.
  induction l as [|w l IH]; cbn [join]; [intros []|].
  destruct l as [|w' l].
  - intros I. right. exists w. split; [left; reflexivity | exact I].
  - intros I. apply in_app_or in I as [I|I].
    + right. exists w. split; [left; reflexivity | exact I].
    + apply in_app_or in I as [I|I]; [left; exact I|].
      destruct (IH I) as [?|(x & Ix & Icx)]; [left; assumption|].
      right. exists x. split; [right; exact Ix | exact Icx].
Qed.

Section BackToTheImport.
Context {num : Type} `{!JsNumber num}.

(** The line written for a student of plain fields is read back field by
    field. *)
Lemma row_read_back (student : Roster.StoredStudent num) :
  Forall plainField (Roster.csvRow student) ->
  let line := Roster.joinValues (u ",") (Roster.csvRow student) in
  ~ In newline line
  /\ complete Roster.headers line = true
  /\ List.map (fun k => parseLine Roster.headers line !! k) Roster.headers
     = Roster.csvRow student.
Proof.
  unfold Roster.csvRow. intros F.
  repeat match goal with
         | F : Forall _ (_ :: _) |- _ => apply Forall_cons_1 in F as [? F]
         end.
  repeat match goal with
         | P : plainField _ |- _ =>
             let s := fresh "s" in
             destruct P as (s & -> & ? & ? & ? & ?)
         end.
  cbv zeta. unfold Roster.joinValues. cbn [List.map default]. unfold id.
  match goal with
  | |- context [join (u ",") ?l] => set (fields := l)
  end.
  assert (Sp : split comma (join (u ",") fields) = fields).
  { apply (split_join comma); [discriminate|].
    unfold fields. repeat (constructor; [assumption|]). constructor. }
  assert (Field : forall k i,
             columnFrom Roster.headers 0 k = Some i ->
             fieldOf Roster.headers (join (u ",") fields) k = trim (nth i fields [])).
  { intros k i C. unfold fieldOf. rewrite C, Sp. reflexivity. }
  split; [|split].
  - intros I. apply In_join in I as [I|(w & Iw & Icw)].
    + cbn in I. destruct I as [I|[]]. discriminate.
    + unfold fields in Iw. cbn [In] in Iw.
      repeat (destruct Iw as [<-|Iw]; [tauto|]). destruct Iw.
  - apply complete_iff. intros k I. unfold requiredFields in I. cbn [In] in I.
    repeat (destruct I as [<-|I];
            [erewrite Field by (vm_compute; reflexivity);
             unfold fields; cbn [nth]; congruence|]).
    destruct I.
  - unfold Roster.headers at 2. cbn [List.map].
    rewrite !parseLine_lookup.
    repeat match goal with
           | |- context [columnFrom Roster.headers 0 ?k] =>
               let c := eval vm_compute in (columnFrom Roster.headers 0 k) in
               change (columnFrom Roster.headers 0 k) with c
           end.
    cbv iota beta.
    repeat (erewrite Field by (vm_compute; reflexivity)).
    unfold fields. cbn [nth]. congruence.
Qed.

End BackToTheImport.

(** X18. From the export back to the import. When every field of every
    student is plain - not empty, without comma or line feed, without white
    space at its ends - the file [downloadCSV] writes is read back by
    [processCSV] student by student and field by field, in the same order:
    no line is dropped, and uploading what was read stores each student
    with the roster fields it had and all trials 0. *)
Theorem export_is_read_back :
  forall (num : Type) (N : JsNumber num)
         (students : list (Roster.StoredStudent num)) (schoolYear grade : jsstring),
    Forall (fun student => Forall plainField (Roster.csvRow student)) students ->
    exists parsed,
      processCSV (snd (Roster.downloadCSV students schoolYear grade)) = Ok parsed
      /\ List.map (fun student => List.map (fun k => student !! k) Roster.headers) parsed
         = List.map Roster.csvRow students
      /\ List.map Roster.studentData parsed = List.map uploadedAnew students.
Proof.
  intros num N students schoolYear grade F.
  set (rows := List.map (fun student => Roster.joinValues (u ",") (Roster.csvRow student))
                        students).
  assert (Lines : split newline (snd (Roster.downloadCSV students schoolYear grade))
                  = join (u ",") Roster.headers :: rows).
  { unfold Roster.downloadCSV. cbn [snd]. fold rows.
    apply (split_join newline); [discriminate|].
    constructor; [vm_compute; intuition discriminate|].
    apply List.Forall_forall. intros row I. unfold rows in I.
    apply in_map_iff in I as (student & <- & I).
    rewrite List.Forall_forall in F. apply (row_read_back student (F student I)). }
  assert (Headers : List.map trim (split comma (join (u ",") Roster.headers))
                    = Roster.headers) by (vm_compute; reflexivity).
  pose proof (processCSV_complete_lines
                (snd (Roster.downloadCSV students schoolYear grade))) as P.
  cbv zeta in P. rewrite Lines in P. cbn [hd] in P.
  change (drop 1 (join (u ",") Roster.headers :: rows)) with rows in P.
  rewrite Headers in P.
  assert (All : List.filter (complete Roster.headers) rows = rows).
  { unfold rows. clear P Lines. induction F as [|student rest Fs _ IH];
      [reflexivity|].
    cbn [List.map List.filter].
    destruct (row_read_back student Fs) as (_ & C & _). cbv zeta in C.
    rewrite C, IH. reflexivity. }
  rewrite All in P. eexists. split; [exact P|].
  assert (Fields : List.map (fun student =>
                               List.map (fun k => student !! k) Roster.headers)
                            (List.map (parseLine Roster.headers) rows)
                   = List.map Roster.csvRow students).
  { unfold rows. rewrite !List.map_map. apply List.map_ext_in. intros student I.
    rewrite List.Forall_forall in F.
    apply (row_read_back student (F student I)). }
  split; [exact Fields|].
  unfold rows. rewrite !List.map_map. apply List.map_ext_in. intros student I.
  rewrite List.Forall_forall in F.
  destruct (row_read_back student (F student I)) as (_ & _ & Row).
  cbv zeta in Row. unfold Roster.headers, Roster.csvRow in Row.
  cbn [List.map] in Row. injection Row as E1 E2 E3 E4 E5 E6 E7.
  unfold Roster.studentData, uploadedAnew, Roster.csvRow.
  fold Roster.headers in E1, E2, E3, E4, E5, E6, E7.
  rewrite E1, E2, E3, E4, E5, E6, E7. reflexivity.
Qed.

Lemma export_is_read_back_witness :
  let student : Roster.StoredStudent number :=
    {| Roster.enname := Some (u "Ann"); Roster.jpname := Some (u "J1");
       Roster.firstname := Some (u "A"); Roster.gender := Some (u "Girl");
       Roster.grade := Some (u "1"); Roster.class := Some (u "G1A");
       Roster.teacher := Some (u "Mr X");
       Roster.try1st := {[ u "situps" := int 21 ]}; Roster.try2nd := ∅ |} in
  Forall (fun student => Forall plainField (Roster.csvRow student)) [student]
  /\ exists parsed,
      processCSV (snd (Roster.downloadCSV [student] (u "2025") (u "G1A"))) = Ok parsed
      /\ List.map Roster.studentData parsed = [uploadedAnew student].
Proof.
  intros student.
  assert (F : Forall (fun student => Forall plainField (Roster.csvRow student))
                     [student]).
  { constructor; [|constructor].
    unfold Roster.csvRow, student. cbn.
    repeat (constructor;
            [eexists; split; [reflexivity|];
             split; [discriminate|];
             split; [vm_compute; intuition discriminate|];
             split; [vm_compute; intuition discriminate|];
             vm_compute; reflexivity|]).
    constructor. }
  split; [exact F|].
  destruct (export_is_read_back number _ [student] (u "2025") (u "G1A") F)
    as (parsed & P & _ & S).
  exists parsed. split; [exact P | exact S].
Defined.

(** ** The layout of a worksheet *)

(** X19. The layout of a worksheet does not depend on the student. Whatever
    the trials, every worksheet an export renders has the same fourteen
    added rows, from row 3 to row 16, with the same first cells, and the
    same twenty-two merged ranges; the ranges written into the code for a
    component name the row that component is added at. *)
Theorem worksheet_layout_is_fixed :
  forall (num : Type) (N : JsNumber num) (i : nat) (student : Student num)
         (sheet : list (SheetOp num)),
    Individual.sheetCalls i student = Ok sheet ->
    Single.sheetCalls i student = Ok sheet
    /\ addedRows 3 sheet
       = [ (3, Str (u "")); (4, Str (u "Component"));
           (5, Str (u "Grip Strength")); (6, Str (u "Grip Strength"));
           (7, Str (u "")); (8, Str (u "Sit-ups"));
           (9, Str (u "Seated Toe Touch")); (10, Str (u "Side Steps"));
           (11, Str (u "20 m Shuttle Runs")); (12, Str (u "50 m Sprint"));
           (13, Str (u "Long Jump")); (14, Str (u "Softball Throwing"));
           (15, Str (u "Total Score")); (16, Str (u "Grade")) ]
    /\ mergedRanges sheet
       = [ u "A1:J1"; u "C2:D2"; u "G2:F2"; u "H2:J2"; u "A4:B4"; u "C4:I4";
           u "A5:B7"; u "D7:H7"; u "J5:J7"; u "A8:B8"; u "C8:H8"; u "A9:B9";
           u "A10:B10"; u "A11:B11"; u "C11:H11"; u "A12:B12"; u "C12:G12";
           u "H12:I12"; u "A13:B13"; u "A14:B14"; u "A15:I15"; u "A16:I16" ].
Proof.
  intros num N i student sheet E.
  split; [rewrite <- E; symmetry; apply sheetCalls_same|].
  revert E. unfold Individual.sheetCalls.
  change (Object_keys componentOrder)
    with [ u "gripStrength"; u "situps"; u "seatedtoetouch"; u "sidesteps";
           u "20mshuttleruns"; u "50msprint"; u "longjump"; u "softballthrowing" ].
  cbn [forEach].
  repeat (unfold Individual.componentCalls at 1; decide_keys; cbv [orb];
          match goal with
          | |- context [calculateScore ?c ?g ?f ?s] =>
              let z := fresh "score" in
              destruct (calculateScore_known c g f s ltac:(vm_compute; tauto))
                as [z ->]
          end;
          cbn [bind]).
  destruct (determineGrade _ (class student)) as [letter|e]; cbn [bind];
    [|discriminate].
  intros [= <-]. split; reflexivity.
Qed.

Lemma worksheet_layout_is_fixed_witness :
  exists sheet,
    Individual.sheetCalls 1 gripOnce = Ok sheet
    /\ length (addedRows 3 sheet) = 14%nat
    /\ length (mergedRanges sheet) = 22%nat.
Proof.
  assert (E : exists sheet, Individual.sheetCalls 1 gripOnce = Ok sheet).
  { vm_compute. eexists. reflexivity. }
  destruct E as (sheet & E). exists sheet. split; [exact E|].
  destruct (worksheet_layout_is_fixed number _ 1%nat gripOnce sheet E)
    as (_ & Rows & Merges).
  rewrite Rows, Merges. split; reflexivity.
Defined.

(** ** The order of the scores *)

Lemma tables_climb :
  forallb (fun component =>
             str_eqb component (u "50msprint")
             || forallb (fun n => (lastStep component <=? n)
                                  || (climbs component Boy n && climbs component Girl n))
                        (upTo 299))
          (Object_keys (@scoringTables number _)) = true.
Proof. vm_compute. reflexivity. Qed.

Lemma tables_open :
  forallb (fun component =>
             str_eqb component (u "50msprint")
             || str_eqb component (u "gripStrength")
             || (openFrom (int 300) 10 (tableOf component Boy)
                 && openFrom (int 300) 10 (tableOf component Girl)))
          (Object_keys (@scoringTables number _)) = true.
Proof. vm_compute. reflexivity. Qed.

Lemma sprint_falls gender :
  forallb (fun k => (k <? 10) || falls gender k) (upTo 199) = true
  /\ openFrom (Real 20) 1 (tableOf (u "50msprint") gender) = true.
Proof. destruct gender; split; vm_compute; reflexivity. Qed.

Lemma openFrom_score component gender from points (q : Q) :
  In component (Object_keys (@scoringTables number _)) ->
  openFrom (Real from) points (tableOf component gender) = true ->
  (from <= q)%Q ->
  tableScore component gender (Real q) = points.
Proof.
  intros K O H. unfold openFrom in O. apply existsb_exists in O as (r & I & O).
  apply andb_true_iff in O as [O P]. apply andb_true_iff in O as [T L].
  apply bool_decide_eq_true in T. apply Z.eqb_eq in P.
  pose proof (tableOf_wellFormed component gender K) as WF.
  unfold wellFormed in WF. rewrite !andb_true_iff in WF.
  destruct WF as [[[D _] _] _].
  unfold tableScore. rewrite (find_the_range _ _ r D I); [exact P|].
  unfold inRange. rewrite T. apply andb_true_iff. split.
  - change le with number_le.
    apply (number_le_trans _ (Real from)); [exact L|].
    simpl. apply Qle_bool_iff. exact H.
  - reflexivity.
Qed.

Lemma climb_chain component gender :
  In component (Object_keys (@scoringTables number _)) ->
  component <> u "50msprint" ->
  forall (k : nat) n,
    0 <= n -> n + Z.of_nat k <= lastStep component ->
    tableScore component gender (int n)
    <= tableScore component gender (int (n + Z.of_nat k)).
Proof.
  intros K NS.
  pose proof tables_climb as G. rewrite forallb_forall in G. specialize (G component K).
  apply str_eqb_neq in NS. rewrite NS in G. cbn [orb] in G.
  rewrite forallb_forall in G.
  assert (Last : lastStep component <= 300).
  { unfold lastStep. destruct (str_eqb component (u "gripStrength")); lia. }
  induction k as [|k IH]; intros n Hn Hm.
  - rewrite Z.add_0_r. lia.
  - specialize (IH n Hn ltac:(lia)).
    specialize (G (n + Z.of_nat k)).
    assert (I : In (n + Z.of_nat k) (upTo 299)) by (apply upTo_In; lia).
    specialize (G I). apply orb_true_iff in G as [G|G];
      [apply Z.leb_le in G; lia|].
    assert (C : climbs component gender (n + Z.of_nat k) = true).
    { apply andb_true_iff in G as [GB GG]. destruct gender; assumption. }
    unfold climbs in C. apply Z.leb_le in C.
    replace (n + Z.of_nat (S k)) with (n + Z.of_nat k + 1) by lia. lia.
Qed.

Lemma whole_scores_climb component gender n m :
  In component (Object_keys (@scoringTables number _)) ->
  component <> u "50msprint" ->
  n <= m ->
  (component = u "gripStrength" -> m <= 100) ->
  tableScore component gender (int n) <= tableScore component gender (int m).
Proof.
  intros K NS H Cap.
  pose proof (tableScore_bounds component gender (int n) K) as Bn.
  pose proof (tableScore_bounds component gender (int m) K) as Bm.
  destruct (Z_lt_le_dec n 1) as [Low|Hn].
  { unfold int at 1. rewrite tableScore_below_one; [lia | exact K|].
    rewrite Zlt_Qlt in Low. exact Low. }
  destruct (Z_le_gt_dec m (lastStep component)) as [Hm|Hm].
  - replace m with (n + Z.of_nat (Z.to_nat (m - n))) by lia.
    apply climb_chain; [exact K | exact NS | lia | lia].
  - assert (NG : component <> u "gripStrength").
    { intros E. specialize (Cap E). unfold lastStep in Hm. rewrite E in Hm.
      change (str_eqb (u "gripStrength") (u "gripStrength")) with true in Hm.
      cbv iota in Hm. lia. }
    pose proof tables_open as O. rewrite forallb_forall in O.
    specialize (O component K).
    apply str_eqb_neq in NS, NG. rewrite NS, NG in O. cbn [orb] in O.
    assert (Om : openFrom (int 300) 10 (tableOf component gender) = true).
    { apply andb_true_iff in O as [OB OG]. destruct gender; assumption. }
    unfold lastStep in Hm. rewrite NG in Hm.
    unfold int at 2. rewrite (openFrom_score component gender (inject_Z 300) 10);
      [lia | exact K | exact Om|].
    rewrite <- Zle_Qle. lia.
Qed.

Lemma sprint_chain gender :
  forall (k : nat) n,
    10 <= n -> n + Z.of_nat k <= 200 ->
    sprintScore gender (n + Z.of_nat k) <= sprintScore gender n.
Proof.
  destruct (sprint_falls gender) as [G _]. rewrite forallb_forall in G.
  induction k as [|k IH]; intros n Hn Hm.
  - rewrite Z.add_0_r. lia.
  - specialize (IH n Hn ltac:(lia)).
    specialize (G (n + Z.of_nat k) ltac:(apply upTo_In; lia)).
    apply orb_true_iff in G as [G|G]; [apply Z.ltb_lt in G; lia|].
    unfold falls in G. apply Z.leb_le in G.
    replace (n + Z.of_nat (S k)) with (n + Z.of_nat k + 1) by lia. lia.
Qed.

Lemma sprint_scores_fall gender k1 k2 :
  10 <= k1 -> k1 <= k2 -> sprintScore gender k2 <= sprintScore gender k1.
Proof.
  intros H1 H.
  assert (End : forall k, 200 <= k -> sprintScore gender k = 1).
  { intros k Hk. destruct (sprint_falls gender) as [_ O].
    unfold sprintScore.
    apply (openFrom_score _ gender 20 1); [apply sprint_key | exact O|].
    apply (Qle_trans _ (inject_Z 200 * (1 # 10))%Q); [unfold Qle; simpl; lia|].
    apply Qmult_le_compat_r; [|discriminate].
    rewrite <- Zle_Qle. exact Hk. }
  destruct (Z_le_gt_dec k2 200) as [H2|H2].
  - replace k2 with (k1 + Z.of_nat (Z.to_nat (k2 - k1))) by lia.
    apply sprint_chain; lia.
  - rewrite (End k2) by lia.
    destruct (Z_le_gt_dec 200 k1) as [Hk|Hk]; [rewrite (End k1) by lia; lia|].
    rewrite <- (End 200) by lia.
    replace 200 with (k1 + Z.of_nat (Z.to_nat (200 - k1))) at 1 by lia.
    apply sprint_chain; lia.
Qed.

Lemma grip_ends_at_100 gender :
  forallb (fun r => number_le (max r) (Real 100)) (tableOf (u "gripStrength") gender)
  = true.
Proof. destruct gender; vm_compute; reflexivity. Qed.

(** X20. A better performance never scores lower. For the components other
    than the sprint, a greater whole measurement scores at least as much
    as a smaller one - for grip strength up to 100, where its table ends -
    and so a second trial never lowers the score of the first. For the
    sprint, a time of one second or more scores at least as much as any
    longer time. A grip strength above 100 scores 0. *)
Theorem better_performance_never_scores_lower :
  forall gender : Gender,
    (forall component n m,
        In component (Object_keys (@scoringTables number _)) ->
        component <> u "50msprint" ->
        n <= m ->
        (component = u "gripStrength" -> m <= 100) ->
        tableScore component gender (int n) <= tableScore component gender (int m))
    /\ (forall component firstTry secondTry,
           In component (Object_keys (@scoringTables number _)) ->
           component <> u "50msprint" ->
           (component = u "gripStrength" -> firstTry <= 100 /\ secondTry <= 100) ->
           exists once twice,
             calculateScore component gender (int firstTry) (int firstTry) = Ok once
             /\ calculateScore component gender (int firstTry) (int secondTry)
                = Ok twice
             /\ once <= twice)
    /\ (forall t1 t2 : Q,
           (1 <= t1)%Q -> (t1 <= t2)%Q ->
           exists faster slower,
             calculateScore (u "50msprint") gender (Real t1) (Real 0) = Ok faster
             /\ calculateScore (u "50msprint") gender (Real t2) (Real 0) = Ok slower
             /\ slower <= faster)
    /\ (forall q : Q,
           (100 < q)%Q ->
           calculateScore (u "gripStrength") gender (Real q) (Real 0) = Ok 0).
Proof.
  intros gender. split; [|split; [|split]].
  - intros component n m K NS H Cap. apply whole_scores_climb; assumption.
  - intros component firstTry secondTry K NS Cap.
    rewrite !calculateScore_tableScore by exact K. unfold lookedUp.
    pose proof NS as NS'. apply str_eqb_neq in NS'. rewrite NS'.
    change (Math_max (int firstTry) (int firstTry))
      with (number_max (int firstTry) (int firstTry)).
    rewrite number_max_same.
    change (Math_max (int firstTry) (int secondTry))
      with (if Qle_bool (inject_Z firstTry) (inject_Z secondTry)
            then int secondTry else int firstTry).
    eexists _, _. split; [reflexivity|]. split; [reflexivity|].
    destruct (Qle_bool (inject_Z firstTry) (inject_Z secondTry)) eqn:E; [|lia].
    apply Qle_bool_iff in E. rewrite <- Zle_Qle in E.
    apply whole_scores_climb; try assumption.
    intros G. apply Cap, G.
  - intros t1 t2 H1 H.
    rewrite !calculateScore_tableScore by apply sprint_key. unfold lookedUp.
    change (str_eqb (u "50msprint") (u "50msprint")) with true. cbv iota.
    rewrite !truncateToOneDecimal_Real.
    eexists _, _. split; [reflexivity|]. split; [reflexivity|].
    apply (sprint_scores_fall gender (Qfloor (t1 * 10)) (Qfloor (t2 * 10))).
    + rewrite <- (Qfloor_Z 10). apply Qfloor_resp_le.
      apply (Qle_trans _ (1 * 10)%Q); [unfold Qle; simpl; lia|].
      apply Qmult_le_compat_r; [exact H1 | discriminate].
    + apply Qfloor_resp_le. apply Qmult_le_compat_r; [exact H | discriminate].
  - intros q H.
    rewrite calculateScore_tableScore by (vm_compute; tauto). unfold lookedUp.
    change (str_eqb (u "gripStrength") (u "50msprint")) with false. cbv iota.
    change (Math_max (Real q) (Real 0)) with (number_max (Real q) (Real 0)).
    rewrite tableScore_max_zero by (vm_compute; tauto).
    unfold tableScore. rewrite find_uncovered; [reflexivity|].
    apply not_true_is_false. intros C. apply existsb_exists in C as (r & I & R).
    pose proof (grip_ends_at_100 gender) as E. rewrite forallb_forall in E.
    specialize (E r I). unfold inRange in R. apply andb_true_iff in R as [_ R].
    change le with number_le in R.
    pose proof (number_le_trans _ _ _ R E) as T. simpl in T.
    apply Qle_bool_iff in T. apply (Qlt_not_le _ _ H T).
Qed.

(** ** The export of all grades *)


(** ** The header of a worksheet *)

Lemma slice_middle (first : N) (middle : jsstring) (last : N) :
  slice 1 (-1) (first :: middle ++ [last]) = middle.
Proof.
  unfold slice, slice_index. cbn [length]. rewrite length_app. cbn [length].
  replace (1 <? 0) with false by reflexivity.
  replace (-1 <? 0) with true by reflexivity.
  rewrite Z.min_l by lia. rewrite Z.max_l by lia.
  change (Z.to_nat 1) with 1%nat. cbn [drop].
  replace (Z.to_nat (Z.of_nat (S (length middle + 1)) + -1 - 1)) with (length middle)
    by lia.
  apply take_app_length.
Qed.

Lemma slice_last (first : N) (middle : jsstring) (last : N) :
  slice_from (-1) (first :: middle ++ [last]) = [last].
Proof.
  unfold slice_from, slice, slice_index. cbn [length]. rewrite length_app. cbn [length].
  replace (-1 <? 0) with true by reflexivity.
  destruct (Z.ltb_spec (Z.of_nat (S (length middle + 1))) 0); [lia|].
  rewrite Z.max_l by lia. rewrite Z.min_l by lia.
  replace (Z.to_nat (Z.of_nat (S (length middle + 1))
                     - (Z.of_nat (S (length middle + 1)) + -1))) with 1%nat by lia.
  replace (Z.to_nat (Z.of_nat (S (length middle + 1)) + -1))
    with (S (length middle)) by lia.
  cbn [drop]. rewrite drop_app_length. reflexivity.
Qed.

Section Header.
Context {num : Type} `{!JsNumber num}.

Lemma componentCalls_appends (student : Student num) key totalScore sheet st :
  Individual.componentCalls student (totalScore, sheet) key = Ok st ->
  exists rows, snd st = sheet ++ rows.
Proof.
  unfold Individual.componentCalls.
  destruct (str_eqb key (u "gripStrength")).
  - destruct (calculateScore _ _ _ _); cbn [bind]; [|discriminate].
    intros [= <-]. eexists. reflexivity.
  - destruct (str_eqb key (u "situps") || str_eqb key (u "50msprint")
              || str_eqb key (u "20mshuttleruns"));
      (destruct (calculateScore _ _ _ _); cbn [bind]; [|discriminate]);
      intros [= <-]; cbn [snd]; rewrite <- ?app_assoc; eexists; reflexivity.
Qed.

Lemma components_append (student : Student num) keys :
  forall totalScore sheet st,
    forEach (Individual.componentCalls student) keys (totalScore, sheet) = Ok st ->
    exists rows, snd st = sheet ++ rows.
Proof.
  induction keys as [|key keys IH]; intros totalScore sheet st; cbn [forEach].
  - intros [= <-]. exists []. rewrite app_nil_r. reflexivity.
  - destruct (Individual.componentCalls student (totalScore, sheet) key)
      as [[t1 s1]|e] eqn:E; cbn [bind]; [|discriminate].
    destruct (componentCalls_appends _ _ _ _ _ E) as [rows1 E1]. cbn [snd] in E1.
    intros F. destruct (IH _ _ _ F) as [rows2 E2].
    exists (rows1 ++ rows2). rewrite E2, E1, app_assoc. reflexivity.
Qed.

Lemma sheetCalls_header i (student : Student num) sheet :
  Individual.sheetCalls i student = Ok sheet ->
  exists rows, sheet = Individual.headerCalls i student ++ rows.
Proof.
  unfold Individual.sheetCalls.
  destruct (forEach _ _ _) as [[totalScore body]|e] eqn:F; cbn [bind]; [|discriminate].
  destruct (components_append _ _ _ _ _ F) as [rows E]. cbn [snd] in E.
  destruct (determineGrade _ _); cbn [bind]; [|discriminate].
  intros [= <-]. rewrite E, <- !app_assoc. eexists. reflexivity.
Qed.

End Header.

(** X22. The header of a worksheet names the student and splits the class.
    In the single workbook the cell H2 of every worksheet holds the name of
    the worksheet, the position of the student in the list and the English
    name. For a class written as one character, a grade and one character
    for the section, the cell B2 holds the grade and the cell E2 the
    section, and the worksheet of the archive is named after the grade. *)
Theorem header_names_the_student :
  forall (num : Type) (N : JsNumber num) (students : list (Student num))
         (selectedGrade fileName : jsstring) (workbook : list (Worksheet num))
         (k : nat) (worksheet : Worksheet num),
    Single.exportGradeToSingleWorkbook students selectedGrade = Ok (fileName, workbook) ->
    workbook !! k = Some worksheet ->
    exists student,
      students !! k = Some student
      /\ sheetName worksheet = nat_to_string (S k) ++ u " " ++ enname student
      /\ In (SetValue (u "H2") (Str (sheetName worksheet))) (calls worksheet)
      /\ forall first middle last,
          class student = first :: middle ++ [last] ->
          In (SetValue (u "B2") (Str middle)) (calls worksheet)
          /\ In (SetValue (u "E2") (Str [last])) (calls worksheet)
          /\ forall zipName zip file,
              Individual.exportGradeToIndividualWorkbooks students selectedGrade
              = Ok (zipName, zip) ->
              zip !! k = Some file ->
              sheetName (snd file) = u "Grade " ++ middle
              /\ calls (snd file) = calls worksheet.
Proof.
  intros num N students selectedGrade fileName workbook k worksheet E L.
  pose proof (exports_same_sheets students selectedGrade) as Same.
  rewrite E in Same. cbn [resultMap snd] in Same.
  unfold Single.exportGradeToSingleWorkbook in E.
  pose proof (single_sheets students 1 0 []) as W.
  pose proof (single_loop students 1 0 []) as Loop.
  fold (indexed students) in W, Loop.
  destruct (forEach Single.addWorksheet (indexed students) (1%nat, []))
    as [[i sheets]|e] eqn:F; cbn [bind] in E; [|discriminate].
  injection E as _ <-. cbn [snd].
  destruct (forallb (fun student => gradeKnown (class student)) students);
    [|discriminate].
  destruct W as (sheets' & W & Names). cbn [app] in W.
  assert (Es : sheets' = sheets) by congruence. subst sheets'. clear W.
  cbn [resultMap snd List.map app] in Loop.
  destruct (sheetsFrom 1 students) as [css|e] eqn:SF; cbn [resultMap] in Loop;
    [|discriminate].
  injection Loop as Loop.
  assert (Lc : css !! k = Some (calls worksheet)).
  { rewrite <- Loop, list_lookup_fmap, L. reflexivity. }
  destruct (sheetsFrom_lookup students 1 css k _ SF Lc) as (student & Ls & Sc).
  exists student. split; [exact Ls|].
  assert (Name : sheetName worksheet = nat_to_string (S k) ++ u " " ++ enname student).
  { assert (Ln : List.map sheetName sheets !! k = Some (sheetName worksheet))
      by (rewrite list_lookup_fmap, L; reflexivity).
    rewrite Names, list_lookup_fmap in Ln.
    assert (Li : indexed students !! k = Some (k, student)).
    { unfold indexed. apply lookup_zip_with_Some. exists k, student.
      split; [reflexivity|]. split; [|exact Ls].
      apply lookup_seq. split; [reflexivity|]. apply lookup_lt_Some in Ls. exact Ls. }
    rewrite Li in Ln. injection Ln as <-. reflexivity. }
  split; [exact Name|].
  destruct (sheetCalls_header _ _ _ Sc) as [rows Hd].
  split.
  { rewrite Hd, Name. apply in_app_iff. left.
    unfold Individual.headerCalls. cbn [In]. do 17 right. left. reflexivity. }
  intros first middle last Cl. split; [|split].
  - rewrite Hd. apply in_app_iff. left. unfold Individual.headerCalls.
    rewrite Cl, slice_middle. cbn [In]. do 5 right. left. reflexivity.
  - rewrite Hd. apply in_app_iff. left. unfold Individual.headerCalls.
    rewrite Cl, slice_last. cbn [In]. do 11 right. left. reflexivity.
  - intros zipName zip file EI Lz. rewrite EI in Same. cbn [resultMap snd] in Same.
    injection Same as Same.
    assert (Calls : calls (snd file) = calls worksheet).
    { assert (Lk : List.map (fun file : jsstring * Worksheet num => calls (snd file)) zip
                   !! k = Some (calls (snd file)))
        by (rewrite list_lookup_fmap, Lz; reflexivity).
      rewrite Same, list_lookup_fmap, L in Lk. injection Lk as Lk. symmetry. exact Lk. }
    split; [|exact Calls].
    unfold Individual.exportGradeToIndividualWorkbooks in EI.
    pose proof (individual_files students 1 []) as I.
    destruct (forEach Individual.addWorkbook students (1%nat, []))
      as [[j files]|e] eqn:FI; cbn [bind] in EI; [|discriminate].
    injection EI as _ <-. cbn [snd] in *.
    destruct (forallb (fun student => gradeKnown (class student)) students);
      [|discriminate].
    destruct I as (zip' & I & _ & Sheets). cbn [app] in I.
    assert (Ez : zip' = files) by congruence. subst zip'. clear I.
    assert (Ln : List.map (fun file : jsstring * Worksheet num => sheetName (snd file))
                          files !! k = Some (sheetName (snd file)))
      by (rewrite list_lookup_fmap, Lz; reflexivity).
    rewrite Sheets, list_lookup_fmap, Ls in Ln. injection Ln as <-.
    rewrite Cl, slice_middle. reflexivity.
Qed.

Lemma header_names_the_student_witness :
  exists fileName workbook worksheet,
    Single.exportGradeToSingleWorkbook [gripOnce] (u "G2A") = Ok (fileName, workbook)
    /\ workbook !! 0%nat = Some worksheet
    /\ In (SetValue (u "H2") (Str (u "1 Taro"))) (calls worksheet)
    /\ In (SetValue (u "B2") (Str (u "2"))) (calls worksheet)
    /\ In (SetValue (u "E2") (Str (u "A"))) (calls worksheet).
Proof.
  assert (E : exists fileName worksheet rest,
             Single.exportGradeToSingleWorkbook [gripOnce] (u "G2A")
             = Ok (fileName, worksheet :: rest)).
  { vm_compute. eexists _, _, _. reflexivity. }
  destruct E as (fileName & worksheet & rest & E).
  exists fileName, (worksheet :: rest), worksheet.
  split; [exact E|]. split; [reflexivity|].
  destruct (header_names_the_student number _ [gripOnce] (u "G2A") fileName
              (worksheet :: rest) 0%nat worksheet E eq_refl)
    as (student & Ls & Name & H2 & Class).
  injection Ls as <-.
  destruct (Class 71%N (u "2") 65%N eq_refl) as (B2 & E2 & _).
  rewrite Name in H2. split; [exact H2|]. split; [exact B2 | exact E2].
Defined.

(** X23. Uploading a file twice is uploading it once: the second upload
    of the same students in the same year leaves every class section as the
    first left it. *)
Theorem upload_twice_is_upload_once :
  forall (num : Type) (N : JsNumber num) (currentYear : jsstring)
         (students : list StudentData) (db : Roster.Database num)
         (year classSection : jsstring),
    let once := Roster.uploadToFirebase currentYear students db in
    Roster.children (Roster.uploadToFirebase currentYear students once)
                    year classSection
    = Roster.children once year classSection.
Proof.
  intros num N currentYear students db year c once.
  destruct (decide (year = currentYear)) as [->|NE].
  - unfold once. rewrite !children_imported.
    rewrite map_union_assoc, map_union_idemp. reflexivity.
  - apply children_uploadToFirebase_year, NE.
Qed.

(** ** Line ends *)

Lemma trimEnd_snoc c s : is_ws c = true -> trimEnd (s ++ [c]) = trimEnd s.
Proof.
  intros W. induction s as [|x s IH]; cbn [app trimEnd].
  - rewrite W. reflexivity.
  - rewrite IH. reflexivity.
Qed.

Lemma trim_snoc c s : is_ws c = true -> trim (s ++ [c]) = trim s.
Proof.
  intros W. unfold trim. induction s as [|x s IH]; cbn [app trimStart].
  - rewrite W. reflexivity.
  - destruct (is_ws x); [exact IH|].
    change (x :: s ++ [c]) with ((x :: s) ++ [c]). apply trimEnd_snoc, W.
Qed.

Lemma trim_cons c s : is_ws c = true -> trim (c :: s) = trim s.
Proof. intros W. unfold trim. cbn [trimStart]. rewrite W. reflexivity. Qed.

Lemma fields_snoc c line :
  is_ws c = true -> c <> comma -> fields (line ++ [c]) = fields line.
Proof.
  intros W NC. unfold fields.
  assert (S : forall s,
             exists w ws w',
               split comma s = w :: ws
               /\ ((ws = [] /\ split comma (s ++ [c]) = [w ++ [c]])
                   \/ (ws <> [] /\ split comma (s ++ [c]) = w :: w'
                       /\ List.map trim w' = List.map trim ws))).
  { induction s as [|x s IH].
    - exists [], [], []. split; [reflexivity|]. left. split; [reflexivity|].
      cbn [app split]. destruct (N.eqb_spec c comma); [congruence|]. reflexivity.
    - destruct IH as (w & ws & w' & E & Cases). cbn [app split].
      destruct (N.eqb_spec x comma) as [->|NX].
      + exists [], (w :: ws).
        destruct Cases as [[-> E']|(NE & E' & T)].
        * exists [w ++ [c]]. split; [rewrite E; reflexivity|]. right.
          split; [discriminate|]. rewrite E'. split; [reflexivity|].
          cbn [List.map]. rewrite trim_snoc by exact W. reflexivity.
        * exists (w :: w'). split; [rewrite E; reflexivity|]. right.
          split; [discriminate|]. rewrite E'. split; [reflexivity|].
          cbn [List.map]. rewrite T. reflexivity.
      + rewrite E. exists (x :: w), ws.
        destruct Cases as [[-> E']|(NE & E' & T)].
        * exists []. split; [reflexivity|]. left. split; [reflexivity|].
          rewrite E'. reflexivity.
        * exists w'. split; [reflexivity|]. right. split; [exact NE|].
          rewrite E'. split; [reflexivity | exact T]. }
  destruct (S line) as (w & ws & w' & E & [[-> E']|(NE & E' & T)]); rewrite E, E'.
  - cbn [List.map]. rewrite trim_snoc by exact W. reflexivity.
  - cbn [List.map]. rewrite T. reflexivity.
Qed.

Lemma fields_cons c line :
  is_ws c = true -> c <> comma -> fields (c :: line) = fields line.
Proof.
  intros W NC. unfold fields. cbn [split].
  destruct (N.eqb_spec c comma); [congruence|].
  pose proof (split_nonempty comma line) as NE.
  destruct (split comma line) as [|w ws]; [congruence|].
  cbn [List.map]. rewrite trim_cons by exact W. reflexivity.
Qed.

(** [processCSV] depends on the lines of the file through their fields
    alone. *)
Lemma processCSV_fields csvData csvData' :
  Forall2 (fun line line' => fields line = fields line')
          (split newline csvData) (split newline csvData') ->
  processCSV csvData = processCSV csvData'.
Proof.
  unfold processCSV. intros F.
  destruct F as [|line0 line0' rest rest' E0 F]; [reflexivity|].
  unfold fields in E0. rewrite E0. do 2 f_equal.
  change (drop 1 (line0 :: rest)) with rest.
  change (drop 1 (line0' :: rest')) with rest'.
  induction F as [|line line' rest rest' E F IH]; [reflexivity|].
  cbn [List.map]. rewrite IH. f_equal.
  unfold parseLine. unfold fields in E. rewrite E. reflexivity.
Qed.

Lemma split_windows (lines : list jsstring) :
  lines <> [] ->
  Forall (fun line => ~ In newline line) lines ->
  Forall2 (fun line line' => fields line = fields line')
          (split newline (join [carriageReturn; newline] lines)) lines.
Proof.
  induction lines as [|line lines IH]; intros NE F; [congruence|].
  apply Forall_cons_1 in F as [Hl F].
  destruct lines as [|line' lines].
  - cbn [join]. rewrite split_no_separator by exact Hl. repeat constructor.
  - change (join [carriageReturn; newline] (line :: line' :: lines))
      with (line ++ [carriageReturn]
            ++ newline :: join [carriageReturn; newline] (line' :: lines)).
    rewrite app_assoc, split_app.
    + constructor; [|apply IH; [discriminate | exact F]].
      apply fields_snoc; [reflexivity | discriminate].
    + intros I. apply in_app_or in I as [I|[I|[]]]; [exact (Hl I) | discriminate].
Qed.

(** X24. Line ends and byte order mark. A file written with Windows line
    ends, a carriage return before every line feed, is read by [processCSV]
    as the same file with plain line feeds is, and a byte order mark at the
    start of the file changes nothing either: both are white space at the
    end or the start of a field, which the parser trims. *)
Theorem windows_line_ends_are_read_alike :
  forall lines : list jsstring,
    lines <> [] ->
    Forall (fun line => ~ In newline line) lines ->
    processCSV (join [carriageReturn; newline] lines) = processCSV (join [newline] lines)
    /\ processCSV (byteOrderMark :: join [newline] lines)
       = processCSV (join [newline] lines)
    /\ processCSV (join [newline] lines)
       = Ok (List.filter hasRequiredFields
               (List.map (parseLine (fields (hd [] lines))) (tl lines))).
Proof.
  intros lines NE F.
  assert (S : split newline (join [newline] lines) = lines)
    by (apply (split_join newline); assumption).
  split; [|split].
  - apply processCSV_fields. rewrite S. apply split_windows; assumption.
  - apply processCSV_fields. rewrite S.
    destruct lines as [|line0 rest]; [congruence|].
    assert (B : split newline (byteOrderMark :: join [newline] (line0 :: rest))
                = (byteOrderMark :: line0) :: rest).
    { cbn [split]. change (N.eqb byteOrderMark newline) with false. cbv iota.
      rewrite S. reflexivity. }
    rewrite B. constructor.
    + apply fields_cons; [reflexivity | discriminate].
    + clear. induction rest; constructor; auto.
  - unfold processCSV. rewrite S. destruct lines as [|line0 rest]; [congruence|].
    reflexivity.
Qed.

Lemma windows_line_ends_are_read_alike_witness :
  let lines := [standardHeader; u "Ann,J1,A,Girl,1,G1A,Mr X"] in
  processCSV (join [carriageReturn; newline] lines) = processCSV (join [newline] lines)
  /\ exists student, processCSV (join [carriageReturn; newline] lines) = Ok [student]
                     /\ student !! u "teacher" = Some (u "Mr X").
Proof.
  intros lines.
  destruct (windows_line_ends_are_read_alike lines) as (W & _ & P).
  - discriminate.
  - repeat constructor; vm_compute; intuition discriminate.
  - split; [exact W|]. rewrite W, P. eexists. split; [vm_compute; reflexivity|].
    vm_compute. reflexivity.
Defined.
